(** * Training orchestration and model versioning of the HIL server

    A shallow embedding of the server's data access layer
    ([data_manager.py]), version store ([version_manager.py]), cross
    validation driver ([trainer.py]), request handlers ([main.py]) and model
    cache ([inference.py]), with the properties of the specification stated
    and proved over it.

    Conventions of the embedding:
    - a directory is a finite map from entry names to contents. An image
      identifier or a version is a string that the code joins to a
      directory: it is followed component by component as the operating
      system does (POSIX: [/] separates, [.] stays, [..] climbs, no
      links), through the tree of [DATA_DIR] as [config.py] lays it out,
      resp. through [VERSIONS_DIR]. A path that leaves what the world
      describes is taken to lead nowhere, and the properties are stated
      for paths that stay within it;
    - Python exceptions are values of [exn]; code that mutates files or
      module globals is a state transformer in the monad [M], which returns
      the state reached even when it raises;
    - Python floats are idealised as rationals ([Q]); [round(x, 6)] is
      rounding to six decimals, ties to even;
    - file operations themselves do not fail, and locks are not modelled:
      every handler runs atomically;
    - the numeric work of an epoch (forward and backward passes, validation)
      is an input of the model: an [environment] tells, for every fold and
      epoch, what the epoch produced, whether it raised, and whether a
      cancellation request arrived from another thread. *)

From Stdlib Require Import ZArith NArith QArith Qround Lia.
From Stdlib Require Import Ascii String Decimal DecimalString DecimalN.
From stdpp Require Import base option list sorting gmap strings.

Close Scope Q_scope.
Open Scope nat_scope.

(** ** Exceptions and the state-and-exception monad *)

Inductive exn :=
  | ValueError
  | JSONDecodeError
  | UnicodeDecodeError
  | FileNotFoundError
  | FileExistsError
  | IsADirectoryError
  | NotADirectoryError
  | PermissionError
  | IndexError
  | AttributeError
  | ZeroDivisionError
  | RecursionError
  | TrainingCancelled
  | RuntimeError.

Inductive result (A : Type) :=
  | Ok (a : A)
  | Raise (e : exn).
Arguments Ok {A} a.
Arguments Raise {A} e.

#[global] Instance exn_eq_dec : EqDecision exn.
Proof. solve_decision. Defined.

(** [isinstance(e, ValueError)]: the class and its subclasses, as an
    [except ValueError] clause takes them. *)
Definition is_ValueError (e : exn) : bool :=
  match e with
  | ValueError | JSONDecodeError | UnicodeDecodeError => true
  | _ => false
  end.

(** [isinstance(e, OSError)]. *)
Definition is_OSError (e : exn) : bool :=
  match e with
  | FileNotFoundError | FileExistsError | IsADirectoryError
  | NotADirectoryError | PermissionError => true
  | _ => false
  end.

(** A computation over a store [S]: the store after the call is returned
    whether the call returns or raises. *)
Definition M (S A : Type) : Type := S → result A * S.

#[global] Instance M_ret {S} : MRet (M S) := λ A a s, (Ok a, s).
#[global] Instance M_bind {S} : MBind (M S) := λ A B k m s,
  match m s with
  | (Ok a, s') => k a s'
  | (Raise e, s') => (Raise e, s')
  end.

Definition raise {S A} (e : exn) : M S A := λ s, (Raise e, s).
Definition gets {S A} (f : S → A) : M S A := λ s, (Ok (f s), s).
Definition modify {S} (f : S → S) : M S unit := λ s, (Ok tt, f s).
Definition of_result {S A} (r : result A) : M S A := λ s, (r, s).

(** [try: body except e: handler e]. *)
Definition try_except {S A} (body : M S A) (handler : exn → M S A) : M S A :=
  λ s, match body s with
       | (Ok a, s') => (Ok a, s')
       | (Raise e, s') => handler e s'
       end.

(** [for x in xs: body x]. *)
Fixpoint for_each {S A} (xs : list A) (body : A → M S unit) : M S unit :=
  match xs with
  | [] => mret tt
  | x :: xs' => body x ;; for_each xs' body
  end.

(** ** Floats *)

Definition float : Type := Q.

(** Python's [a > b]. *)
Definition fgt (a b : float) : bool := negb (Qle_bool a b).

(** [max(a, b)]: the first argument unless the second is larger. *)
Definition fmax (a b : float) : float := if fgt b a then b else a.

(** Nearest integer, ties to the even neighbour. *)
Definition round_half_even (x : Q) : Z :=
  let q := (Qnum x / Zpos (Qden x))%Z in
  let r := (Qnum x mod Zpos (Qden x))%Z in
  match (2 * r ?= Zpos (Qden x))%Z with
  | Lt => q
  | Gt => (q + 1)%Z
  | Eq => if Z.even q then q else (q + 1)%Z
  end.

(** [round(x, 6)]. *)
Definition round6 (x : float) : float :=
  Qred (round_half_even (x * 1000000)%Q # 1000000).

(** [sum(xs)], left to right from 0. *)
Definition fsum (xs : list float) : float :=
  foldl (λ acc x, Qred (acc + x)%Q) 0%Q xs.

(** [sum(xs) / len(xs)], which is also [np.mean(xs)] on a non-empty list. *)
Definition fmean (xs : list float) : float :=
  Qred (fsum xs / inject_Z (Z.of_nat (length xs)))%Q.

(** [xs[i]] for a Python integer index: negative indices count from the end,
    out of range raises. *)
Definition py_index {A} (xs : list A) (i : Z) : result A :=
  let n := Z.of_nat (length xs) in
  let j := if decide (i < 0)%Z then (i + n)%Z else i in
  if decide (0 ≤ j < n)%Z then
    match xs !! Z.to_nat j with
    | Some x => Ok x
    | None => Raise IndexError
    end
  else Raise IndexError.

(** ** config.py *)

Module config.
Definition ENCODER_NAME : string := "resnet34".
Definition IMAGE_SIZE : nat := 512.
Definition BATCH_SIZE : nat := 4.
Definition DEFAULT_MAX_EPOCHS : Z := 50.
Definition LEARNING_RATE : float := (1 # 10000)%Q.
Definition WEIGHT_DECAY : float := (1 # 100000)%Q.
Definition N_FOLDS : nat := 5.
Definition MIN_IMAGES_FOR_TRAINING : nat := 2.
End config.

(** ** Persisted documents and process state *)

Definition timestamp : Type := string.
Definition bytes : Type := list Byte.byte.

(** Model parameters are opaque to the orchestration. *)
Definition state_dict : Type := list float.

(** What [torch.save] writes for a fold. *)
Module Checkpoint.
Record t := {
  model_state_dict : state_dict;
  epoch : Z;
  best_dice : float;
  fold_idx : nat;
}.
End Checkpoint.

(** The run record ([training_log.json]). *)
Module Log.
Record EpochEntry := {
  epoch : Z;
  train_loss : float;
  val_dice : float;
}.

Record Fold := {
  fold_idx : nat;
  train_count : nat;
  val_count : nat;
  best_dice : float;
  best_epoch : Z;
  epochs : list EpochEntry;
}.

Record Hyperparameters := {
  encoder_name : string;
  image_size : nat;
  batch_size : nat;
  learning_rate : float;
  weight_decay : float;
  max_epochs_per_fold : Z;
  n_folds : nat;
}.

Record Dataset := {
  total_pairs : nat;
  completed_pairs : nat;
  unannotated_pairs : nat;
}.

Record Results := {
  mean_dice : float;
  fold_dices : list float;
  best_fold_idx : Z;
  best_fold_dice : float;
}.

Record t := {
  version : string;
  started_at : timestamp;
  completed_at : option timestamp;
  status : string;
  hyperparameters : Hyperparameters;
  dataset : Dataset;
  results : option Results;
  folds : list Fold;
}.
End Log.

(** The [training_status] dictionary of [main.py]; the keys ["error"] and
    ["version"] are absent until first set. *)
Module Status.
Record t := {
  status : string;
  epoch : Z;
  max_epochs : Z;
  best_dice : float;
  current_fold : nat;
  n_folds : nat;
  started_at : option timestamp;
  completed_at : option timestamp;
  error : option exn;
  version : option string;
}.
End Status.

(** The four data directories of [config.py]. *)
Inductive data_dir :=
  | COMPLETED_IMAGES_DIR
  | COMPLETED_ANNOTATIONS_DIR
  | UNANNOTATED_IMAGES_DIR
  | UNANNOTATED_ANNOTATIONS_DIR.

(** [os.path.join(d, fname)]. *)
Definition path : Type := data_dir * string.
Definition training_pair : Type := path * path.

Record DataStore := {
  completed_images : gmap string bytes;
  completed_annotations : gmap string bytes;
  unannotated_images : gmap string bytes;
  unannotated_annotations : gmap string bytes;
}.

(** The files of a data directory, by name. *)
Definition directory (s : DataStore) (d : data_dir) : gmap string bytes :=
  match d with
  | COMPLETED_IMAGES_DIR => completed_images s
  | COMPLETED_ANNOTATIONS_DIR => completed_annotations s
  | UNANNOTATED_IMAGES_DIR => unannotated_images s
  | UNANNOTATED_ANNOTATIONS_DIR => unannotated_annotations s
  end.

(** Paths as the operating system reads them (POSIX). *)
Module posixpath.
(** [p.split(sep)]. *)
Fixpoint split (sep : ascii) (p : string) : list string :=
  match p with
  | EmptyString => [EmptyString]
  | String c rest =>
      if Ascii.eqb c sep then EmptyString :: split sep rest
      else match split sep rest with
           | first :: others => String c first :: others
           | [] => [String c EmptyString]
           end
  end.

(** The components of a path: the names between the separators. *)
Definition components (p : string) : list string := split "/" p.

(** [isabs(p)]: [os.path.join(d, p)] is then [p] itself. *)
Definition isabs (p : string) : bool :=
  match p with
  | String c _ => Ascii.eqb c "/"
  | EmptyString => false
  end.

(** A NUL character in a path: [os.stat] raises [ValueError], which
    [os.path.exists] and [os.path.isdir] answer with [False]. *)
Fixpoint has_nul (p : string) : bool :=
  match p with
  | EmptyString => false
  | String c rest => Ascii.eqb c "000" || has_nul rest
  end.

(** A file name: one component that names an entry, that is, neither
    empty nor [.] nor [..], without separator and without NUL. *)
Definition is_name (p : string) : bool :=
  negb (has_nul p)
  && bool_decide (components p = [p])
  && negb (bool_decide (p = "" ∨ p = "." ∨ p = "..")).
End posixpath.

(** Where a path of the data tree leads: [DATA_DIR] holds the two
    partitions, each holds its image and its annotation directory, and
    these hold plain files. *)
Inductive place :=
  | data_root
  | partition (completed : bool)
  | folder (d : data_dir)
  | entry (d : data_dir) (name : string).

(** The place a path leads to; [missing] when a component leads through
    a file or through a name that is not there; [beyond] when the path
    leaves the tree the store describes: above [DATA_DIR], into a part of
    it that is no data directory, or anywhere as an absolute path. *)
Inductive lookup :=
  | at_place (p : place)
  | missing
  | beyond.

Definition partition_of (d : data_dir) : bool :=
  match d with
  | COMPLETED_IMAGES_DIR | COMPLETED_ANNOTATIONS_DIR => true
  | UNANNOTATED_IMAGES_DIR | UNANNOTATED_ANNOTATIONS_DIR => false
  end.

(** One component further from [p]: [.] and the empty component stay,
    [..] climbs, a name enters. A name of a data directory is followed
    no further, since it is no directory. *)
Definition step (p : place) (component : string) : lookup :=
  match p with
  | entry _ _ => missing
  | _ =>
      if decide (component = "" ∨ component = ".") then at_place p
      else if decide (component = "..") then
        match p with
        | folder d => at_place (partition (partition_of d))
        | partition _ => at_place data_root
        | _ => beyond
        end
      else
        match p with
        | folder d => at_place (entry d component)
        | partition completed =>
            if decide (component = "images") then
              at_place (folder (if completed then COMPLETED_IMAGES_DIR
                                else UNANNOTATED_IMAGES_DIR))
            else if decide (component = "annotations") then
              at_place (folder (if completed then COMPLETED_ANNOTATIONS_DIR
                                else UNANNOTATED_ANNOTATIONS_DIR))
            else beyond
        | _ =>
            if decide (component = "images_completed") then
              at_place (partition true)
            else if decide (component = "images_unannotated") then
              at_place (partition false)
            else beyond
        end
  end.

Fixpoint walk (p : place) (components : list string) : lookup :=
  match components with
  | [] => at_place p
  | component :: rest =>
      match step p component with
      | at_place p' => walk p' rest
      | stopped => stopped
      end
  end.

(** Where [os.path.join(d, relative)] leads. *)
Definition resolve (p : path) : lookup :=
  if posixpath.has_nul p.2 then missing
  else if posixpath.isabs p.2 then beyond
  else walk (folder p.1) (posixpath.components p.2).

(** The content of the file at a path, if the path leads to a file. *)
Definition read (s : DataStore) (p : path) : option bytes :=
  match resolve p with
  | at_place (entry d name) => directory s d !! name
  | _ => None
  end.

(** What [json.load] returns. A number is an integer or a float; the
    members of an object are kept in the order of the text, a key that
    comes twice included. *)
#[warnings="-register-all"]
Inductive json :=
  | JNull
  | JBool (b : bool)
  | JInt (n : Z)
  | JFloat (x : float)
  | JNaN
  | JInfinity (negative : bool)
  | JString (s : string)
  | JArray (items : list json)
  | JObject (members : list (string * json)).

(** Content of a [training_log.json], by what reading it gives: [open]
    or [json.load] raises (on a file that cannot be opened, on bytes that
    are not UTF-8, on text that is not JSON, on a document nested too
    deep), or the document is the record [finalize_version] has written,
    or it is some other JSON document. *)
Inductive LogFile :=
  | Unreadable (e : exn)
  | Doc (log : Log.t)
  | Json (v : json).

(** A version directory: [fold_{i}.pt], [best.pt], [training_log.json]. *)
Record VersionDir := {
  vd_folds : gmap Z Checkpoint.t;
  vd_best : option Checkpoint.t;
  vd_log : option LogFile;
}.

(** An entry of [VERSIONS_DIR]: a plain file or a directory. *)
Inductive Entry :=
  | File
  | Dir (d : VersionDir).

(** A task handed to [BackgroundTasks.add_task]. *)
Inductive Task :=
  | run_training_task_with (training_pairs : list training_pair) (max_epochs : Z).

(** Everything the server reads and writes. A missing [VERSIONS_DIR]
    behaves like an empty one in every function below. *)
Record world := {
  data : DataStore;
  versions : gmap string Entry;          (* VERSIONS_DIR *)
  current_folds : gmap Z Checkpoint.t;   (* CURRENT_PT_DIR/fold_{i}.pt *)
  best_pt : option Checkpoint.t;         (* BEST_MODEL_PATH *)
  _models : list state_dict;             (* inference._models *)
  _models_loaded : bool;                 (* inference._models_loaded *)
  training_status : Status.t;
  training_cancel_event : bool;
  background_tasks : list Task;
  ticks : nat;                           (* calls of datetime.now() so far *)
}.

Definition set_data (f : DataStore → DataStore) (w : world) : world :=
  {| data := f (data w); versions := versions w;
     current_folds := current_folds w; best_pt := best_pt w;
     _models := _models w; _models_loaded := _models_loaded w;
     training_status := training_status w;
     training_cancel_event := training_cancel_event w;
     background_tasks := background_tasks w; ticks := ticks w |}.

Definition set_versions (f : gmap string Entry → gmap string Entry)
    (w : world) : world :=
  {| data := data w; versions := f (versions w);
     current_folds := current_folds w; best_pt := best_pt w;
     _models := _models w; _models_loaded := _models_loaded w;
     training_status := training_status w;
     training_cancel_event := training_cancel_event w;
     background_tasks := background_tasks w; ticks := ticks w |}.

Definition set_current_folds (f : gmap Z Checkpoint.t → gmap Z Checkpoint.t)
    (w : world) : world :=
  {| data := data w; versions := versions w;
     current_folds := f (current_folds w); best_pt := best_pt w;
     _models := _models w; _models_loaded := _models_loaded w;
     training_status := training_status w;
     training_cancel_event := training_cancel_event w;
     background_tasks := background_tasks w; ticks := ticks w |}.

Definition set_best_pt (c : option Checkpoint.t) (w : world) : world :=
  {| data := data w; versions := versions w;
     current_folds := current_folds w; best_pt := c;
     _models := _models w; _models_loaded := _models_loaded w;
     training_status := training_status w;
     training_cancel_event := training_cancel_event w;
     background_tasks := background_tasks w; ticks := ticks w |}.

Definition set_inference (ms : list state_dict) (loaded : bool)
    (w : world) : world :=
  {| data := data w; versions := versions w;
     current_folds := current_folds w; best_pt := best_pt w;
     _models := ms; _models_loaded := loaded;
     training_status := training_status w;
     training_cancel_event := training_cancel_event w;
     background_tasks := background_tasks w; ticks := ticks w |}.

Definition set_training_status (f : Status.t → Status.t) (w : world) : world :=
  {| data := data w; versions := versions w;
     current_folds := current_folds w; best_pt := best_pt w;
     _models := _models w; _models_loaded := _models_loaded w;
     training_status := f (training_status w);
     training_cancel_event := training_cancel_event w;
     background_tasks := background_tasks w; ticks := ticks w |}.

Definition set_training_cancel_event (b : bool) (w : world) : world :=
  {| data := data w; versions := versions w;
     current_folds := current_folds w; best_pt := best_pt w;
     _models := _models w; _models_loaded := _models_loaded w;
     training_status := training_status w;
     training_cancel_event := b;
     background_tasks := background_tasks w; ticks := ticks w |}.

Definition add_task (t : Task) (w : world) : world :=
  {| data := data w; versions := versions w;
     current_folds := current_folds w; best_pt := best_pt w;
     _models := _models w; _models_loaded := _models_loaded w;
     training_status := training_status w;
     training_cancel_event := training_cancel_event w;
     background_tasks := background_tasks w ++ [t]; ticks := ticks w |}.

Definition tick (w : world) : world :=
  {| data := data w; versions := versions w;
     current_folds := current_folds w; best_pt := best_pt w;
     _models := _models w; _models_loaded := _models_loaded w;
     training_status := training_status w;
     training_cancel_event := training_cancel_event w;
     background_tasks := background_tasks w; ticks := S (ticks w) |}.

(** ** What the model takes from outside *)

(** The result of one epoch of one fold: the training loss, the mean
    validation Dice and the parameters reached. *)
Record EpochOutcome := {
  avg_loss : float;
  mean_dice : float;
  weights : state_dict;
}.

Record environment := {
  (** the wall clock, by number of earlier readings *)
  clock : nat → timestamp;
  (** [random.shuffle] *)
  shuffle : list training_pair → list training_pair;
  (** building the model of fold [f] (loading the pretrained checkpoint)
      raises *)
  setup_raises : nat → bool;
  (** another thread runs [training_cancel_event.set()] just before the
      check at the top of epoch [e] of fold [f] *)
  cancel_arrives : nat → Z → bool;
  (** the training and validation passes of epoch [e] of fold [f];
      [None] when they raise *)
  run_epoch : nat → Z → option EpochOutcome;
}.

(** [datetime.now().isoformat()]. *)
Definition datetime_now (env : environment) : M world timestamp :=
  λ w, (Ok (clock env (ticks w)), tick w).

(** ** inference.py: the loaded model set *)

Module inference.
(** [reload_model()]: drop the loaded models, so that the next inference
    loads the files of the current slot again. *)
Definition reload_model : M world unit :=
  modify (set_inference [] false).

(** [_load_single_model(model_path)]: a model with the parameters of the
    checkpoint. *)
Definition _load_single_model (c : Checkpoint.t) : state_dict :=
  Checkpoint.model_state_dict c.

(** [[p for p in fold_paths if os.path.exists(p)]], by content. *)
Definition existing_folds (w : world) : list Checkpoint.t :=
  omap (λ i, current_folds w !! Z.of_nat i) (seq 0 config.N_FOLDS).

Definition load_ensemble : M world unit :=
  existing ← gets existing_folds;
  match existing with
  | _ :: _ =>
      modify (λ w, set_inference (_load_single_model <$> existing)
                     (_models_loaded w) w)
  | [] =>
      best ← gets best_pt;
      match best with
      | Some c =>
          modify (λ w, set_inference [_load_single_model c]
                         (_models_loaded w) w)
      | None => modify (λ w, set_inference [] (_models_loaded w) w)
      end
  end;;
  modify (λ w, set_inference (_models w) true w).

(** Steps 1 to 6 of [run_inference]: from the loaded models and the bytes
    of the image file to the bytes of the mask; it raises on a file that
    is no image. *)
Definition forward_pass : Type := list state_dict → bytes → result bytes.

(** [model_path] is not used by the function and is left out. *)
Definition run_inference (ensemble : forward_pass) (image_path : path)
    : M world (option bytes) :=
  loaded ← gets _models_loaded;
  (if negb loaded then load_ensemble else mret tt);;
  models ← gets _models;
  match models with
  | [] => mret None
  | _ =>
      image ← gets (λ w, read (data w) image_path);
      match image with
      | None => raise FileNotFoundError
      | Some content =>
          mask ← of_result (ensemble models content);
          mret (Some mask)
      end
  end.
End inference.

(** ** data_manager.py *)

Module data_manager.

(** [os.listdir]: the entry names, each once, in a fixed order. The data
    directories exist: [config.py] creates them when it is loaded. *)
Definition listdir {V} (d : gmap string V) : list string :=
  (map_to_list d).*1.

Definition lower_ascii (c : ascii) : ascii :=
  let n := nat_of_ascii c in
  if decide (65 ≤ n ≤ 90) then ascii_of_nat (n + 32) else c.

(** [s.lower()] on 8-bit names. *)
Fixpoint lower (s : string) : string :=
  match s with
  | EmptyString => EmptyString
  | String c s' => String (lower_ascii c) (lower s')
  end.

(** [s.endswith(suffix)]. *)
Definition endswith (s suffix : string) : bool :=
  let n := String.length s in
  let m := String.length suffix in
  if decide (m ≤ n) then String.eqb (substring (n - m) m s) suffix
  else false.

Definition is_png (f : string) : bool := endswith (lower f) ".png".

Definition _list_png (d : gmap string bytes) : list string :=
  filter (λ f, is_png f = true) (listdir d).

(** [fname in set(names)]. *)
Definition in_set (names : list string) (fname : string) : bool :=
  bool_decide (fname ∈ names).

(** [os.path.exists(path)]: the path leads to a directory of the tree
    or to a name that is there. Outside the tree nothing is taken to
    exist. *)
Definition exists_ (s : DataStore) (p : path) : bool :=
  match resolve p with
  | at_place (entry d name) => bool_decide (is_Some (directory s d !! name))
  | at_place _ => true
  | missing | beyond => false
  end.

(** What writing [content] to the name [image_id] of the inbox
    annotations leaves. *)
Definition write_annotation (image_id : string) (content : bytes)
    (s : DataStore) : DataStore :=
  {| completed_images := completed_images s;
     completed_annotations := completed_annotations s;
     unannotated_images := unannotated_images s;
     unannotated_annotations :=
       <[image_id := content]> (unannotated_annotations s) |}.

(** What writing [content] to the name [name] of the directory [d]
    leaves. *)
Definition write_file (d : data_dir) (name : string) (content : bytes)
    (s : DataStore) : DataStore :=
  match d with
  | UNANNOTATED_ANNOTATIONS_DIR => write_annotation name content s
  | UNANNOTATED_IMAGES_DIR =>
      {| completed_images := completed_images s;
         completed_annotations := completed_annotations s;
         unannotated_images := <[name := content]> (unannotated_images s);
         unannotated_annotations := unannotated_annotations s |}
  | COMPLETED_IMAGES_DIR =>
      {| completed_images := <[name := content]> (completed_images s);
         completed_annotations := completed_annotations s;
         unannotated_images := unannotated_images s;
         unannotated_annotations := unannotated_annotations s |}
  | COMPLETED_ANNOTATIONS_DIR =>
      {| completed_images := completed_images s;
         completed_annotations :=
           <[name := content]> (completed_annotations s);
         unannotated_images := unannotated_images s;
         unannotated_annotations := unannotated_annotations s |}
  end.

(** [with open(save_path, "wb") as f: f.write(data)]: a name of a data
    directory is created or overwritten, a directory cannot be opened
    for writing. The last two cases are not reached from
    [save_annotation]: where the path of the image exists, the same
    identifier leads somewhere from the annotation directory too. *)
Definition open_and_write (save_path : path) (content : bytes)
    : M DataStore unit :=
  match resolve save_path with
  | at_place (entry d name) => modify (write_file d name content)
  | at_place _ => raise IsADirectoryError
  | missing | beyond => raise FileNotFoundError
  end.

Definition save_annotation (image_id : string) (content : bytes)
    : M DataStore unit :=
  let image_path := (UNANNOTATED_IMAGES_DIR, image_id) in
  image_found ← gets (λ s, exists_ s image_path);
  if negb image_found then raise ValueError
  else
    let save_path := (UNANNOTATED_ANNOTATIONS_DIR, image_id) in
    open_and_write save_path content.

Definition get_annotation_path (s : DataStore) (image_id : string)
    : option path :=
  if exists_ s (UNANNOTATED_ANNOTATIONS_DIR, image_id)
  then Some (UNANNOTATED_ANNOTATIONS_DIR, image_id)
  else if exists_ s (COMPLETED_ANNOTATIONS_DIR, image_id)
  then Some (COMPLETED_ANNOTATIONS_DIR, image_id)
  else None.

Definition get_image_path (s : DataStore) (image_id : string)
    : option path :=
  if exists_ s (UNANNOTATED_IMAGES_DIR, image_id)
  then Some (UNANNOTATED_IMAGES_DIR, image_id)
  else if exists_ s (COMPLETED_IMAGES_DIR, image_id)
  then Some (COMPLETED_IMAGES_DIR, image_id)
  else None.

(** The pairs of one partition: the images whose name is also an
    annotation. *)
Definition pairs_of (images_dir annotations_dir : data_dir)
    (images annotations : gmap string bytes) : list training_pair :=
  let annotation_set := _list_png annotations in
  (λ fname, ((images_dir, fname), (annotations_dir, fname)))
    <$> filter (λ fname, in_set annotation_set fname = true)
          (_list_png images).

Definition get_all_training_pairs (s : DataStore) : list training_pair :=
  let pairs :=
    pairs_of COMPLETED_IMAGES_DIR COMPLETED_ANNOTATIONS_DIR
      (completed_images s) (completed_annotations s) in
  pairs ++
    pairs_of UNANNOTATED_IMAGES_DIR UNANNOTATED_ANNOTATIONS_DIR
      (unannotated_images s) (unannotated_annotations s).

Record Stats := {
  stat_completed_images : nat;
  stat_completed_annotations : nat;
  stat_unannotated_images : nat;
  stat_unannotated_labeled : nat;
  stat_unannotated_unlabeled : Z;
  total_training_pairs : nat;
}.

Definition get_stats (s : DataStore) : Stats :=
  let completed_images := _list_png (completed_images s) in
  let completed_annotations := _list_png (completed_annotations s) in
  let unannotated_images := _list_png (unannotated_images s) in
  let unannotated_annotations := _list_png (unannotated_annotations s) in
  let unannotated_labeled :=
    filter (λ f, in_set unannotated_images f = true)
      unannotated_annotations in
  {| stat_completed_images := length completed_images;
     stat_completed_annotations := length completed_annotations;
     stat_unannotated_images := length unannotated_images;
     stat_unannotated_labeled := length unannotated_labeled;
     stat_unannotated_unlabeled :=
       (Z.of_nat (length unannotated_images)
        - Z.of_nat (length unannotated_labeled))%Z;
     total_training_pairs :=
       length completed_annotations + length unannotated_labeled |}.

(** [sorted(names)]. *)
Definition sorted (names : list string) : list string :=
  merge_sort (λ a b, String.leb a b) names.

(** An element of the list [list_unannotated_images] returns. *)
Module ImageEntry.
Record t := {
  id : string;
  has_label : bool;
}.
End ImageEntry.

Definition list_unannotated_images (s : DataStore) : list ImageEntry.t :=
  let images := sorted (_list_png (unannotated_images s)) in
  let label_set := _list_png (unannotated_annotations s) in
  (λ img, {| ImageEntry.id := img;
             ImageEntry.has_label := in_set label_set img |}) <$> images.

(** [list(images - labels)]. *)
Definition unlabeled_images (s : DataStore) : list string :=
  filter (λ f, in_set (_list_png (unannotated_annotations s)) f = false)
    (_list_png (unannotated_images s)).

(** [draw] stands for the random source: [random.choice(unlabeled)] is
    the element at an index below the length, here [draw] reduced modulo
    the length. *)
Definition get_next_unlabeled (strategy : string) (draw : nat)
    (s : DataStore) : option string :=
  let unlabeled := unlabeled_images s in
  match unlabeled with
  | [] => None
  | _ =>
      if decide (strategy = "sequential") then head (sorted unlabeled)
      else unlabeled !! (draw mod length unlabeled)
  end.

Definition get_unannotated_image_path (s : DataStore) (image_id : string)
    : option path :=
  if exists_ s (UNANNOTATED_IMAGES_DIR, image_id)
  then Some (UNANNOTATED_IMAGES_DIR, image_id)
  else None.

End data_manager.

(** ** version_manager.py *)

(** One line of [list_all_versions]: the dictionary by its keys; a key
    the summary does not carry is [None]. *)
Module Summary.
Record t := {
  version : string;
  status : json;
  started_at : option json;
  completed_at : option json;
  mean_dice : option json;
  best_fold_dice : option json;
  best_fold_idx : option json;
  completed_pairs : option json;
}.
End Summary.

Module version_manager.
Import config.

(** [$] matches at the end of the name and also just before a final
    newline: the text the digits must fill is the name without it. *)
Fixpoint strip_final_newline (s : string) : string :=
  match s with
  | EmptyString => EmptyString
  | String c EmptyString =>
      if Ascii.eqb c "010"%char then EmptyString else s
  | String c s' => String c (strip_final_newline s')
  end.

(** [re.match(r"^v(\d{3,})$", name)] followed by [int(m.group(1))];
    [\d] is an ASCII digit on 8-bit names. *)
Definition version_number (name : string) : option N :=
  match name with
  | String "v" rest =>
      let digits := strip_final_newline rest in
      if decide (3 ≤ String.length digits)
      then N.of_uint <$> NilEmpty.uint_of_string digits
      else None
  | _ => None
  end.

(** Left padding with ["0"] up to [width] characters. *)
Definition zfill (width : nat) (s : string) : string :=
  Nat.iter (width - String.length s) (String "0") s.

(** [f"v{n:03d}"]. *)
Definition format_version (n : N) : string :=
  String "v" (zfill 3 (NilEmpty.string_of_uint (N.to_uint n))).

(** [max(existing, default=0)]. *)
Definition max_default (existing : list N) : N :=
  foldr N.max 0%N existing.

Definition existing_numbers (vs : gmap string Entry) : list N :=
  omap version_number (data_manager.listdir vs).

Definition next_version (vs : gmap string Entry) : string :=
  format_version (max_default (existing_numbers vs) + 1).

Definition get_next_version : M world string :=
  gets (λ w, next_version (versions w)).

Definition initial_fold (i : nat) : Log.Fold :=
  {| Log.fold_idx := i; Log.train_count := 0; Log.val_count := 0;
     Log.best_dice := 0%Q; Log.best_epoch := 0%Z; Log.epochs := [] |}.

Definition create_version_log (env : environment) (version : string)
    (training_pairs : list training_pair) (max_epochs : Z)
    (total_image_count unannotated_count : nat) : M world Log.t :=
  now ← datetime_now env;
  mret {| Log.version := version;
          Log.started_at := now;
          Log.completed_at := None;
          Log.status := "running";
          Log.hyperparameters :=
            {| Log.encoder_name := ENCODER_NAME;
               Log.image_size := IMAGE_SIZE;
               Log.batch_size := BATCH_SIZE;
               Log.learning_rate := LEARNING_RATE;
               Log.weight_decay := WEIGHT_DECAY;
               Log.max_epochs_per_fold := max_epochs;
               Log.n_folds := N_FOLDS |};
          Log.dataset :=
            {| Log.total_pairs := total_image_count;
               Log.completed_pairs := length training_pairs;
               Log.unannotated_pairs := unannotated_count |};
          Log.results := None;
          Log.folds := initial_fold <$> seq 0 N_FOLDS |}.

Definition with_folds (log : Log.t) (folds : list Log.Fold) : Log.t :=
  {| Log.version := Log.version log;
     Log.started_at := Log.started_at log;
     Log.completed_at := Log.completed_at log;
     Log.status := Log.status log;
     Log.hyperparameters := Log.hyperparameters log;
     Log.dataset := Log.dataset log;
     Log.results := Log.results log;
     Log.folds := folds |}.

(** [log["folds"][fold_idx]] raises out of range. *)
Definition set_fold_split_info (log : Log.t) (fold_idx : nat)
    (train_count val_count : nat) : result Log.t :=
  match Log.folds log !! fold_idx with
  | None => Raise IndexError
  | Some fold =>
      let fold' :=
        {| Log.fold_idx := Log.fold_idx fold;
           Log.train_count := train_count;
           Log.val_count := val_count;
           Log.best_dice := Log.best_dice fold;
           Log.best_epoch := Log.best_epoch fold;
           Log.epochs := Log.epochs fold |} in
      Ok (with_folds log (<[fold_idx := fold']> (Log.folds log)))
  end.

Definition record_epoch (log : Log.t) (fold_idx : nat) (epoch : Z)
    (train_loss val_dice : float) : result Log.t :=
  match Log.folds log !! fold_idx with
  | None => Raise IndexError
  | Some fold =>
      let epochs :=
        Log.epochs fold ++
          [{| Log.epoch := epoch;
              Log.train_loss := round6 train_loss;
              Log.val_dice := round6 val_dice |}] in
      let improved := fgt val_dice (Log.best_dice fold) in
      let fold' :=
        {| Log.fold_idx := Log.fold_idx fold;
           Log.train_count := Log.train_count fold;
           Log.val_count := Log.val_count fold;
           Log.best_dice :=
             if improved then round6 val_dice else Log.best_dice fold;
           Log.best_epoch :=
             if improved then epoch else Log.best_epoch fold;
           Log.epochs := epochs |} in
      Ok (with_folds log (<[fold_idx := fold']> (Log.folds log)))
  end.

Definition empty_dir : VersionDir :=
  {| vd_folds := ∅; vd_best := None; vd_log := None |}.

(** [os.makedirs(version_dir, exist_ok=True)]. *)
Definition makedirs (version : string) : M world unit := λ w,
  match versions w !! version with
  | None => (Ok tt, set_versions <[version := Dir empty_dir]> w)
  | Some (Dir _) => (Ok tt, w)
  | Some File => (Raise FileExistsError, w)
  end.

(** A change to the files of an existing version directory. *)
Definition in_version_dir (version : string) (f : VersionDir → VersionDir)
    : M world unit :=
  modify (set_versions (alter (λ e, match e with
                                    | Dir d => Dir (f d)
                                    | File => File
                                    end) version)).

Definition put_fold (i : Z) (c : Checkpoint.t) (d : VersionDir)
    : VersionDir :=
  {| vd_folds := <[i := c]> (vd_folds d); vd_best := vd_best d;
     vd_log := vd_log d |}.

Definition put_best (c : Checkpoint.t) (d : VersionDir) : VersionDir :=
  {| vd_folds := vd_folds d; vd_best := Some c; vd_log := vd_log d |}.

Definition put_log (l : LogFile) (d : VersionDir) : VersionDir :=
  {| vd_folds := vd_folds d; vd_best := vd_best d; vd_log := Some l |}.

(** The [results] block of [finalize_version]; the dictionary display
    evaluates [fold_dices[best_fold_idx]] only for a non-empty list. *)
Definition results_block (fold_dices : list float) (best_fold_idx : Z)
    : result Log.Results :=
  let mean_dice :=
    match fold_dices with
    | [] => 0%Q
    | _ => Qred (fsum fold_dices
                 / inject_Z (Z.of_nat (length fold_dices)))%Q
    end in
  match fold_dices with
  | [] =>
      Ok {| Log.mean_dice := round6 mean_dice;
            Log.fold_dices := round6 <$> fold_dices;
            Log.best_fold_idx := best_fold_idx;
            Log.best_fold_dice := 0%Q |}
  | _ =>
      match py_index fold_dices best_fold_idx with
      | Raise e => Raise e
      | Ok d =>
          Ok {| Log.mean_dice := round6 mean_dice;
                Log.fold_dices := round6 <$> fold_dices;
                Log.best_fold_idx := best_fold_idx;
                Log.best_fold_dice := round6 d |}
      end
  end.

Definition finalized (log : Log.t) (results : Log.Results)
    (status : string) (now : timestamp) : Log.t :=
  {| Log.version := Log.version log;
     Log.started_at := Log.started_at log;
     Log.completed_at := Some now;
     Log.status := status;
     Log.hyperparameters := Log.hyperparameters log;
     Log.dataset := Log.dataset log;
     Log.results := Some results;
     Log.folds := Log.folds log |}.

(** Returns the version directory (by its name) and the dictionary [log]
    as it is after the call: the caller's dictionary is updated in
    place. *)
Definition finalize_version (env : environment) (version : string)
    (log : Log.t) (fold_dices : list float) (best_fold_idx : Z)
    (status : string) : M world (string * Log.t) :=
  makedirs version;;
  for_each (seq 0 N_FOLDS) (λ i,
    src ← gets (λ w, current_folds w !! Z.of_nat i);
    match src with
    | Some c => in_version_dir version (put_fold (Z.of_nat i) c)
    | None => mret tt
    end);;
  best ← gets best_pt;
  match best with
  | Some c => in_version_dir version (put_best c)
  | None => mret tt
  end;;
  results ← of_result (results_block fold_dices best_fold_idx);
  now ← datetime_now env;
  let log' := finalized log results status now in
  in_version_dir version (put_log (Doc log'));;
  mret (version, log').

(** Where [os.path.join(VERSIONS_DIR, version)] leads: into the
    directory of a version, to [VERSIONS_DIR] itself, to no directory
    (a plain file, or nothing), or to a place the world does not
    describe. *)
Inductive version_place :=
  | version_dir (name : string)
  | versions_dir
  | no_directory
  | undescribed.

(** One component further. A version directory holds plain files
    only. *)
Definition version_step (vs : gmap string Entry) (p : version_place)
    (component : string) : version_place :=
  match p with
  | no_directory | undescribed => p
  | _ =>
      if decide (component = "" ∨ component = ".") then p
      else if decide (component = "..") then
        match p with
        | version_dir _ => versions_dir
        | _ => undescribed
        end
      else
        match p with
        | versions_dir =>
            match vs !! component with
            | Some (Dir _) => version_dir component
            | _ => no_directory
            end
        | _ => no_directory
        end
  end.

(** [fold_{i}.pt] and [best.pt]. *)
Definition fold_file_name (i : nat) : string :=
  "fold_" +:+ NilEmpty.string_of_uint (Nat.to_uint i) +:+ ".pt".

Definition model_file_names : list string :=
  (fold_file_name <$> seq 0 N_FOLDS) ++ ["best.pt"].

(** An entry name is a single component, so a string that is an entry as
    a whole leads to that entry, as the walk over its components would.
    The walk leaves what the world describes when it climbs above
    [VERSIONS_DIR], when the path is absolute, and when it ends at
    [VERSIONS_DIR] itself while an entry there is named like a model
    file: the world does not say what such an entry holds. *)
Definition locate_version (vs : gmap string Entry) (version : string)
    : version_place :=
  match vs !! version with
  | Some (Dir _) => version_dir version
  | _ =>
      if posixpath.has_nul version then no_directory
      else if posixpath.isabs version then undescribed
      else
        match foldl (version_step vs) versions_dir
                (posixpath.components version) with
        | versions_dir =>
            if existsb (λ name, bool_decide (is_Some (vs !! name)))
                 model_file_names
            then undescribed
            else versions_dir
        | p => p
        end
  end.

(** [os.path.isdir(version_dir)] is taken to fail for a place the world
    does not describe. At [VERSIONS_DIR] itself no model file exists,
    and nothing is copied. *)
Definition restore_version (version : string) : M world unit :=
  version_dir ← gets (λ w, locate_version (versions w) version);
  match version_dir with
  | version_dir name =>
      for_each (seq 0 N_FOLDS) (λ i,
        src ← gets (λ w,
          match versions w !! name with
          | Some (Dir d) => vd_folds d !! Z.of_nat i
          | _ => None
          end);
        match src with
        | Some c => modify (set_current_folds <[Z.of_nat i := c]>)
        | None => mret tt
        end);;
      src_best ← gets (λ w,
        match versions w !! name with
        | Some (Dir d) => vd_best d
        | _ => None
        end);
      match src_best with
      | Some c => modify (set_best_pt (Some c))
      | None => mret tt
      end;;
      inference.reload_model
  | versions_dir => inference.reload_model
  | no_directory | undescribed => raise FileNotFoundError
  end.

(** [{"version": name, "status": status}]. *)
Definition degraded (name status : string) : Summary.t :=
  {| Summary.version := name; Summary.status := JString status;
     Summary.started_at := None; Summary.completed_at := None;
     Summary.mean_dice := None; Summary.best_fold_dice := None;
     Summary.best_fold_idx := None; Summary.completed_pairs := None |}.

(** [d.get(key)] on the dictionary [json.load] builds from the members
    of an object: the value of the last member with that key. *)
Fixpoint dict_get (key : string) (members : list (string * json))
    : option json :=
  match members with
  | [] => None
  | (k, v) :: rest =>
      match dict_get key rest with
      | Some v' => Some v'
      | None => if String.eqb k key then Some v else None
      end
  end.

(** [if v:]. *)
Definition truthy (v : json) : bool :=
  match v with
  | JNull => false
  | JBool b => b
  | JInt n => negb (n =? 0)%Z
  | JFloat x => negb (Qeq_bool x 0)
  | JNaN | JInfinity _ => true
  | JString s => negb (String.eqb s "")
  | JArray items => match items with [] => false | _ => true end
  | JObject members => match members with [] => false | _ => true end
  end.

(** [v = log.get(key)] followed by [if v: ... v.get(...) ...]: the
    members to read when [v] is a dictionary with members, nothing to
    read when [v] is missing or counts as false; any other value has no
    [get]. *)
Definition section (key : string) (members : list (string * json))
    : result (option (list (string * json))) :=
  let v := default JNull (dict_get key members) in
  if truthy v then
    match v with
    | JObject inner => Ok (Some inner)
    | _ => Raise AttributeError
    end
  else Ok None.

(** The summary of a record as [finalize_version] writes it: its results
    and its dataset are dictionaries with members. *)
Definition summary_of (name : string) (log : Log.t) : Summary.t :=
  {| Summary.version := name;
     Summary.status := JString (Log.status log);
     Summary.started_at := Some (JString (Log.started_at log));
     Summary.completed_at :=
       Some (match Log.completed_at log with
             | Some t => JString t
             | None => JNull
             end);
     Summary.mean_dice :=
       (λ r, JFloat (Log.mean_dice r)) <$> Log.results log;
     Summary.best_fold_dice :=
       (λ r, JFloat (Log.best_fold_dice r)) <$> Log.results log;
     Summary.best_fold_idx :=
       (λ r, JInt (Log.best_fold_idx r)) <$> Log.results log;
     Summary.completed_pairs :=
       Some (JInt (Z.of_nat (Log.completed_pairs (Log.dataset log)))) |}.

(** The body of the [try] for any other document: [log.get] needs a
    dictionary. *)
Definition summary_of_json (name : string) (log : json)
    : result Summary.t :=
  match log with
  | JObject members =>
      match section "results" members with
      | Raise e => Raise e
      | Ok results =>
          match section "dataset" members with
          | Raise e => Raise e
          | Ok dataset =>
              let get key inner := default JNull (dict_get key inner) in
              Ok {| Summary.version := name;
                    Summary.status :=
                      default (JString "unknown")
                        (dict_get "status" members);
                    Summary.started_at :=
                      Some (get "started_at" members);
                    Summary.completed_at :=
                      Some (get "completed_at" members);
                    Summary.mean_dice := get "mean_dice" <$> results;
                    Summary.best_fold_dice :=
                      get "best_fold_dice" <$> results;
                    Summary.best_fold_idx :=
                      get "best_fold_idx" <$> results;
                    Summary.completed_pairs :=
                      get "completed_pairs" <$> dataset |}
          end
      end
  | _ => Raise AttributeError
  end.

(** [except (json.JSONDecodeError, OSError)]. *)
Definition caught (e : exn) : bool :=
  bool_decide (e = JSONDecodeError) || is_OSError e.

(** One turn of the loop of [list_all_versions]: nothing for a name the
    pattern rejects, else the summary appended, or the exception that
    leaves the loop. *)
Definition summarize (vs : gmap string Entry) (name : string)
    : option (result Summary.t) :=
  match version_number name with
  | None => None
  | Some _ =>
      Some match vs !! name with
           | Some (Dir d) =>
               match vd_log d with
               | None => Ok (degraded name "unknown")
               | Some (Unreadable e) =>
                   if caught e then Ok (degraded name "error")
                   else Raise e
               | Some (Doc log) => Ok (summary_of name log)
               | Some (Json v) => summary_of_json name v
               end
           | _ => Ok (degraded name "unknown")
           end
  end.

(** [sorted(names)]. *)
Definition sorted (names : list string) : list string :=
  merge_sort (λ a b, String.leb a b) names.

(** [for name in ...] with the list [versions] built so far. *)
Fixpoint list_loop (vs : gmap string Entry) (names : list string)
    (versions : list Summary.t) : result (list Summary.t) :=
  match names with
  | [] => Ok versions
  | name :: rest =>
      match summarize vs name with
      | None => list_loop vs rest versions
      | Some (Ok summary) => list_loop vs rest (versions ++ [summary])
      | Some (Raise e) => Raise e
      end
  end.

Definition list_all_versions (w : world) : result (list Summary.t) :=
  list_loop (versions w) (sorted (data_manager.listdir (versions w))) [].

End version_manager.

(** ** trainer.py *)

Module trainer.
Import config.

(** [xs[i]] for an index taken from a [range]. *)
Definition index {A} (xs : list A) (i : nat) : result A :=
  match xs !! i with
  | Some x => Ok x
  | None => Raise IndexError
  end.

(** The body of [for i, pair in enumerate(all_pairs)]; [i] is the running
    index and [folds] the lists built so far. [i % n_folds] raises for
    [n_folds = 0]. *)
Fixpoint make_folds_loop {A} (n_folds i : nat) (ps : list A)
    (folds : list (list A)) : result (list (list A)) :=
  match ps with
  | [] => Ok folds
  | p :: ps' =>
      if decide (n_folds = 0) then Raise ZeroDivisionError
      else match folds !! (i mod n_folds) with
           | None => Raise IndexError
           | Some f =>
               make_folds_loop n_folds (S i) ps'
                 (<[i mod n_folds := f ++ [p]]> folds)
           end
  end.

Definition _make_folds {A} (all_pairs : list A) (n_folds : nat)
    : result (list (list A)) :=
  make_folds_loop n_folds 0 all_pairs (replicate n_folds []).

(** The local variables of [train_model] that its exception handlers
    read. *)
Record locals := {
  version_log : Log.t;
  fold_dices : list float;
  best_fold_idx : Z;
  best_fold_dice : float;
}.

Definition tstate : Type := locals * world.

Definition lift_world {A} (m : M world A) : M tstate A := λ s,
  let '(r, w') := m (snd s) in (r, (fst s, w')).

Definition set_version_log (log : Log.t) (l : locals) : locals :=
  {| version_log := log; fold_dices := fold_dices l;
     best_fold_idx := best_fold_idx l;
     best_fold_dice := best_fold_dice l |}.

(** [fold_dices.append(fold_dice)] and the update of the best fold. *)
Definition note_fold (fold_idx : nat) (fold_dice : float) (l : locals)
    : locals :=
  let better := fgt fold_dice (best_fold_dice l) in
  {| version_log := version_log l;
     fold_dices := fold_dices l ++ [fold_dice];
     best_fold_idx :=
       if better then Z.of_nat fold_idx else best_fold_idx l;
     best_fold_dice :=
       if better then fold_dice else best_fold_dice l |}.

(** The closure [epoch_log_cb] of [train_model]. *)
Definition epoch_log_cb (fold_idx : nat) (epoch : Z)
    (train_loss val_dice : float) : M tstate unit := λ s,
  match version_manager.record_epoch (version_log (fst s)) fold_idx epoch
          train_loss val_dice with
  | Ok log => (Ok tt, (set_version_log log (fst s), snd s))
  | Raise e => (Raise e, s)
  end.

Section SingleFold.
Variable env : environment.
Variable fold_idx : nat.
(** [fold_save_path] is [fold_{i}.pt] of the current slot, named by
    [i]. *)
Variable fold_save_path : Z.
Variable global_epoch_offset : Z.
Variable status_callback : option (Z → float → nat → M world unit).
(** An event object, given by how its flag is read. *)
Variable cancel_event : option (world → bool).
Variable epoch_log_callback
  : option (nat → Z → float → float → M tstate unit).

(** What other threads do between two epochs: a cancel request sets
    the flag of [main.py]. *)
Definition other_threads (epoch : Z) : M world unit :=
  if cancel_arrives env fold_idx epoch
  then modify (set_training_cancel_event true)
  else mret tt.

Definition is_cancelled : M world bool :=
  match cancel_event with
  | Some is_set => gets is_set
  | None => mret false
  end.

(** [for epoch in ...] with the running [best_dice]. *)
Fixpoint epoch_loop (epochs : list Z) (best_dice : float)
    : M tstate float :=
  match epochs with
  | [] => mret best_dice
  | epoch :: rest =>
      lift_world (other_threads epoch);;
      cancelled ← lift_world is_cancelled;
      if (cancelled : bool) then raise TrainingCancelled
      else
        match run_epoch env fold_idx epoch with
        | None => raise RuntimeError
        | Some out =>
            let global_epoch := (global_epoch_offset + epoch)%Z in
            match epoch_log_callback with
            | Some cb => cb fold_idx epoch (avg_loss out) (mean_dice out)
            | None => mret tt
            end;;
            match status_callback with
            | Some cb =>
                lift_world (cb global_epoch (mean_dice out) fold_idx)
            | None => mret tt
            end;;
            if fgt (mean_dice out) best_dice then
              lift_world (modify (set_current_folds
                <[fold_save_path :=
                    {| Checkpoint.model_state_dict := weights out;
                       Checkpoint.epoch := epoch;
                       Checkpoint.best_dice := mean_dice out;
                       Checkpoint.fold_idx := fold_idx |}]>));;
              epoch_loop rest (mean_dice out)
            else epoch_loop rest best_dice
        end
  end.

(** [range(1, max_epochs + 1)]. *)
Definition epoch_range (max_epochs : Z) : list Z :=
  (λ i, Z.of_nat i) <$> seq 1 (Z.to_nat max_epochs).

(** The pairs only feed the data loaders, whose work is in [env]. *)
Definition _train_single_fold (train_pairs val_pairs : list training_pair)
    (max_epochs : Z) : M tstate float :=
  if setup_raises env fold_idx then raise RuntimeError
  else epoch_loop (epoch_range max_epochs) 0%Q.
End SingleFold.

Section TrainModel.
Variable env : environment.
Variable max_epochs : Z.
Variable status_callback : option (Z → float → nat → M world unit).
Variable cancel_event : option (world → bool).
Variable version : string.
Variable folds : list (list training_pair).

(** [train_pairs_fold]: the folds other than [fold_idx], in order. *)
Fixpoint other_folds (fold_idx : nat) (js : list nat)
    : result (list training_pair) :=
  match js with
  | [] => Ok []
  | j :: js' =>
      if decide (j ≠ fold_idx) then
        match index folds j, other_folds fold_idx js' with
        | Ok f, Ok rest => Ok (f ++ rest)
        | Raise e, _ => Raise e
        | _, Raise e => Raise e
        end
      else other_folds fold_idx js'
  end.

(** One turn of [for fold_idx in range(N_FOLDS)]. *)
Definition fold_body (fold_idx : nat) : M tstate unit :=
  val_pairs ← of_result (index folds fold_idx);
  train_pairs_fold ← of_result (other_folds fold_idx (seq 0 N_FOLDS));
  log ← gets (λ s : tstate, version_log (fst s));
  log' ← of_result (version_manager.set_fold_split_info log fold_idx
                      (length train_pairs_fold) (length val_pairs));
  modify (λ s : tstate, (set_version_log log' (fst s), snd s));;
  fold_dice ← _train_single_fold env fold_idx (Z.of_nat fold_idx)
                (Z.of_nat fold_idx * max_epochs)%Z status_callback
                cancel_event (Some epoch_log_cb)
                train_pairs_fold val_pairs max_epochs;
  modify (λ s : tstate, (note_fold fold_idx fold_dice (fst s), snd s)).

(** [finalize_version] on the locals; the record it updates in place is
    [version_log]. *)
Definition finalize (best_idx : locals → Z) (status : string)
    : M tstate unit := λ s,
  let l := fst s in
  match version_manager.finalize_version env version (version_log l)
          (fold_dices l) (best_idx l) status (snd s) with
  | (Ok (_, log'), w') => (Ok tt, (set_version_log log' l, w'))
  | (Raise e, w') => (Raise e, (l, w'))
  end.

(** The block under [try:]. *)
Definition try_block : M tstate (float * string) :=
  for_each (seq 0 N_FOLDS) fold_body;;
  best ← gets (λ s : tstate, best_fold_idx (fst s));
  lift_world (modify (λ w,
    match current_folds w !! best with
    | Some c => set_best_pt (Some c) w
    | None => w
    end));;
  lift_world inference.reload_model;;
  dices ← gets (λ s : tstate, fold_dices (fst s));
  let mean_dice := fmean dices in
  finalize best_fold_idx "completed";;
  mret (mean_dice, version).

(** The two [except] clauses. *)
Definition handlers (e : exn) : M tstate (float * string) :=
  match e with
  | TrainingCancelled =>
      finalize (λ l, Z.max (best_fold_idx l) 0) "cancelled";;
      raise e
  | _ =>
      finalize (λ l, Z.max (best_fold_idx l) 0) "error";;
      raise e
  end.
End TrainModel.

(** [model_save_path] is not used by the function and is left out. The
    result carries the locals as they are when the call ends. *)
Definition train_model_locals (env : environment)
    (training_pairs : list training_pair) (max_epochs : Z)
    (status_callback : option (Z → float → nat → M world unit))
    (cancel_event : option (world → bool))
    : world → result (float * string) * option locals * world := λ w,
  let all_pairs := training_pairs in
  if decide (length all_pairs < MIN_IMAGES_FOR_TRAINING)
  then (Raise ValueError, None, w)
  else
    let '(r1, w1) :=
      (version ← version_manager.get_next_version;
       version_log ← version_manager.create_version_log env version
                       all_pairs max_epochs 0 0;
       let all_pairs := shuffle env all_pairs in
       folds ← of_result (_make_folds all_pairs N_FOLDS);
       mret (version, version_log, folds)) w in
    match r1 with
    | Raise e => (Raise e, None, w1)
    | Ok (version, version_log, folds) =>
        let l0 := {| version_log := version_log; fold_dices := [];
                     best_fold_idx := (-1)%Z; best_fold_dice := 0%Q |} in
        let '(r, (l, w2)) :=
          try_except
            (try_block env max_epochs status_callback cancel_event
               version folds)
            (handlers env version) (l0, w1) in
        (r, Some l, w2)
    end.

Definition train_model (env : environment)
    (training_pairs : list training_pair) (max_epochs : Z)
    (status_callback : option (Z → float → nat → M world unit))
    (cancel_event : option (world → bool))
    : M world (float * string) := λ w,
  let '(r, _, w') :=
    train_model_locals env training_pairs max_epochs status_callback
      cancel_event w in
  (r, w').

End trainer.

(** ** main.py *)

Module main.
Import config.

Inductive error_content :=
  | too_few_pairs (found required : nat)
  | message (text : string)
  | exception_text (e : exn).

(** What a handler returns: its JSON body on success, or a
    [JSONResponse] with a status code. *)
Inductive response :=
  | started (max_epochs : Z) (training_pairs : nat)
  | cancelling
  | restored (version : string)
  | JSONResponse (status_code : nat) (error : error_content).

(** The dictionary as the module creates it. *)
Definition initial_status : Status.t :=
  {| Status.status := "idle"; Status.epoch := 0; Status.max_epochs := 0;
     Status.best_dice := 0%Q; Status.current_fold := 0;
     Status.n_folds := N_FOLDS; Status.started_at := None;
     Status.completed_at := None; Status.error := None;
     Status.version := None |}.

(** The assignments of [start_training] under the lock. *)
Definition status_on_start (max_epochs : Z) (now : timestamp)
    (st : Status.t) : Status.t :=
  {| Status.status := "running";
     Status.epoch := 0;
     Status.max_epochs := (Z.of_nat N_FOLDS * max_epochs)%Z;
     Status.best_dice := 0%Q;
     Status.current_fold := 0;
     Status.n_folds := N_FOLDS;
     Status.started_at := Some now;
     Status.completed_at := None;
     Status.error := None;
     Status.version := Status.version st |}.

Definition start_training (env : environment) (max_epochs : Z)
    : world → response * world := λ w,
  let training_pairs := data_manager.get_all_training_pairs (data w) in
  if decide (length training_pairs < MIN_IMAGES_FOR_TRAINING) then
    (JSONResponse 400
       (too_few_pairs (length training_pairs) MIN_IMAGES_FOR_TRAINING), w)
  else if decide (Status.status (training_status w) = "running") then
    (JSONResponse 409 (message "training already running"), w)
  else
    let now := clock env (ticks w) in
    let w1 := set_training_status (status_on_start max_epochs now)
                (tick w) in
    let w2 := set_training_cancel_event false w1 in
    let w3 := add_task (run_training_task_with training_pairs max_epochs)
                w2 in
    (started max_epochs (length training_pairs), w3).

Definition update_training_status (epoch : Z) (dice : float)
    (fold_idx : nat) : M world unit :=
  modify (set_training_status (λ st,
    {| Status.status := Status.status st;
       Status.epoch := epoch;
       Status.max_epochs := Status.max_epochs st;
       Status.best_dice := fmax (Status.best_dice st) dice;
       Status.current_fold := fold_idx;
       Status.n_folds := Status.n_folds st;
       Status.started_at := Status.started_at st;
       Status.completed_at := Status.completed_at st;
       Status.error := Status.error st;
       Status.version := Status.version st |})).

(** The assignments of [run_training_task] when the run has ended. *)
Definition status_on_end (outcome : result (float * string))
    (now : timestamp) (st : Status.t) : Status.t :=
  {| Status.status :=
       match outcome with
       | Ok _ => "completed"
       | Raise TrainingCancelled => "cancelled"
       | Raise _ => "error"
       end;
     Status.epoch := Status.epoch st;
     Status.max_epochs := Status.max_epochs st;
     Status.best_dice :=
       match outcome with
       | Ok (best_dice, _) => best_dice
       | Raise _ => Status.best_dice st
       end;
     Status.current_fold := Status.current_fold st;
     Status.n_folds := Status.n_folds st;
     Status.started_at := Status.started_at st;
     Status.completed_at := Some now;
     Status.error :=
       match outcome with
       | Ok _ | Raise TrainingCancelled => Status.error st
       | Raise e => Some e
       end;
     Status.version :=
       match outcome with
       | Ok (_, version) => Some version
       | Raise _ => Status.version st
       end |}.

Definition run_training_task (env : environment)
    (training_pairs : list training_pair) (max_epochs : Z)
    : world → world := λ w,
  let '(outcome, w1) :=
    trainer.train_model env training_pairs max_epochs
      (Some update_training_status) (Some training_cancel_event) w in
  let now := clock env (ticks w1) in
  set_training_status (status_on_end outcome now) (tick w1).

(** The background worker takes up a task. *)
Definition run_task (env : environment) (t : Task) : world → world :=
  match t with
  | run_training_task_with training_pairs max_epochs =>
      run_training_task env training_pairs max_epochs
  end.

Definition cancel_training : world → response * world := λ w,
  if decide (Status.status (training_status w) ≠ "running") then
    (JSONResponse 409 (message "training is not running"), w)
  else (cancelling, set_training_cancel_event true w).

Definition get_training_status (w : world) : Status.t :=
  training_status w.

(** An exception of [list_all_versions] leaves the handler. *)
Definition list_model_versions (w : world) : result (list Summary.t) :=
  version_manager.list_all_versions w.

Definition restore_model_version (version : string)
    : world → response * world := λ w,
  if decide (Status.status (training_status w) = "running") then
    (JSONResponse 409
       (message "training in progress, wait for completion"), w)
  else
    match version_manager.restore_version version w with
    | (Ok _, w') => (restored version, w')
    | (Raise FileNotFoundError, w') =>
        (JSONResponse 404 (exception_text FileNotFoundError), w')
    | (Raise e, w') => (JSONResponse 500 (exception_text e), w')
    end.

(** [\w] of a [str] pattern, on 8-bit names: the letters, digits and
    numeric characters below 256, and the underscore. *)
Definition is_word (c : ascii) : bool :=
  let n := nat_of_ascii c in
  bool_decide (48 ≤ n ≤ 57 ∨ 65 ≤ n ≤ 90 ∨ n = 95 ∨ 97 ≤ n ≤ 122
               ∨ n = 170 ∨ n = 178 ∨ n = 179 ∨ n = 181 ∨ n = 185
               ∨ n = 186 ∨ 188 ≤ n ≤ 190 ∨ 192 ≤ n ≤ 214
               ∨ 216 ≤ n ≤ 246 ∨ 248 ≤ n ≤ 255).

(** [[\w\-\.]]. *)
Definition in_class (c : ascii) : bool :=
  is_word c || Ascii.eqb c "-" || Ascii.eqb c ".".

(** [[\w\-\.]*\.png] against the whole of [s]. *)
Fixpoint class_star_png (s : string) : bool :=
  String.eqb s ".png"
  || match s with
     | String c s' => in_class c && class_star_png s'
     | EmptyString => false
     end.

(** [re.match(r"^[\w\-\.]+\.png$", image_id)]; [$] also matches just
    before a final newline. *)
Definition matches_image_id (image_id : string) : bool :=
  match version_manager.strip_final_newline image_id with
  | String c s' => in_class c && class_star_png s'
  | EmptyString => false
  end.

(** [sub in s]. *)
Fixpoint contains (sub s : string) : bool :=
  String.prefix sub s
  || match s with
     | String _ s' => contains sub s'
     | EmptyString => false
     end.

Definition validate_image_id (image_id : string) : bool :=
  if negb (matches_image_id image_id) then false
  else if contains ".." image_id || contains "/" image_id
          || contains "\" image_id then false
  else true.

(** What the handlers of the image endpoints return. *)
Inductive reply :=
  | FileResponse (p : path)
  | Response (content : bytes)
  | saved (image_id : string)
  | next_image (image_id : option string)
  | error_response (status_code : nat) (error : error_content).

Record Info := {
  total_images : nat;
  labeled_images : nat;
  unlabeled_images : Z;
  model_loaded : bool;
  info_training_status : string;
  info_completed_images : nat;
  info_completed_annotations : nat;
  info_total_training_pairs : nat;
}.

Definition get_info (w : world) : Info :=
  let stats := data_manager.get_stats (data w) in
  {| total_images := data_manager.stat_unannotated_images stats;
     labeled_images := data_manager.stat_unannotated_labeled stats;
     unlabeled_images := data_manager.stat_unannotated_unlabeled stats;
     model_loaded := bool_decide (is_Some (best_pt w));
     info_training_status := Status.status (training_status w);
     info_completed_images := data_manager.stat_completed_images stats;
     info_completed_annotations :=
       data_manager.stat_completed_annotations stats;
     info_total_training_pairs := data_manager.total_training_pairs stats |}.

Definition list_images (w : world) : list data_manager.ImageEntry.t :=
  data_manager.list_unannotated_images (data w).

Definition download_image (image_id : string) (w : world) : reply :=
  if negb (validate_image_id image_id) then
    error_response 400 (message "invalid image_id")
  else
    match data_manager.get_unannotated_image_path (data w) image_id with
    | None => error_response 404 (message "image not found")
    | Some p => FileResponse p
    end.

(** An exception the handler does not catch gives the status 500. *)
Definition infer (ensemble : inference.forward_pass) (image_id : string)
    : world → reply * world := λ w,
  if negb (validate_image_id image_id) then
    (error_response 400 (message "invalid image_id"), w)
  else
    match data_manager.get_image_path (data w) image_id with
    | None => (error_response 404 (message "image not found"), w)
    | Some image_path =>
        if negb (bool_decide (is_Some (best_pt w))) then
          (error_response 503 (message "model not available, train first"),
           w)
        else
          match inference.run_inference ensemble image_path w with
          | (Ok None, w') =>
              (error_response 503
                 (message "model not available, train first"), w')
          | (Ok (Some mask_bytes), w') => (Response mask_bytes, w')
          | (Raise e, w') => (error_response 500 (exception_text e), w')
          end
    end.

Definition submit_label (image_id : string) (content : bytes)
    : world → reply * world := λ w,
  if negb (validate_image_id image_id) then
    (error_response 400 (message "invalid image_id"), w)
  else
    match data_manager.save_annotation image_id content (data w) with
    | (Ok _, s') => (saved image_id, set_data (λ _, s') w)
    | (Raise e, s') =>
        if is_ValueError e then
          (error_response 400 (exception_text e), set_data (λ _, s') w)
        else
          (error_response 500 (exception_text e), set_data (λ _, s') w)
    end.

(** [draw] is the random draw of [get_next_unlabeled]. *)
Definition get_next_sample (strategy : string) (draw : nat) (w : world)
    : reply :=
  next_image (data_manager.get_next_unlabeled strategy draw (data w)).

Definition download_label (image_id : string) (w : world) : reply :=
  if negb (validate_image_id image_id) then
    error_response 400 (message "invalid image_id")
  else
    match data_manager.get_annotation_path (data w) image_id with
    | None => error_response 404 (message "label not found")
    | Some p => FileResponse p
    end.

End main.

(** ** Vocabulary of the properties *)

(** Size of fold [j] once [n] elements have been dealt round-robin over
    [k] folds. *)
Definition fold_size (k n j : nat) : nat :=
  n / k + (if decide (j < n mod k) then 1 else 0).

(** What the loop of [_make_folds] maintains once the elements [dealt_so_far]
    have been handed out. *)
Record dealt {A} (k : nat) (dealt_so_far : list A) (folds : list (list A))
    : Prop := {
  dealt_length : length folds = k;
  dealt_sizes : ∀ j f, folds !! j = Some f →
      length f = fold_size k (length dealt_so_far) j;
  dealt_perm : concat folds ≡ₚ dealt_so_far;
  dealt_place : ∀ i x, dealt_so_far !! i = Some x →
      ∃ f, folds !! (i mod k) = Some f ∧ f !! (i / k) = Some x;
}.

(** The number an identifier carries (0 for a name that is not one). *)
Definition number_of (name : string) : N :=
  default 0%N (version_manager.version_number name).

(** The version directory when the next run starts: the run that was given
    [r] has created its directory (as [finalize_version] does), the entries
    of [added] have appeared and the entries named in [deleted] are gone. *)
Definition between_runs (r : string) (added : gmap string Entry)
    (deleted : list string) (vs : gmap string Entry) : gmap string Entry :=
  foldr delete (added ∪ <[r := Dir version_manager.empty_dir]> vs) deleted.

(** [states] lists the version directory as successive calls of
    [get_next_version] find it. At each call but the first, an entry
    numbered at least as high as the identifier returned by the call before
    is present: that identifier's own directory, or a later one. *)
Fixpoint latest_kept (states : list (gmap string Entry)) : Prop :=
  match states with
  | vs :: ((vs' :: _) as rest) =>
      (∃ name m, is_Some (vs' !! name)
         ∧ version_manager.version_number name = Some m
         ∧ (number_of (version_manager.next_version vs) ≤ m)%N)
      ∧ latest_kept rest
  | _ => True
  end.

(** The record document of a version, if the directory and the file
    exist. *)
Definition record_of (w : world) (version : string) : option LogFile :=
  match versions w !! version with
  | Some (Dir d) => vd_log d
  | _ => None
  end.


(** Every entry of the version directory has a file name, as the
    entries of a directory have. *)
Definition names_only (vs : gmap string Entry) : Prop :=
  ∀ name, is_Some (vs !! name) → posixpath.is_name name = true.



(** The fold files [dst] after those of [src] numbered in [idxs] have been
    copied over them, as the loops of [finalize_version] and
    [restore_version] do. *)
Definition copy_files (src : gmap Z Checkpoint.t) (idxs : list nat)
    (dst : gmap Z Checkpoint.t) : gmap Z Checkpoint.t :=
  foldl (λ dst i, match src !! Z.of_nat i with
                  | Some c => <[Z.of_nat i := c]> dst
                  | None => dst
                  end) dst idxs.

(** The part of the world that training a fold never writes. *)
Definition untouched (w : world) :=
  (data w, versions w, best_pt w, _models w, _models_loaded w,
   background_tasks w, ticks w).

(** The run as the server starts it: [run_training_task] passes
    [update_training_status] and [training_cancel_event]. *)
Definition server_run (env : environment)
    (training_pairs : list training_pair) (max_epochs : Z)
    : world → result (float * string) * option trainer.locals * world :=
  trainer.train_model_locals env training_pairs max_epochs
    (Some main.update_training_status) (Some training_cancel_event).

(** The terminal status of a run that ended with [r]. *)
Definition outcome_status {A} (r : result A) : string :=
  match r with
  | Ok _ => "completed"
  | Raise TrainingCancelled => "cancelled"
  | Raise _ => "error"
  end.

(** [best_fold_idx] and [best_fold_dice] against the scores collected so
    far: no score is positive and the index is still [-1], or the index
    names a positive score that no other exceeds. *)
Definition best_consistent (l : trainer.locals) : Prop :=
  (trainer.best_fold_idx l = (-1)%Z ∧ trainer.best_fold_dice l = 0%Q
   ∧ ∀ d, d ∈ trainer.fold_dices l → (d <= 0)%Q)
  ∨ (∃ b : nat,
       trainer.best_fold_idx l = Z.of_nat b
       ∧ trainer.fold_dices l !! b = Some (trainer.best_fold_dice l)
       ∧ (0 < trainer.best_fold_dice l)%Q
       ∧ ∀ d, d ∈ trainer.fold_dices l → (d <= trainer.best_fold_dice l)%Q).

(** Every finished fold with a positive score has its checkpoint, with
    that score, in the current slot. *)
Definition checkpoints_saved (l : trainer.locals) (w : world) : Prop :=
  ∀ (i : nat) (d : float),
    trainer.fold_dices l !! i = Some d → (0 < d)%Q →
    ∃ c, current_folds w !! Z.of_nat i = Some c
         ∧ Checkpoint.best_dice c = d ∧ Checkpoint.fold_idx c = i.

(** What training fold [f] may change between two states, with [n] epochs
    recorded in between. *)
Record fold_frame (f n : nat) (s0 s : trainer.tstate) : Prop := {
  ff_untouched : untouched (snd s) = untouched (snd s0);
  ff_other_files : ∀ j, j ≠ Z.of_nat f →
      current_folds (snd s) !! j = current_folds (snd s0) !! j;
  ff_dices : trainer.fold_dices (fst s) = trainer.fold_dices (fst s0);
  ff_best_idx :
    trainer.best_fold_idx (fst s) = trainer.best_fold_idx (fst s0);
  ff_best_dice :
    trainer.best_fold_dice (fst s) = trainer.best_fold_dice (fst s0);
  ff_length :
    length (Log.folds (trainer.version_log (fst s)))
    = length (Log.folds (trainer.version_log (fst s0)));
  ff_other_folds : ∀ j, j ≠ f →
      Log.folds (trainer.version_log (fst s)) !! j
      = Log.folds (trainer.version_log (fst s0)) !! j;
  ff_this_fold : ∃ e0 e,
      Log.folds (trainer.version_log (fst s0)) !! f = Some e0
      ∧ Log.folds (trainer.version_log (fst s)) !! f = Some e
      ∧ Log.fold_idx e = Log.fold_idx e0
      ∧ length (Log.epochs e) = length (Log.epochs e0) + n;
}.

(** The steps of one epoch of fold [f]: the state in which the epoch runs
    its cancellation check (a request may just have arrived), the state
    after the status callback, and the checkpoint an improving epoch
    saves. *)
Definition at_check (env : environment) (f : nat) (epoch : Z) (w : world)
    : world :=
  if cancel_arrives env f epoch then set_training_cancel_event true w
  else w.

Definition after_status (f : nat) (global_epoch : Z) (out : EpochOutcome)
    (w : world) : world :=
  snd (main.update_training_status global_epoch (mean_dice out) f w).

Definition saved (f : nat) (epoch : Z) (out : EpochOutcome) : Checkpoint.t :=
  {| Checkpoint.model_state_dict := weights out;
     Checkpoint.epoch := epoch;
     Checkpoint.best_dice := mean_dice out;
     Checkpoint.fold_idx := f |}.

(** What the loop over the folds maintains, [k] folds being finished;
    [w1] is the world in which the loop started. *)
Record run_inv (w1 : world) (k : nat) (s : trainer.tstate) : Prop := {
  ri_untouched : untouched (snd s) = untouched w1;
  ri_dices : length (trainer.fold_dices (fst s)) = k;
  ri_folds :
    length (Log.folds (trainer.version_log (fst s))) = config.N_FOLDS;
  ri_entries : ∀ j e,
    Log.folds (trainer.version_log (fst s)) !! j = Some e →
    Log.fold_idx e = j ∧ (k ≤ j → Log.epochs e = []);
  ri_best : best_consistent (fst s);
  ri_saved : checkpoints_saved (fst s) (snd s);
}.

(** The state in which the loop over the folds stops on exception [e]:
    the fold under way has recorded fewer epochs than its budget, the
    later folds none. *)
Record run_stopped (max_epochs : Z) (w1 : world) (e : exn)
    (s : trainer.tstate) : Prop := {
  rs_exn : e = TrainingCancelled ∨ e = RuntimeError;
  rs_untouched : untouched (snd s) = untouched w1;
  rs_dices : length (trainer.fold_dices (fst s)) < config.N_FOLDS;
  rs_folds :
    length (Log.folds (trainer.version_log (fst s))) = config.N_FOLDS;
  rs_entries : ∀ j e,
    Log.folds (trainer.version_log (fst s)) !! j = Some e →
    Log.fold_idx e = j
    ∧ (length (trainer.fold_dices (fst s)) < j → Log.epochs e = [])
    ∧ (j = length (trainer.fold_dices (fst s)) →
       length (Log.epochs e) < Z.to_nat max_epochs ∨ Log.epochs e = []);
  rs_best : best_consistent (fst s);
}.

(** The directory [finalize_version] fills for a new version: the fold
    files and the promoted file of the current slot, and the record. *)
Definition finalized_dir (w : world) (log : Log.t) : VersionDir :=
  {| vd_folds := copy_files (current_folds w) (seq 0 config.N_FOLDS) ∅;
     vd_best := best_pt w;
     vd_log := Some (Doc log) |}.

(** [shutil.copy2(best_fold_path, BEST_MODEL_PATH)] when the file of fold
    [best] exists. *)
Definition promote (best : Z) (w : world) : world :=
  match current_folds w !! best with
  | Some c => set_best_pt (Some c) w
  | None => w
  end.

(** The world once [finalize_version] has written the record [log] of a
    new version from the world [w]. *)
Definition ended_world (version : string) (log : Log.t) (w : world)
    : world :=
  tick (set_versions <[version := Dir (finalized_dir w log)]> w).

(** How a run of the server that was given a version ends. [l] and [w2]
    are the locals and the world when the loop over the folds is left;
    [res] is the results block and [log] the record written. Either every
    fold finished: the best fold is promoted, the loaded models are
    dropped, and the run returns the mean score; or a fold raised [e]:
    the record is written from the state the fold left and [e] is raised
    again. *)
Inductive run_ended (env : environment) (max_epochs : Z) (w : world)
    : result (float * string) → trainer.locals → world → Prop :=
  | run_completed (l : trainer.locals) (w2 : world) (res : Log.Results) :
      let version := version_manager.next_version (versions w) in
      let w4 := set_inference [] false (promote (trainer.best_fold_idx l) w2) in
      let log := version_manager.finalized (trainer.version_log l) res
                   "completed" (clock env (ticks w4)) in
      run_inv (tick w) config.N_FOLDS (l, w2) →
      version_manager.results_block (trainer.fold_dices l)
        (trainer.best_fold_idx l) = Ok res →
      run_ended env max_epochs w
        (Ok (fmean (trainer.fold_dices l), version))
        (trainer.set_version_log log l)
        (ended_world version log w4)
  | run_raised (e : exn) (l : trainer.locals) (w2 : world)
      (res : Log.Results) :
      let version := version_manager.next_version (versions w) in
      let log := version_manager.finalized (trainer.version_log l) res
                   (outcome_status (@Raise (float * string) e))
                   (clock env (ticks w2)) in
      run_stopped max_epochs (tick w) e (l, w2) →
      version_manager.results_block (trainer.fold_dices l)
        (Z.max (trainer.best_fold_idx l) 0) = Ok res →
      run_ended env max_epochs w (Raise e)
        (trainer.set_version_log log l)
        (ended_world version log w2).

(** *** Order of names *)

(** [a <= b] on names. *)
Definition name_le (a b : string) : Prop := String.leb a b.


(** *** Well-formed records *)

(** The entry of fold [j] in a record: it carries its own index, and its
    best score is either still the initial one or the rounded score of a
    recorded epoch, whose number is the best epoch. *)
Definition fold_entry_ok (j : nat) (e : Log.Fold) : Prop :=
  Log.fold_idx e = j
  ∧ ((Log.best_epoch e = 0%Z ∧ Log.best_dice e = 0%Q)
     ∨ ∃ entry, entry ∈ Log.epochs e
                ∧ Log.epoch entry = Log.best_epoch e
                ∧ Log.val_dice entry = Log.best_dice e).

Definition log_ok (log : Log.t) : Prop :=
  length (Log.folds log) = config.N_FOLDS
  ∧ ∀ j e, Log.folds log !! j = Some e → fold_entry_ok j e.

(** The version directory [finalize_version] leaves behind when the
    results block raises: the files are copied, the record is not
    written. *)
Definition unfinished_dir (w : world) : VersionDir :=
  {| vd_folds := copy_files (current_folds w) (seq 0 config.N_FOLDS) ∅;
     vd_best := best_pt w;
     vd_log := None |}.

(** *** Characters of a name *)

(** Every character of [s] satisfies [p]. *)
Fixpoint all_chars (p : ascii → bool) (s : string) : bool :=
  match s with
  | EmptyString => true
  | String c s' => p c && all_chars p s'
  end.

Fixpoint last_char (s : string) : option ascii :=
  match s with
  | EmptyString => None
  | String c EmptyString => Some c
  | String _ s' => last_char s'
  end.

Definition newline : ascii := "010"%char.

(** *** The models an inference loads *)

(** What [load_ensemble] loads: the fold files of the current slot if
    there is any, else the promoted file if there is one. *)
Definition ensemble_of (w : world) : list state_dict :=
  match inference.existing_folds w with
  | _ :: _ => inference._load_single_model <$> inference.existing_folds w
  | [] =>
      match best_pt w with
      | Some c => [inference._load_single_model c]
      | None => []
      end
  end.

(** What [run_inference] returns with the models [models] loaded. *)
Definition inference_answer (ensemble : inference.forward_pass)
    (models : list state_dict) (image : option bytes)
    : result (option bytes) :=
  match models with
  | [] => Ok None
  | _ =>
      match image with
      | None => Raise FileNotFoundError
      | Some content =>
          match ensemble models content with
          | Ok mask => Ok (Some mask)
          | Raise e => Raise e
          end
      end
  end.

(** The world [restore_version] leaves for a version directory [d]. *)
Definition restored_world (d : VersionDir) (w : world) : world :=
  set_inference [] false
    (set_best_pt (match vd_best d with
                  | Some c => Some c
                  | None => best_pt w
                  end)
       (set_current_folds (copy_files (vd_folds d) (seq 0 config.N_FOLDS))
          w)).

(** *** What a run leaves alone *)

(** The fields of the status dictionary that training never assigns, and
    the best score, which it never lowers. *)
Definition status_fixed (st0 st : Status.t) : Prop :=
  Status.status st = Status.status st0
  ∧ Status.max_epochs st = Status.max_epochs st0
  ∧ Status.n_folds st = Status.n_folds st0
  ∧ Status.started_at st = Status.started_at st0
  ∧ Status.completed_at st = Status.completed_at st0
  ∧ Status.error st = Status.error st0
  ∧ Status.version st = Status.version st0
  ∧ (Status.best_dice st0 <= Status.best_dice st)%Q.

(** The fields of the record that only [create_version_log] and
    [finalize_version] assign. *)
Definition log_fixed (log0 log : Log.t) : Prop :=
  Log.version log = Log.version log0
  ∧ Log.started_at log = Log.started_at log0
  ∧ Log.completed_at log = Log.completed_at log0
  ∧ Log.status log = Log.status log0
  ∧ Log.hyperparameters log = Log.hyperparameters log0
  ∧ Log.dataset log = Log.dataset log0
  ∧ Log.results log = Log.results log0.

(** What the loop over the folds keeps between two of its states,
    whatever happens in between: no file of the current slot goes away
    and none outside the fold files is written, a cancel request stays
    pending, and the status dictionary and the record change only in
    the fields that report progress. *)
Record run_keeps (s0 s : trainer.tstate) : Prop := {
  rk_untouched : untouched (snd s) = untouched (snd s0);
  rk_files : ∀ j, is_Some (current_folds (snd s0) !! j) →
                  is_Some (current_folds (snd s) !! j);
  rk_outside : ∀ j, ¬ (0 ≤ j < Z.of_nat config.N_FOLDS)%Z →
      current_folds (snd s) !! j = current_folds (snd s0) !! j;
  rk_flag : training_cancel_event (snd s0) = true →
            training_cancel_event (snd s) = true;
  rk_status : status_fixed (training_status (snd s0))
                (training_status (snd s));
  rk_log : log_fixed (trainer.version_log (fst s0))
             (trainer.version_log (fst s));
  rk_log_ok : log_ok (trainer.version_log (fst s0)) →
              log_ok (trainer.version_log (fst s));
}.

(** The record [create_version_log] returns for a run of the server
    started in the world [w]. *)
Definition initial_log (env : environment) (version : string)
    (training_pairs : list training_pair) (max_epochs : Z) (w : world)
    : Log.t :=
  {| Log.version := version;
     Log.started_at := clock env (ticks w);
     Log.completed_at := None;
     Log.status := "running";
     Log.hyperparameters :=
       {| Log.encoder_name := config.ENCODER_NAME;
          Log.image_size := config.IMAGE_SIZE;
          Log.batch_size := config.BATCH_SIZE;
          Log.learning_rate := config.LEARNING_RATE;
          Log.weight_decay := config.WEIGHT_DECAY;
          Log.max_epochs_per_fold := max_epochs;
          Log.n_folds := config.N_FOLDS |};
     Log.dataset :=
       {| Log.total_pairs := 0;
          Log.completed_pairs := length training_pairs;
          Log.unannotated_pairs := 0 |};
     Log.results := None;
     Log.folds := version_manager.initial_fold <$> seq 0 config.N_FOLDS |}.

(** The locals of [train_model] when the loop over the folds starts. *)
Definition initial_locals (log : Log.t) : trainer.locals :=
  {| trainer.version_log := log; trainer.fold_dices := [];
     trainer.best_fold_idx := (-1)%Z; trainer.best_fold_dice := 0%Q |}.

(** How [train_model] ends once the loop over the folds has ended with
    [r] in the state [(l, w2)], for a new version and a results block
    [res]. *)
Definition run_end (env : environment) (version : string)
    (r : result unit) (l : trainer.locals) (w2 : world)
    (res : Log.Results)
    : result (float * string) * option trainer.locals * world :=
  match r with
  | Ok _ =>
      let w4 := set_inference [] false
                  (promote (trainer.best_fold_idx l) w2) in
      let log := version_manager.finalized (trainer.version_log l) res
                   "completed" (clock env (ticks w4)) in
      (Ok (fmean (trainer.fold_dices l), version),
       Some (trainer.set_version_log log l),
       ended_world version log w4)
  | Raise e =>
      let log := version_manager.finalized (trainer.version_log l) res
                   (outcome_status (@Raise (float * string) e))
                   (clock env (ticks w2)) in
      (Raise e, Some (trainer.set_version_log log l),
       ended_world version log w2)
  end.

(** *** Progress *)

(** The epoch and the fold the status dictionary shows. *)
Definition progress (w : world) : Z * nat :=
  (Status.epoch (training_status w),
   Status.current_fold (training_status w)).

(** The progress after [k] folds of a budget of [max_epochs] epochs have
    finished, [p0] being the progress before the first. *)
Definition progress_after (max_epochs : Z) (p0 : Z * nat) (k : nat)
    : Z * nat :=
  match k with
  | 0 => p0
  | S k' => ((Z.of_nat k * max_epochs)%Z, k')
  end.

(** *** The split sizes of a record *)

(** The training and validation counts of the fold entries. *)
Definition split_counts (log : Log.t) : list (nat * nat) :=
  (λ e, (Log.train_count e, Log.val_count e)) <$> Log.folds log.

(** The counts of the record once the folds below [k] have been started
    on the split [folds]: a fold that was started shows the size of its
    own part as validation count and the size of all other parts as
    training count, a fold that was not shows 0 and 0. *)
Definition split_recorded (folds : list (list training_pair)) (k : nat)
    (log : Log.t) : Prop :=
  ∀ j c, split_counts log !! j = Some c →
    if decide (j < k) then
      ∃ val, folds !! j = Some val
             ∧ c.2 = length val
             ∧ c.1 + c.2 = length (concat folds)
    else c = (0, 0).

(** *** The operations of the server *)

(** One request handled, or one queued training task run; a task is
    queued with at least [MIN_IMAGES_FOR_TRAINING] pairs. *)
Inductive server_step (env : environment) : world → world → Prop :=
  | step_infer (ensemble : inference.forward_pass) (image_id : string)
      (w : world) :
      server_step env w (main.infer ensemble image_id w).2
  | step_submit_label (image_id : string) (content : bytes) (w : world) :
      server_step env w (main.submit_label image_id content w).2
  | step_start_training (max_epochs : Z) (w : world) :
      server_step env w (main.start_training env max_epochs w).2
  | step_cancel_training (w : world) :
      server_step env w (main.cancel_training w).2
  | step_restore_model_version (version : string) (w : world) :
      server_step env w (main.restore_model_version version w).2
  | step_run_task (training_pairs : list training_pair) (max_epochs : Z)
      (w : world) :
      config.MIN_IMAGES_FOR_TRAINING ≤ length training_pairs →
      server_step env w
        (main.run_task env
           (run_training_task_with training_pairs max_epochs) w).

(** Models marked as loaded are there. *)
Definition models_present (w : world) : Prop :=
  _models_loaded w = true → _models w ≠ [].

(** ** States used as examples *)

Definition example_store : DataStore :=
  {| completed_images :=
       list_to_map [("a.png", []); ("b.png", []); ("c.PNG", [])];
     completed_annotations := list_to_map [("a.png", []); ("b.png", [])];
     unannotated_images := list_to_map [("x.png", []); ("y.png", [])];
     unannotated_annotations := list_to_map [("x.png", [])] |}.

Definition example_world : world :=
  {| data := example_store; versions := ∅; current_folds := ∅;
     best_pt := None; _models := [[1%Q]]; _models_loaded := true;
     training_status := main.initial_status;
     training_cancel_event := false; background_tasks := []; ticks := 0 |}.

(** One labelled image only. *)
Definition sparse_world : world :=
  set_data (λ _, {| completed_images := {["a.png" := []]};
                    completed_annotations := {["a.png" := []]};
                    unannotated_images := ∅;
                    unannotated_annotations := ∅ |}) example_world.

Definition example_clock (n : nat) : timestamp :=
  version_manager.zfill 4 (NilEmpty.string_of_uint (Nat.to_uint n)).

(** Every epoch of fold [f] reaches a validation Dice of [(f + 1) / 10];
    no cancellation, no failure. *)
Definition steady_env : environment :=
  {| clock := example_clock;
     shuffle := λ pairs, pairs;
     setup_raises := λ _, false;
     cancel_arrives := λ _ _, false;
     run_epoch := λ f e,
       Some {| avg_loss := (1 # 2)%Q;
               mean_dice := (Z.of_nat (f + 1) # 10)%Q;
               weights := [inject_Z e] |} |}.

(** A world in which a run is under way. *)
Definition running_world : world :=
  snd (main.start_training steady_env 2 example_world).

(** A run is under way and the labelled files are down to one pair. *)
Definition running_sparse_world : world :=
  set_data (λ _, data sparse_world) running_world.

(** Three calls of [get_next_version]: [v001] is deleted after the first,
    [v007] has appeared before the third. *)
Definition example_history : list (gmap string Entry) :=
  [ {["v001" := Dir version_manager.empty_dir;
      "v002" := Dir version_manager.empty_dir]};
    {["v002" := Dir version_manager.empty_dir;
      "v003" := Dir version_manager.empty_dir]};
    {["v003" := Dir version_manager.empty_dir;
      "v004" := Dir version_manager.empty_dir;
      "v007" := File]} ].

Definition example_checkpoint : Checkpoint.t :=
  {| Checkpoint.model_state_dict := [(1 # 3)%Q]; Checkpoint.epoch := 4;
     Checkpoint.best_dice := (7 # 10)%Q; Checkpoint.fold_idx := 2 |}.

(** A version directory that holds checkpoints but no record document. *)
Definition unlogged_world : world :=
  set_versions (λ _, {["v001" := Dir {| vd_folds := {[2%Z := example_checkpoint]};
                                        vd_best := Some example_checkpoint;
                                        vd_log := None |}]})
    example_world.

(** The record of [v001] is not UTF-8 text. *)
Definition undecodable_world : world :=
  set_versions
    (λ _, {["v001" := Dir {| vd_folds := ∅; vd_best := None;
                             vd_log := Some (Unreadable UnicodeDecodeError) |}]})
    example_world.

(** A cancel request arrives while fold 0 is in its second epoch. *)
Definition cancelling_env : environment :=
  {| clock := example_clock;
     shuffle := λ pairs, pairs;
     setup_raises := λ _, false;
     cancel_arrives := λ f e, bool_decide (f = 0 ∧ e = 2%Z);
     run_epoch := run_epoch steady_env |}.

(** The model of fold 0 cannot be built. *)
Definition failing_env : environment :=
  {| clock := example_clock;
     shuffle := λ pairs, pairs;
     setup_raises := λ f, bool_decide (f = 0);
     cancel_arrives := λ _ _, false;
     run_epoch := run_epoch steady_env |}.

Definition example_pairs : list training_pair :=
  data_manager.get_all_training_pairs example_store.


(** The record of a run of [v002] as [create_version_log] returns it. *)
Definition example_log : Log.t :=
  {| Log.version := "v002";
     Log.started_at := example_clock 0;
     Log.completed_at := None;
     Log.status := "running";
     Log.hyperparameters :=
       {| Log.encoder_name := config.ENCODER_NAME;
          Log.image_size := config.IMAGE_SIZE;
          Log.batch_size := config.BATCH_SIZE;
          Log.learning_rate := config.LEARNING_RATE;
          Log.weight_decay := config.WEIGHT_DECAY;
          Log.max_epochs_per_fold := 2;
          Log.n_folds := config.N_FOLDS |};
     Log.dataset :=
       {| Log.total_pairs := 3; Log.completed_pairs := 3;
          Log.unannotated_pairs := 1 |};
     Log.results := None;
     Log.folds := version_manager.initial_fold <$> seq 0 config.N_FOLDS |}.

(** A version directory in which the name [v007] is a plain file. *)
Definition file_world : world :=
  set_versions (λ _, {["v003" := Dir version_manager.empty_dir;
                       "v004" := Dir version_manager.empty_dir;
                       "v007" := File]}) example_world.

(** An inbox with an image whose extension is in upper case. *)
Definition mixed_case_world : world :=
  set_data (λ _, {| completed_images := ∅;
                    completed_annotations := ∅;
                    unannotated_images :=
                      list_to_map [("x.png", []); ("z.PNG", [])];
                    unannotated_annotations := ∅ |}) example_world.

(** A forward pass that returns the image itself. *)
Definition example_forward : inference.forward_pass :=
  λ _ content, Ok content.

(** The world after [v001] of [unlogged_world] has been restored. *)
Definition restored_example_world : world :=
  (version_manager.restore_version "v001" unlogged_world).2.

(** A cancel request is pending before the task starts. *)
Definition cancel_pending_world : world :=
  set_training_cancel_event true example_world.

(** * Properties *)

(** ** Running computations step by step *)

Section Steps.
Context {S A B : Type}.
Implicit Types (m : M S A) (k : A → M S B) (s : S).

Lemma bind_ok m k s a s' : m s = (Ok a, s') → (m ≫= k) s = k a s'.
Proof. unfold mbind, M_bind. by intros ->. Qed.

Lemma bind_raise m k s e s' :
  m s = (Raise e, s') → (m ≫= k) s = (Raise e, s').
Proof. unfold mbind, M_bind. by intros ->. Qed.

Lemma bind_gets (f : S → A) k s : (gets f ≫= k) s = k (f s) s.
Proof. done. Qed.

Lemma bind_ret (a : A) k s : (mret a ≫= k) s = k a s.
Proof. done. Qed.

Lemma bind_modify (f : S → S) (k : unit → M S B) s :
  (modify f ≫= k) s = k tt (f s).
Proof. done. Qed.
End Steps.

(** ** Fold split *)

Section FoldSplit.
Context {A : Type}.
Implicit Types (folds : list (list A)) (ps : list A).

Lemma succ_div_mod (k n : nat) :
  0 < k →
  (n mod k + 1 < k ∧ S n / k = n / k ∧ S n mod k = n mod k + 1)
  ∨ (n mod k + 1 = k ∧ S n / k = n / k + 1 ∧ S n mod k = 0).
Proof.
  intros Hk.
  pose proof (Nat.div_mod_eq n k) as Hn.
  pose proof (Nat.mod_upper_bound n k ltac:(lia)) as Hr.
  destruct (decide (n mod k + 1 < k)) as [Hlt|Hge].
  - left. split; [done|].
    assert (S n = k * (n / k) + (n mod k + 1)) as HS by lia.
    split.
    + symmetry. apply (Nat.div_unique _ _ _ (n mod k + 1)); lia.
    + symmetry. apply (Nat.mod_unique _ _ (n / k)); lia.
  - right. split; [lia|].
    assert (S n = k * (n / k + 1) + 0) as HS by lia.
    split.
    + symmetry. apply (Nat.div_unique _ _ _ 0); lia.
    + symmetry. apply (Nat.mod_unique _ _ (n / k + 1)); lia.
Qed.

Lemma fold_size_step (k n j : nat) :
  j < k →
  fold_size k (S n) j
  = fold_size k n j + (if decide (j = n mod k) then 1 else 0).
Proof.
  intros Hj. unfold fold_size.
  destruct (succ_div_mod k n ltac:(lia)) as [(H1 & -> & ->)|(H1 & -> & ->)];
    repeat case_decide; lia.
Qed.

Lemma fold_size_bounds (k n j : nat) :
  n / k ≤ fold_size k n j ≤ n / k + 1.
Proof. unfold fold_size. case_decide; lia. Qed.

Lemma concat_insert_snoc folds j f p :
  folds !! j = Some f →
  concat (<[j := f ++ [p]]> folds) ≡ₚ concat folds ++ [p].
Proof.
  revert j. induction folds as [|g folds IH]; intros [|j] Hj;
    simplify_eq/=.
  - rewrite <-!(assoc_L (++)). f_equiv. apply Permutation_app_comm.
  - rewrite (IH _ Hj). by rewrite (assoc_L (++)).
Qed.

Lemma dealt_start (k : nat) : 0 < k → dealt k (@nil A) (replicate k []).
Proof.
  intros Hk. split.
  - by rewrite length_replicate.
  - intros j f [-> _]%lookup_replicate. unfold fold_size. simpl.
    rewrite Nat.Div0.div_0_l, Nat.Div0.mod_0_l. case_decide; lia.
  - induction k as [|k IH]; [lia|]. simpl.
    destruct k; [done|]. apply IH. lia.
  - intros i x Hi. by rewrite lookup_nil in Hi.
Qed.

Lemma dealt_step (k : nat) ps folds f p :
  0 < k →
  dealt k ps folds →
  folds !! (length ps mod k) = Some f →
  dealt k (ps ++ [p]) (<[length ps mod k := f ++ [p]]> folds).
Proof.
  intros Hk [Hlen Hsz Hperm Hplace] Hf.
  pose proof (Nat.mod_upper_bound (length ps) k ltac:(lia)) as Hr.
  assert (length f = length ps / k) as Hflen.
  { rewrite (Hsz _ _ Hf). unfold fold_size. case_decide; lia. }
  split.
  - by rewrite length_insert.
  - intros j g Hg. rewrite length_app. simpl.
    replace (length ps + 1) with (S (length ps)) by lia.
    assert (j < k) as Hj.
    { apply lookup_lt_Some in Hg. rewrite length_insert in Hg. lia. }
    rewrite fold_size_step by done.
    destruct (decide (j = length ps mod k)) as [->|Hne].
    + rewrite list_lookup_insert_eq in Hg by lia. simplify_eq.
      rewrite length_app. simpl. by rewrite (Hsz _ _ Hf).
    + rewrite list_lookup_insert_ne in Hg by done.
      rewrite (Hsz _ _ Hg). lia.
  - by rewrite concat_insert_snoc, Hperm.
  - intros i x Hi.
    destruct (decide (i < length ps)) as [Hlt|Hge].
    + rewrite lookup_app_l in Hi by done.
      destruct (Hplace _ _ Hi) as (g & Hg & Hx).
      destruct (decide (i mod k = length ps mod k)) as [Heq|Hne].
      * rewrite Heq in Hg |- *. assert (g = f) as -> by congruence.
        exists (f ++ [p]). split.
        -- rewrite list_lookup_insert_eq by lia. done.
        -- apply lookup_app_l_Some. done.
      * exists g. split; [|done].
        by rewrite list_lookup_insert_ne.
    + assert (i = length ps) as ->.
      { apply lookup_lt_Some in Hi. rewrite length_app in Hi.
        simpl in Hi. lia. }
      rewrite lookup_app_r, Nat.sub_diag in Hi by lia. simplify_eq/=.
      exists (f ++ [x]). split.
      * rewrite list_lookup_insert_eq by lia. done.
      * rewrite lookup_app_r by lia. by rewrite Hflen, Nat.sub_diag.
Qed.

Lemma make_folds_loop_dealt (k : nat) ps done folds :
  0 < k →
  dealt k done folds →
  ∃ folds', trainer.make_folds_loop k (length done) ps folds = Ok folds'
            ∧ dealt k (done ++ ps) folds'.
Proof.
  intros Hk. revert done folds.
  induction ps as [|p ps IH]; intros done folds Hd; simpl.
  - exists folds. by rewrite (right_id_L [] (++)).
  - case_decide; [lia|].
    destruct (lookup_lt_is_Some_2 folds (length done mod k)) as [f Hf].
    { rewrite (dealt_length _ _ _ Hd). apply Nat.mod_upper_bound. lia. }
    rewrite Hf.
    pose proof (dealt_step k done folds f p Hk Hd Hf) as Hd'.
    destruct (IH _ _ Hd') as (folds' & Hrun & Hd'').
    rewrite length_app in Hrun. simpl in Hrun.
    replace (length done + 1) with (S (length done)) in Hrun by lia.
    exists folds'. split; [done|].
    by rewrite <-(assoc_L (++)) in Hd''.
Qed.

Lemma make_folds_dealt (all_pairs : list A) (k : nat) :
  0 < k →
  ∃ folds, trainer._make_folds all_pairs k = Ok folds
           ∧ dealt k all_pairs folds.
Proof.
  intros Hk.
  destruct (make_folds_loop_dealt k all_pairs [] (replicate k []) Hk
              (dealt_start k Hk)) as (folds & Hrun & Hd).
  exists folds. split; done.
Qed.

(** C4. For every list and every fold count [k ≥ 1], [_make_folds]
    returns exactly [k] folds; the element of index [i] sits in fold
    [i mod k] (at position [i / k]); any two folds differ in size by at
    most one; and the folds together hold the elements of the input, each
    exactly once. *)
Theorem make_folds_round_robin (all_pairs : list A) (k : nat) :
  1 ≤ k →
  ∃ folds,
    trainer._make_folds all_pairs k = Ok folds
    ∧ length folds = k
    ∧ (∀ i x, all_pairs !! i = Some x →
         ∃ f, folds !! (i mod k) = Some f ∧ f !! (i / k) = Some x)
    ∧ (∀ f g, f ∈ folds → g ∈ folds → length f ≤ length g + 1)
    ∧ concat folds ≡ₚ all_pairs.
Proof.
  intros Hk.
  destruct (make_folds_dealt all_pairs k ltac:(lia))
    as (folds & Hrun & [Hlen Hsz Hperm Hplace]).
  exists folds. repeat split; try done.
  intros f g [i Hi]%list_elem_of_lookup [j Hj]%list_elem_of_lookup.
  rewrite (Hsz _ _ Hi), (Hsz _ _ Hj).
  pose proof (fold_size_bounds k (length all_pairs) i).
  pose proof (fold_size_bounds k (length all_pairs) j). lia.
Qed.
End FoldSplit.

Lemma make_folds_round_robin_witness :
  ∃ folds,
    trainer._make_folds [10; 11; 12; 13; 14; 15; 16] 3 = Ok folds
    ∧ length folds = 3
    ∧ (∀ i x, [10; 11; 12; 13; 14; 15; 16] !! i = Some x →
         ∃ f, folds !! (i mod 3) = Some f ∧ f !! (i / 3) = Some x)
    ∧ (∀ f g, f ∈ folds → g ∈ folds → length f ≤ length g + 1)
    ∧ concat folds ≡ₚ [10; 11; 12; 13; 14; 15; 16].
Proof. apply (make_folds_round_robin [10; 11; 12; 13; 14; 15; 16] 3). lia. Defined.

(** ** Data partitions *)

Section DataPartitions.
Import data_manager.

Lemma elem_of_listdir {V} (d : gmap string V) (f : string) :
  f ∈ listdir d ↔ is_Some (d !! f).
Proof.
  unfold listdir. rewrite list_elem_of_fmap. split.
  - intros ([k v] & -> & Hkv). apply elem_of_map_to_list in Hkv. eauto.
  - intros [v Hv]. exists (f, v). by rewrite elem_of_map_to_list.
Qed.

Lemma NoDup_listdir {V} (d : gmap string V) : NoDup (listdir d).
Proof. apply NoDup_fst_map_to_list. Qed.

Lemma NoDup_list_png (d : gmap string bytes) : NoDup (_list_png d).
Proof. apply NoDup_filter, NoDup_listdir. Qed.

Lemma elem_of_list_png (d : gmap string bytes) (f : string) :
  f ∈ _list_png d ↔ is_png f = true ∧ is_Some (d !! f).
Proof. unfold _list_png. by rewrite list_elem_of_filter, elem_of_listdir. Qed.

Lemma in_set_true (names : list string) (f : string) :
  in_set names f = true ↔ f ∈ names.
Proof. unfold in_set. by rewrite bool_decide_eq_true. Qed.

(** Intersecting two duplicate-free listings from either side gives the
    same number of names. *)
Lemma length_filter_in_set_comm (xs ys : list string) :
  NoDup xs → NoDup ys →
  length (filter (λ f, in_set ys f = true) xs)
  = length (filter (λ f, in_set xs f = true) ys).
Proof.
  intros Hxs Hys. apply Permutation_length, NoDup_Permutation.
  - by apply NoDup_filter.
  - by apply NoDup_filter.
  - intros f. rewrite !list_elem_of_filter, !in_set_true. tauto.
Qed.

Lemma length_filter_in_set_subseteq (xs ys : list string) :
  NoDup xs → NoDup ys → (∀ f, f ∈ ys → f ∈ xs) →
  length (filter (λ f, in_set ys f = true) xs) = length ys.
Proof.
  intros Hxs Hys Hsub. apply Permutation_length, NoDup_Permutation.
  - by apply NoDup_filter.
  - done.
  - intros f. rewrite list_elem_of_filter, in_set_true.
    split; [tauto|]. auto.
Qed.

Lemma length_pairs_of di da (images annotations : gmap string bytes) :
  length (pairs_of di da images annotations)
  = length (filter (λ f, in_set (_list_png annotations) f = true)
              (_list_png images)).
Proof. unfold pairs_of. by rewrite length_fmap. Qed.

(** C9. In a store where every annotation of the completed partition has
    an image of the same name there, the [total_training_pairs] of
    [get_stats] is the number of pairs [get_all_training_pairs]
    returns. *)
Theorem stats_total_is_pair_count (s : DataStore) :
  (∀ f, f ∈ _list_png (completed_annotations s) →
        f ∈ _list_png (completed_images s)) →
  total_training_pairs (get_stats s)
  = length (get_all_training_pairs s).
Proof.
  intros Hmatch. unfold get_stats, get_all_training_pairs. simpl.
  rewrite length_app, !length_pairs_of.
  rewrite (length_filter_in_set_subseteq _ _
             (NoDup_list_png _) (NoDup_list_png _) Hmatch).
  f_equal.
  apply length_filter_in_set_comm; apply NoDup_list_png.
Qed.

(** *** Paths *)

Lemma split_not_nil (sep : ascii) (p : string) :
  posixpath.split sep p ≠ [].
Proof.
  destruct p as [|c rest]; [done|]. simpl.
  destruct (Ascii.eqb c sep); [done|].
  by destruct (posixpath.split sep rest).
Qed.

Lemma is_name_spec (p : string) :
  posixpath.is_name p = true
  ↔ posixpath.has_nul p = false
    ∧ posixpath.components p = [p]
    ∧ p ≠ "" ∧ p ≠ "." ∧ p ≠ "..".
Proof.
  unfold posixpath.is_name.
  rewrite !andb_true_iff, !negb_true_iff, bool_decide_eq_true,
    bool_decide_eq_false.
  split.
  - intros [[Hn Hc] Hd]. repeat split; try done; intros ->; apply Hd; auto.
  - intros (Hn & Hc & H1 & H2 & H3). repeat split; try done.
    by intros [?|[?|?]].
Qed.

Lemma isabs_components (p : string) :
  posixpath.isabs p = true → posixpath.components p ≠ [p].
Proof.
  destruct p as [|c rest]; [done|]. unfold posixpath.components. simpl.
  intros ->. done.
Qed.

Lemma is_name_relative (p : string) :
  posixpath.is_name p = true → posixpath.isabs p = false.
Proof.
  intros (_ & Hc & _)%is_name_spec.
  destruct (posixpath.isabs p) eqn:Ha; [|done].
  by apply isabs_components in Ha.
Qed.

(** A file name joined to a data directory leads to the entry of that
    name. *)
Lemma resolve_name (d : data_dir) (name : string) :
  posixpath.is_name name = true →
  resolve (d, name) = at_place (entry d name).
Proof.
  intros Hname. pose proof (is_name_relative _ Hname) as Hrel.
  apply is_name_spec in Hname as (Hn & Hc & H1 & H2 & H3).
  unfold resolve. cbn [fst snd]. rewrite Hn, Hrel, Hc.
  cbn [walk]. unfold step.
  rewrite decide_False by (by intros [?|?]).
  by rewrite decide_False.
Qed.

Lemma exists_name (s : DataStore) (d : data_dir) (name : string) :
  posixpath.is_name name = true →
  exists_ s (d, name) = bool_decide (is_Some (directory s d !! name)).
Proof. intros Hname. unfold exists_. by rewrite resolve_name. Qed.

Lemma read_name (s : DataStore) (d : data_dir) (name : string) :
  posixpath.is_name name = true →
  read s (d, name) = directory s d !! name.
Proof. intros Hname. unfold read. by rewrite resolve_name. Qed.

(** On a file name [save_annotation] looks at the entry of that name and
    writes the entry of that name. *)
Lemma save_annotation_name (image_id : string) (content : bytes)
    (s : DataStore) :
  posixpath.is_name image_id = true →
  save_annotation image_id content s
  = if bool_decide (is_Some (unannotated_images s !! image_id))
    then (Ok tt, write_annotation image_id content s)
    else (Raise ValueError, s).
Proof.
  intros Hname. unfold save_annotation, open_and_write. cbv zeta.
  unfold mbind, M_bind, gets. rewrite exists_name by done.
  cbn [directory]. destruct (bool_decide _); [|done].
  cbn [negb]. by rewrite resolve_name.
Qed.


Lemma get_image_path_name (s : DataStore) (image_id : string) :
  posixpath.is_name image_id = true →
  get_image_path s image_id
  = if bool_decide (is_Some (unannotated_images s !! image_id))
    then Some (UNANNOTATED_IMAGES_DIR, image_id)
    else if bool_decide (is_Some (completed_images s !! image_id))
    then Some (COMPLETED_IMAGES_DIR, image_id)
    else None.
Proof.
  intros Hname. unfold get_image_path. by rewrite !exists_name.
Qed.


(** A walk that never climbs stays in the directory it starts from. *)
Lemma walk_entry (d : data_dir) (name : string) (components : list string) :
  walk (entry d name) components
  = match components with
    | [] => at_place (entry d name)
    | _ => missing
    end.
Proof. by destruct components. Qed.


End DataPartitions.

Lemma stats_total_is_pair_count_witness :
  data_manager.total_training_pairs (data_manager.get_stats example_store)
  = length (data_manager.get_all_training_pairs example_store).
Proof.
  apply (stats_total_is_pair_count example_store).
  apply Forall_forall. apply (bool_decide_unpack _). vm_compute. exact I.
Defined.

(** C1 as stated fails: an identifier that climbs out of the inbox with
    [..] and names an annotation of the completed partition is no name
    of an inbox image, yet [save_annotation] returns and has overwritten
    that annotation. *)
Lemma save_annotation_overwrites_completed :
  ¬ ∀ (image_id : string) (content : bytes) (s : DataStore),
      image_id ∉ dom (unannotated_images s) →
      ∃ s', data_manager.save_annotation image_id content s
            = (Raise ValueError, s')
            ∧ completed_annotations s' = completed_annotations s.
Proof.
  intros H.
  destruct (H "../../images_completed/annotations/a.png" [Byte.x01]
              example_store) as (s' & Hrun & _).
  - apply (bool_decide_unpack _). vm_compute. exact I.
  - vm_compute in Hrun. discriminate.
Qed.

(** What that call leaves: the annotation [a.png] of the completed
    partition holds the bytes given. *)
Example save_annotation_traversal :
  ∃ s', data_manager.save_annotation
          "../../images_completed/annotations/a.png" [Byte.x01]
          example_store = (Ok tt, s')
        ∧ completed_annotations example_store !! "a.png" = Some []
        ∧ completed_annotations s' !! "a.png" = Some [Byte.x01]
        ∧ unannotated_annotations s'
          = unannotated_annotations example_store.
Proof. eexists. by vm_compute. Qed.


(** ** Starting a run *)

Section StartRun.
Import config.

(** C2, amended. [start_training] checks the number of training pairs
    first: below the minimum it answers 400 and changes nothing, whatever
    the state of a run, and [train_model] on such pairs raises before it
    reads the version directory. With enough pairs and a run in the
    running state it answers 409 and changes nothing. Otherwise it
    answers at once: the status is running with epoch, best score and
    current fold at zero, the cancel flag is cleared, the run is queued
    as a background task, and no training output exists yet. Whatever
    the number of pairs, a request made while a run is in the running
    state is rejected and changes nothing. *)
Theorem start_training_preconditions (env : environment) (max_epochs : Z)
    (w : world) :
  let training_pairs := data_manager.get_all_training_pairs (data w) in
  (length training_pairs < MIN_IMAGES_FOR_TRAINING →
     main.start_training env max_epochs w
     = (main.JSONResponse 400
          (main.too_few_pairs (length training_pairs)
             MIN_IMAGES_FOR_TRAINING), w)
     ∧ ∀ status_callback cancel_event,
         trainer.train_model env training_pairs max_epochs
           status_callback cancel_event w
         = (Raise ValueError, w))
  ∧ (MIN_IMAGES_FOR_TRAINING ≤ length training_pairs →
     Status.status (training_status w) = "running" →
     main.start_training env max_epochs w
     = (main.JSONResponse 409 (main.message "training already running"),
        w))
  ∧ (MIN_IMAGES_FOR_TRAINING ≤ length training_pairs →
     Status.status (training_status w) ≠ "running" →
     ∃ w', main.start_training env max_epochs w
           = (main.started max_epochs (length training_pairs), w')
       ∧ Status.status (training_status w') = "running"
       ∧ Status.epoch (training_status w') = 0%Z
       ∧ Status.best_dice (training_status w') = 0%Q
       ∧ Status.current_fold (training_status w') = 0
       ∧ training_cancel_event w' = false
       ∧ background_tasks w'
         = background_tasks w
           ++ [run_training_task_with training_pairs max_epochs]
       ∧ versions w' = versions w
       ∧ current_folds w' = current_folds w
       ∧ best_pt w' = best_pt w
       ∧ data w' = data w)
  ∧ (Status.status (training_status w) = "running" →
     ∃ status_code error,
       main.start_training env max_epochs w
       = (main.JSONResponse status_code error, w)).
Proof.
  intros training_pairs. unfold main.start_training.
  fold training_pairs. split; [|split; [|split]].
  - intros Hn. split.
    + by rewrite decide_True.
    + intros cb ce. unfold trainer.train_model, trainer.train_model_locals.
      by rewrite decide_True.
  - intros Hn Hs. rewrite decide_False by lia. by rewrite decide_True.
  - intros Hn Hs. rewrite decide_False by lia. rewrite decide_False by done.
    eexists. split; [done|]. by repeat split.
  - intros Hs. case_decide; [by eexists _, _|].
    rewrite decide_True by done. by eexists _, _.
Qed.
End StartRun.

(** C2 as stated fails: while a run is in the running state, a request
    made with fewer pairs than the minimum is answered with 400 for the
    missing data, not with the conflict 409. *)
Lemma start_training_running_with_few_pairs :
  ¬ ∀ (env : environment) (max_epochs : Z) (w : world),
      Status.status (training_status w) = "running" →
      (main.start_training env max_epochs w).1
      = main.JSONResponse 409 (main.message "training already running").
Proof.
  intros H. specialize (H steady_env 2%Z running_sparse_world).
  vm_compute in H. specialize (H eq_refl). discriminate.
Qed.

Lemma start_training_preconditions_witness :
  main.start_training steady_env 2 sparse_world
  = (main.JSONResponse 400
       (main.too_few_pairs
          (length (data_manager.get_all_training_pairs (data sparse_world)))
          config.MIN_IMAGES_FOR_TRAINING), sparse_world)
  ∧ main.start_training steady_env 2 running_world
    = (main.JSONResponse 409 (main.message "training already running"),
       running_world)
  ∧ ∃ w', main.start_training steady_env 2 example_world
          = (main.started 2
               (length (data_manager.get_all_training_pairs
                          (data example_world))), w')
      ∧ Status.status (training_status w') = "running"
      ∧ versions w' = versions example_world.
Proof.
  destruct (start_training_preconditions steady_env 2 sparse_world)
    as (Hfew & _ & _).
  destruct (start_training_preconditions steady_env 2 running_world)
    as (_ & Hbusy & _).
  destruct (start_training_preconditions steady_env 2 example_world)
    as (_ & _ & Hfree & _).
  split; [|split].
  - destruct Hfew as [Hfew _]; [vm_compute; lia|]. exact Hfew.
  - apply Hbusy; [vm_compute; lia | vm_compute; reflexivity].
  - destruct Hfree as (w' & Hrun & Hst & _ & _ & _ & _ & _ & Hv & _).
    + vm_compute; lia.
    + vm_compute. discriminate.
    + exists w'. split; [exact Hrun|]. split; assumption.
Defined.

(** ** Version numbers *)

Section VersionNumbers.
Import version_manager.

Lemma zfill_uint (k : nat) (d : uint) :
  Nat.iter k (String "0") (NilEmpty.string_of_uint d)
  = NilEmpty.string_of_uint (Nat.iter k D0 d).
Proof. induction k as [|k IH]; simpl; [done|]. by rewrite IH. Qed.

Lemma length_iter_zero (k : nat) (s : string) :
  String.length (Nat.iter k (String "0") s) = k + String.length s.
Proof. induction k as [|k IH]; simpl; [done|]. by rewrite IH. Qed.

Lemma strip_final_newline_uint (d : uint) :
  strip_final_newline (NilEmpty.string_of_uint d)
  = NilEmpty.string_of_uint d.
Proof.
  induction d as [|d IH|d IH|d IH|d IH|d IH|d IH|d IH|d IH|d IH|d IH];
    simpl; [done|..];
    destruct (NilEmpty.string_of_uint d); simpl in *; congruence.
Qed.

Lemma of_uint_iter_D0 (k : nat) (d : uint) :
  N.of_uint (Nat.iter k D0 d) = N.of_uint d.
Proof. induction k as [|k IH]; simpl; [done|]. exact IH. Qed.

(** Reading back an identifier gives the number it was made from. *)
Lemma version_number_format (n : N) :
  version_number (format_version n) = Some n.
Proof.
  unfold format_version, version_number, zfill.
  rewrite zfill_uint, strip_final_newline_uint.
  rewrite decide_True.
  - rewrite NilEmpty.usu. simpl.
    by rewrite of_uint_iter_D0, DecimalN.Unsigned.of_to.
  - rewrite <-zfill_uint, length_iter_zero. lia.
Qed.

Lemma max_default_ge (existing : list N) (m : N) :
  m ∈ existing → (m ≤ max_default existing)%N.
Proof.
  induction 1 as [m l|m x l _ IH]; simpl; lia.
Qed.

Lemma existing_number_le (vs : gmap string Entry) (name : string) (m : N) :
  is_Some (vs !! name) → version_number name = Some m →
  (m ≤ max_default (existing_numbers vs))%N.
Proof.
  intros Hin Hm. apply max_default_ge. unfold existing_numbers.
  apply list_elem_of_omap. exists name. split; [|done].
  by apply elem_of_listdir.
Qed.

Lemma number_of_next_version (vs : gmap string Entry) :
  number_of (next_version vs) = (max_default (existing_numbers vs) + 1)%N.
Proof. unfold number_of, next_version. by rewrite version_number_format. Qed.

Lemma next_version_fresh (vs : gmap string Entry) :
  vs !! next_version vs = None.
Proof.
  destruct (vs !! next_version vs) as [e|] eqn:He; [|done].
  pose proof (existing_number_le vs (next_version vs) _
                (mk_is_Some _ _ He)
                (version_number_format _)). lia.
Qed.

Lemma next_version_step (vs vs' : gmap string Entry) (name : string)
    (m : N) :
  is_Some (vs' !! name) → version_number name = Some m →
  (number_of (next_version vs) ≤ m)%N →
  (number_of (next_version vs) < number_of (next_version vs'))%N.
Proof.
  intros Hin Hm Hle.
  pose proof (existing_number_le vs' name m Hin Hm).
  rewrite (number_of_next_version vs'). lia.
Qed.

Lemma latest_kept_sorted (states : list (gmap string Entry)) :
  latest_kept states →
  Sorted N.lt ((λ vs, number_of (next_version vs)) <$> states).
Proof.
  induction states as [|vs [|vs' rest] IH]; intros Hkept.
  - constructor.
  - repeat constructor.
  - destruct Hkept as [(name & m & Hin & Hm & Hle) Hrest].
    constructor; [by apply IH|].
    constructor. by apply (next_version_step vs vs' name m).
Qed.

Lemma sorted_numbers_NoDup (states : list (gmap string Entry)) :
  StronglySorted N.lt ((λ vs, number_of (next_version vs)) <$> states) →
  NoDup (next_version <$> states).
Proof.
  induction states as [|vs rest IH]; simpl; intros Hs.
  - constructor.
  - apply StronglySorted_inv in Hs as [Hrest Hall].
    constructor; [|by apply IH].
    intros (vs' & Heq & Hvs')%list_elem_of_fmap.
    rewrite Forall_forall in Hall.
    specialize (Hall (number_of (next_version vs'))).
    rewrite Heq in Hall.
    assert (number_of (next_version vs') < number_of (next_version vs'))%N;
      [|lia].
    apply Hall. apply list_elem_of_fmap. by exists vs'.
Qed.

(** C5 as stated fails: whatever is added or deleted between two runs,
    the second identifier would be larger than the first. With the
    directory of the first run deleted again, the number comes back. *)
Lemma next_version_reused_after_deletion :
  ¬ ∀ (vs added : gmap string Entry) (deleted : list string),
      (number_of (next_version vs)
       < number_of (next_version
                      (between_runs (next_version vs) added deleted vs)))%N.
Proof.
  intros H.
  specialize (H {["v001" := Dir empty_dir]} ∅ ["v002"]).
  vm_compute in H. discriminate.
Qed.

(** C5, amended. [get_next_version] returns the identifier made of the
    largest number among the existing identifiers plus one, padded with
    zeros to three digits ([v001] for an empty directory); it reads back
    as that number and names no existing entry. Over any sequence of
    calls in which, at each call, an entry numbered at least as high as
    the identifier returned before is still present (other entries may
    have been added or deleted), the numbers returned are strictly
    increasing and no identifier repeats. *)
Theorem next_version_monotone (states : list (gmap string Entry)) :
  (∀ w : world,
     get_next_version w
     = (Ok (format_version
              (max_default (existing_numbers (versions w)) + 1)), w))
  ∧ next_version ∅ = "v001"
  ∧ (∀ vs, version_number (next_version vs)
           = Some (max_default (existing_numbers vs) + 1)%N
           ∧ vs !! next_version vs = None)
  ∧ (latest_kept states →
     StronglySorted N.lt ((λ vs, number_of (next_version vs)) <$> states)
     ∧ NoDup (next_version <$> states)).
Proof.
  split; [done|]. split; [by vm_compute|]. split.
  - intros vs. split; [apply version_number_format|apply next_version_fresh].
  - intros Hkept.
    assert (StronglySorted N.lt
              ((λ vs, number_of (next_version vs)) <$> states)) as Hs.
    { apply Sorted_StronglySorted; [|by apply latest_kept_sorted].
      intros x y z. apply N.lt_trans. }
    split; [done|]. by apply sorted_numbers_NoDup.
Qed.
End VersionNumbers.

Lemma next_version_monotone_witness :
  StronglySorted N.lt
    ((λ vs, number_of (version_manager.next_version vs)) <$> example_history)
  ∧ NoDup (version_manager.next_version <$> example_history).
Proof.
  apply (next_version_monotone example_history).
  split; [|split; [|exact I]].
  - exists "v003", 3%N. split; [|split].
    + apply (bool_decide_unpack _). vm_compute. exact I.
    + vm_compute. reflexivity.
    + apply N.leb_le. vm_compute. reflexivity.
  - exists "v004", 4%N. split; [|split].
    + apply (bool_decide_unpack _). vm_compute. exact I.
    + vm_compute. reflexivity.
    + apply N.leb_le. vm_compute. reflexivity.
Defined.

(** ** Restoring a version *)

Section Restore.
Import config version_manager.

Lemma elem_of_fold_range (j : Z) :
  j ∈ (λ i, Z.of_nat i) <$> seq 0 N_FOLDS ↔ (0 ≤ j < Z.of_nat N_FOLDS)%Z.
Proof.
  rewrite list_elem_of_fmap. split.
  - intros (i & -> & Hi%elem_of_seq). lia.
  - intros Hj. exists (Z.to_nat j). split; [lia|].
    apply elem_of_seq. lia.
Qed.

Lemma copy_files_cons (src : gmap Z Checkpoint.t) (i : nat)
    (idxs : list nat) (dst : gmap Z Checkpoint.t) :
  copy_files src (i :: idxs) dst
  = copy_files src idxs
      (match src !! Z.of_nat i with
       | Some c => <[Z.of_nat i := c]> dst
       | None => dst
       end).
Proof. reflexivity. Qed.

Lemma lookup_copy_files (src : gmap Z Checkpoint.t) (idxs : list nat)
    (dst : gmap Z Checkpoint.t) (j : Z) :
  copy_files src idxs dst !! j
  = if decide (j ∈ (λ i, Z.of_nat i) <$> idxs) then
      match src !! j with
      | Some c => Some c
      | None => dst !! j
      end
    else dst !! j.
Proof.
  revert dst. induction idxs as [|i idxs IH]; intros dst.
  - rewrite decide_False; [done|]. by intros ?%elem_of_nil.
  - rewrite copy_files_cons, IH, fmap_cons.
    destruct (decide (j = Z.of_nat i)) as [->|Hne].
    + rewrite (decide_True (P := _ ∈ _ :: _)) by apply list_elem_of_here.
      destruct (src !! Z.of_nat i) as [c|] eqn:Hc.
      * rewrite lookup_insert_eq. by case_decide.
      * by case_decide.
    + destruct (decide (j ∈ (λ i, Z.of_nat i) <$> idxs)) as [Hin|Hnin].
      * rewrite (decide_True (P := _ ∈ _ :: _))
          by by apply list_elem_of_further.
        destruct (src !! j) as [c|]; [done|].
        destruct (src !! Z.of_nat i); [|done].
        by rewrite lookup_insert_ne.
      * rewrite (decide_False (P := _ ∈ _ :: _)).
        -- destruct (src !! Z.of_nat i); [|done].
           by rewrite lookup_insert_ne.
        -- intros [?|?]%elem_of_cons; done.
Qed.

Lemma lookup_copy_files_range (src dst : gmap Z Checkpoint.t) (j : Z) :
  copy_files src (seq 0 N_FOLDS) dst !! j
  = if decide (0 ≤ j < Z.of_nat N_FOLDS)%Z then
      match src !! j with
      | Some c => Some c
      | None => dst !! j
      end
    else dst !! j.
Proof.
  rewrite lookup_copy_files.
  destruct (decide (0 ≤ j < Z.of_nat N_FOLDS)%Z) as [Hj|Hj].
  - by rewrite decide_True by by apply elem_of_fold_range.
  - by rewrite decide_False by by rewrite elem_of_fold_range.
Qed.

Section Loop.
Variables (version : string) (d : VersionDir).
Variables (da : DataStore) (vs : gmap string Entry).
Variables (b : option Checkpoint.t) (ms : list state_dict) (ml : bool).
Variables (st : Status.t) (ce : bool) (bt : list Task) (t : nat).
Hypothesis Hdir : vs !! version = Some (Dir d).

Lemma restore_loop (idxs : list nat) (cf : gmap Z Checkpoint.t) :
  for_each idxs (λ i,
    src ← gets (λ w,
      match versions w !! version with
      | Some (Dir d) => vd_folds d !! Z.of_nat i
      | _ => None
      end);
    match src with
    | Some c => modify (set_current_folds <[Z.of_nat i := c]>)
    | None => mret tt
    end)
    {| data := da; versions := vs; current_folds := cf; best_pt := b;
       _models := ms; _models_loaded := ml; training_status := st;
       training_cancel_event := ce; background_tasks := bt; ticks := t |}
  = (Ok tt,
     {| data := da; versions := vs;
        current_folds := copy_files (vd_folds d) idxs cf; best_pt := b;
        _models := ms; _models_loaded := ml; training_status := st;
        training_cancel_event := ce; background_tasks := bt;
        ticks := t |}).
Proof.
  revert cf. induction idxs as [|i idxs IH]; intros cf; [done|].
  cbn [for_each]. rewrite copy_files_cons.
  erewrite bind_ok; [apply IH|].
  rewrite bind_gets. cbn [versions]. rewrite Hdir.
  by destruct (vd_folds d !! Z.of_nat i).
Qed.
End Loop.

(** C8 as stated fails: with the directory present and the record
    document absent, [restore_version] does not raise. *)
Lemma restore_version_without_record :
  ¬ ∀ (version : string) (w : world),
      record_of w version = None →
      fst (restore_version version w) = Raise FileNotFoundError.
Proof.
  intros H. specialize (H "v001" unlogged_world eq_refl).
  vm_compute in H. discriminate.
Qed.

Lemma locate_version_dir (vs : gmap string Entry) (version : string)
    (d : VersionDir) :
  vs !! version = Some (Dir d) →
  locate_version vs version = version_dir version.
Proof. unfold locate_version. by intros ->. Qed.

(** A version name leads to the entry of that name. *)
Lemma locate_version_name (vs : gmap string Entry) (version : string) :
  posixpath.is_name version = true →
  locate_version vs version
  = match vs !! version with
    | Some (Dir _) => version_dir version
    | _ => no_directory
    end.
Proof.
  intros Hname. pose proof (is_name_relative _ Hname) as Hrel.
  apply is_name_spec in Hname as (Hn & Hc & H1 & H2 & H3).
  unfold locate_version. rewrite Hn, Hrel, Hc. cbn [foldl].
  unfold version_step.
  rewrite decide_False by (by intros [?|?]).
  rewrite decide_False by done.
  by destruct (vs !! version) as [[|d]|].
Qed.

Lemma split_app (sep : ascii) (a b : string) :
  posixpath.split sep (a +:+ String sep b)
  = posixpath.split sep a ++ posixpath.split sep b.
Proof.
  induction a as [|c a IH]; simpl.
  - by rewrite Ascii.eqb_refl.
  - destruct (Ascii.eqb c sep); [by rewrite IH|].
    rewrite IH.
    pose proof (split_not_nil sep a) as Ha.
    by destruct (posixpath.split sep a).
Qed.

Lemma has_nul_app (a b : string) :
  posixpath.has_nul (a +:+ b)
  = posixpath.has_nul a || posixpath.has_nul b.
Proof.
  induction a as [|c a IH]; [done|]. simpl. by rewrite IH, orb_assoc.
Qed.

Lemma isabs_app (a b : string) :
  a ≠ "" → posixpath.isabs (a +:+ b) = posixpath.isabs a.
Proof. by destruct a. Qed.

(** A version name followed by a separator leads where the name
    leads. *)
Lemma locate_version_trailing (vs : gmap string Entry) (name : string)
    (d : VersionDir) :
  names_only vs →
  posixpath.is_name name = true →
  vs !! name = Some (Dir d) →
  locate_version vs (name +:+ "/") = version_dir name.
Proof.
  intros Hwf Hname Hd. pose proof (is_name_relative _ Hname) as Hrel.
  pose proof Hname as (Hn & Hc & H1 & H2 & H3)%is_name_spec.
  unfold locate_version.
  destruct (vs !! (name +:+ "/")) as [e|] eqn:He.
  { assert (posixpath.is_name (name +:+ "/") = true) as Hbad
      by (apply Hwf; by eexists).
    apply is_name_spec in Hbad as (_ & Hbad & _).
    unfold posixpath.components in Hbad, Hc.
    rewrite split_app, Hc in Hbad. done. }
  rewrite has_nul_app, Hn, isabs_app, Hrel by done. cbn [orb posixpath.has_nul].
  unfold posixpath.components in *. rewrite split_app, Hc.
  cbn [posixpath.split app foldl]. unfold version_step at 2.
  rewrite decide_False by (by intros [?|?]).
  rewrite decide_False by done. rewrite Hd.
  unfold version_step. by rewrite decide_True by by left.
Qed.

(** The empty name and [.] lead to the version directory itself. *)
Lemma locate_version_here (vs : gmap string Entry) (version : string) :
  names_only vs →
  version = "" ∨ version = "." →
  (∀ name, name ∈ model_file_names → vs !! name = None) →
  locate_version vs version = versions_dir.
Proof.
  intros Hwf Hv Hnone. unfold locate_version.
  destruct (vs !! version) as [e|] eqn:He.
  { assert (posixpath.is_name version = true) as Hbad
      by (apply Hwf; by eexists).
    by destruct Hv as [-> | ->]. }
  assert (existsb (λ name, bool_decide (is_Some (vs !! name)))
            model_file_names = false) as ->.
  { apply not_true_iff_false. intros (name & Hin & Hsome)%existsb_exists.
    apply bool_decide_eq_true in Hsome. apply list_elem_of_In in Hin.
    rewrite (Hnone name Hin) in Hsome. by destruct Hsome. }
  by destruct Hv as [-> | ->].
Qed.

(** C8, amended. [restore_version] raises [FileNotFoundError] when the
    path of the version leads to no directory, and then changes nothing;
    the record document plays no part. For a version name this is the
    case exactly when the version directory has no directory of that
    name. Where the path leads to the directory of a version it returns:
    each fold checkpoint and the promoted checkpoint the directory holds
    replaces the one of the current slot (a file the directory lacks
    leaves the current one in place), then the loaded model set is
    dropped; nothing else changes. A name followed by a separator leads
    to the same directory. The empty name and [.] lead to the version
    directory itself: nothing is copied, and the loaded model set is
    dropped. *)
Theorem restore_version_spec (version : string) (w : world) :
  (locate_version (versions w) version = no_directory →
     restore_version version w = (Raise FileNotFoundError, w))
  ∧ (∀ name d,
       locate_version (versions w) version = version_dir name →
       versions w !! name = Some (Dir d) →
       ∃ w', restore_version version w = (Ok tt, w')
         ∧ (∀ j, current_folds w' !! j
                 = if decide (0 ≤ j < Z.of_nat N_FOLDS)%Z then
                     match vd_folds d !! j with
                     | Some c => Some c
                     | None => current_folds w !! j
                     end
                   else current_folds w !! j)
         ∧ best_pt w' = match vd_best d with
                        | Some c => Some c
                        | None => best_pt w
                        end
         ∧ _models w' = [] ∧ _models_loaded w' = false
         ∧ versions w' = versions w ∧ data w' = data w
         ∧ training_status w' = training_status w
         ∧ training_cancel_event w' = training_cancel_event w
         ∧ background_tasks w' = background_tasks w
         ∧ ticks w' = ticks w)
  ∧ (locate_version (versions w) version = versions_dir →
     restore_version version w = (Ok tt, set_inference [] false w))
  ∧ (posixpath.is_name version = true →
     locate_version (versions w) version
     = match versions w !! version with
       | Some (Dir _) => version_dir version
       | _ => no_directory
       end)
  ∧ (names_only (versions w) →
     (∀ name d,
        posixpath.is_name name = true →
        versions w !! name = Some (Dir d) →
        version = name +:+ "/" →
        locate_version (versions w) version = version_dir name)
     ∧ (version = "" ∨ version = "." →
        (∀ name, name ∈ model_file_names → versions w !! name = None) →
        locate_version (versions w) version = versions_dir)).
Proof.
  split; [|split; [|split; [|split]]].
  - intros Hplace. unfold restore_version. rewrite bind_gets.
    by rewrite Hplace.
  - intros name d Hplace Hd. unfold restore_version.
    rewrite bind_gets, Hplace.
    destruct w as [da vs cf b ms ml st ce bt t]. cbn [versions] in *.
    erewrite bind_ok; [|by apply restore_loop].
    rewrite bind_gets. cbn [versions]. rewrite Hd.
    pose proof (lookup_copy_files_range (vd_folds d) cf) as Hfolds.
    destruct (vd_best d) as [c|].
    + rewrite bind_modify. eexists. split; [reflexivity|].
      cbn. by repeat split.
    + rewrite bind_ret. eexists. split; [reflexivity|].
      cbn. by repeat split.
  - intros Hplace. unfold restore_version. rewrite bind_gets.
    by rewrite Hplace.
  - apply locate_version_name.
  - intros Hwf. split.
    + intros name d Hname Hd ->. by eapply locate_version_trailing.
    + intros Hv Hnone. by apply locate_version_here.
Qed.
End Restore.

(** The version directory holds [v001], without a record, and the plain
    file [v007]. *)
Lemma restore_version_spec_witness :
  version_manager.restore_version "v002" unlogged_world
  = (Raise FileNotFoundError, unlogged_world)
  ∧ (∃ w', version_manager.restore_version "v001/" unlogged_world
           = (Ok tt, w')
       ∧ best_pt w' = Some example_checkpoint
       ∧ _models_loaded w' = false)
  ∧ version_manager.restore_version "." unlogged_world
    = (Ok tt, set_inference [] false unlogged_world).
Proof.
  assert (names_only (versions unlogged_world)) as Hwf.
  { intros name [e He]. unfold unlogged_world in He. simpl in He.
    apply lookup_singleton_Some in He as [<- _]. reflexivity. }
  destruct (restore_version_spec "v002" unlogged_world)
    as (Habsent & _ & _ & Hname & _).
  destruct (restore_version_spec "v001/" unlogged_world)
    as (_ & Hpresent & _ & _ & Halias).
  destruct (restore_version_spec "." unlogged_world)
    as (_ & _ & Hroot & _ & Hhere).
  split; [|split].
  - apply Habsent. rewrite Hname by reflexivity. vm_compute. reflexivity.
  - destruct (Halias Hwf) as [Htrailing _].
    destruct (Hpresent "v001" _ (Htrailing "v001" _ eq_refl eq_refl eq_refl)
                eq_refl)
      as (w' & Hrun & _ & Hbest & _ & Hloaded & _).
    exists w'. split; [exact Hrun|]. split; [exact Hbest|exact Hloaded].
  - destruct (Hhere Hwf) as [_ Hdot].
    apply Hroot, Hdot; [by right|].
    intros name Hin. unfold unlogged_world. simpl.
    apply lookup_singleton_None. intros <-.
    apply list_elem_of_In in Hin. vm_compute in Hin.
    destruct Hin as [H|[H|[H|[H|[H|[H|[]]]]]]]; discriminate H.
Defined.

(** ** Training one fold *)

Lemma fgt_true (a b : float) : fgt a b = true ↔ (b < a)%Q.
Proof.
  unfold fgt. rewrite negb_true_iff, <-not_true_iff_false, Qle_bool_iff.
  split; [apply Qnot_le_lt|apply Qlt_not_le].
Qed.

Lemma fgt_false (a b : float) : fgt a b = false ↔ (a <= b)%Q.
Proof. unfold fgt. by rewrite negb_false_iff, Qle_bool_iff. Qed.

Lemma fold_frame_refl (f : nat) (s : trainer.tstate) :
  f < length (Log.folds (trainer.version_log (fst s))) →
  fold_frame f 0 s s.
Proof.
  intros [e He]%lookup_lt_is_Some_2. split; try done.
  exists e, e. repeat split; auto with lia.
Qed.

Lemma fold_frame_trans (f n m : nat) (s0 s1 s2 : trainer.tstate) :
  fold_frame f n s0 s1 → fold_frame f m s1 s2 → fold_frame f (n + m) s0 s2.
Proof.
  intros [H1 H2 H3 H4 H5 H6 H7 (e0 & e1 & Ha & Hb & Hc & Hd)]
         [G1 G2 G3 G4 G5 G6 G7 (e1' & e2 & Ga & Gb & Gc & Gd)].
  assert (e1' = e1) as -> by congruence.
  split; try congruence.
  - intros j Hj. by rewrite G2, H2.
  - intros j Hj. by rewrite G7, H7.
  - exists e0, e2. repeat split; try done; [congruence|lia].
Qed.

(** A step that leaves the locals alone. *)
Lemma fold_frame_world (f : nat) (l : trainer.locals) (w w' : world) :
  f < length (Log.folds (trainer.version_log l)) →
  untouched w' = untouched w →
  (∀ j, j ≠ Z.of_nat f → current_folds w' !! j = current_folds w !! j) →
  fold_frame f 0 (l, w) (l, w').
Proof.
  intros [e He]%lookup_lt_is_Some_2 Hu Hf. split; try done.
  exists e, e. repeat split; simpl; auto with lia.
Qed.

(** [record_epoch] on an existing fold adds one entry to that fold. *)
Lemma record_epoch_frame (f : nat) (epoch : Z) (loss dice : float)
    (l : trainer.locals) (w : world) :
  f < length (Log.folds (trainer.version_log l)) →
  ∃ log,
    version_manager.record_epoch (trainer.version_log l) f epoch loss dice
    = Ok log
    ∧ fold_frame f 1 (l, w) (trainer.set_version_log log l, w).
Proof.
  intros Hlt. destruct (lookup_lt_is_Some_2 _ _ Hlt) as [e He].
  unfold version_manager.record_epoch. rewrite He.
  eexists. split; [done|]. split; try done; simpl.
  - by rewrite length_insert.
  - intros j Hj. by rewrite list_lookup_insert_ne.
  - eexists e, _. split; [done|]. split.
    + by rewrite list_lookup_insert_eq.
    + simpl. split; [done|]. by rewrite length_app.
Qed.

Section OneFold.
Variables (env : environment) (f : nat) (offset : Z).

Local Abbreviation loop :=
  (trainer.epoch_loop env f (Z.of_nat f) offset
     (Some main.update_training_status) (Some training_cancel_event)
     (Some trainer.epoch_log_cb)).

Lemma epoch_loop_cons (epoch : Z) (rest : list Z) (best : float)
    (l : trainer.locals) (w : world) :
  loop (epoch :: rest) best (l, w)
  = let w1 := at_check env f epoch w in
    if training_cancel_event w1 then (Raise TrainingCancelled, (l, w1))
    else
      match run_epoch env f epoch with
      | None => (Raise RuntimeError, (l, w1))
      | Some out =>
          match version_manager.record_epoch (trainer.version_log l) f
                  epoch (avg_loss out) (mean_dice out) with
          | Raise e => (Raise e, (l, w1))
          | Ok log =>
              let l' := trainer.set_version_log log l in
              let w2 := after_status f (offset + epoch) out w1 in
              if fgt (mean_dice out) best then
                loop rest (mean_dice out)
                  (l', set_current_folds
                         <[Z.of_nat f := saved f epoch out]> w2)
              else loop rest best (l', w2)
          end
      end.
Proof.
  cbn [trainer.epoch_loop]. unfold at_check, trainer.other_threads.
  destruct (cancel_arrives env f epoch);
    (destruct (training_cancel_event _) eqn:Hc;
     [by cbv [mbind M_bind trainer.lift_world modify mret M_ret gets
              trainer.is_cancelled fst snd raise]; cbn; rewrite ?Hc|]);
    (destruct (run_epoch env f epoch) as [out|];
     [|by cbv [mbind M_bind trainer.lift_world modify mret M_ret gets
               trainer.is_cancelled fst snd raise]; cbn; rewrite ?Hc]);
    cbv [mbind M_bind trainer.lift_world modify mret M_ret gets
         trainer.is_cancelled fst snd raise trainer.epoch_log_cb];
    cbn; rewrite ?Hc;
    (destruct (version_manager.record_epoch _ _ _ _ _); [|done]);
    by destruct (fgt _ _).
Qed.

Lemma at_check_untouched (epoch : Z) (w : world) :
  untouched (at_check env f epoch w) = untouched w
  ∧ current_folds (at_check env f epoch w) = current_folds w.
Proof. unfold at_check. by destruct (cancel_arrives env f epoch). Qed.

(** The epoch loop of fold [f], from any state whose record has an entry
    for [f]: it changes only what [fold_frame] allows; when it returns,
    every epoch has been recorded, and the score returned is the one it
    started from with the fold's file as it was, or the score of the
    checkpoint now in the fold's file; when it raises, the exception is
    the cancellation or the failure of an epoch, and fewer epochs than
    asked for have been recorded. *)
Lemma epoch_loop_spec (epochs : list Z) (best : float)
    (l : trainer.locals) (w : world) :
  f < length (Log.folds (trainer.version_log l)) →
  ∃ n,
    fold_frame f n (l, w) (loop epochs best (l, w)).2
    ∧ match (loop epochs best (l, w)).1 with
      | Ok d =>
          n = length epochs
          ∧ ((d = best
              ∧ current_folds (loop epochs best (l, w)).2.2 !! Z.of_nat f
                = current_folds w !! Z.of_nat f)
             ∨ ∃ c,
                 current_folds (loop epochs best (l, w)).2.2 !! Z.of_nat f
                 = Some c
                 ∧ Checkpoint.best_dice c = d
                 ∧ Checkpoint.fold_idx c = f)
      | Raise e =>
          (e = TrainingCancelled ∨ e = RuntimeError) ∧ n < length epochs
      end.
Proof.
  revert best l w.
  induction epochs as [|epoch rest IH]; intros best l w Hlt.
  - exists 0. split; [by apply fold_frame_refl|]. simpl. by auto.
  - rewrite epoch_loop_cons. cbv zeta.
    destruct (at_check_untouched epoch w) as [Hu1 Hf1].
    assert (fold_frame f 0 (l, w) (l, at_check env f epoch w)) as Hfr1.
    { apply fold_frame_world; [done..|]. intros j _. by rewrite Hf1. }
    destruct (training_cancel_event (at_check env f epoch w)).
    { exists 0. split; [done|]. simpl. split; [auto|lia]. }
    destruct (run_epoch env f epoch) as [out|]; last first.
    { exists 0. split; [done|]. simpl. split; [auto|lia]. }
    destruct (record_epoch_frame f epoch (avg_loss out) (mean_dice out)
                l (at_check env f epoch w) Hlt) as (log & -> & Hfr2).
    pose proof (fold_frame_trans _ _ _ _ _ _ Hfr1 Hfr2) as Hfr12.
    assert (f < length (Log.folds (trainer.version_log
                                     (trainer.set_version_log log l))))
      as Hlt'.
    { pose proof (ff_length _ _ _ _ Hfr2) as Hlen. simpl in Hlen.
      simpl. lia. }
    destruct (fgt (mean_dice out) best) eqn:Hgt.
    + set (w3 := set_current_folds _ _).
      assert (fold_frame f 0 (trainer.set_version_log log l,
                              at_check env f epoch w)
                (trainer.set_version_log log l, w3)) as Hfr3.
      { apply fold_frame_world; [done..|].
        intros j Hj. unfold w3. simpl. by rewrite lookup_insert_ne. }
      pose proof (fold_frame_trans _ _ _ _ _ _ Hfr12 Hfr3) as Hfr123.
      destruct (IH (mean_dice out) _ w3 Hlt') as (n & Hfr & Hres).
      exists (0 + 1 + 0 + n).
      split; [by eapply fold_frame_trans|].
      destruct (loop rest (mean_dice out) _).1 as [d|e].
      * destruct Hres as [-> Hd]. split; [simpl; lia|].
        right. destruct Hd as [[-> Hsame]|Hc]; [|done].
        exists (saved f epoch out). rewrite Hsame. unfold w3. simpl.
        by rewrite lookup_insert_eq.
      * destruct Hres as [He Hn]. split; [done|]. simpl. lia.
    + set (w2 := after_status _ _ _ _).
      assert (fold_frame f 0 (trainer.set_version_log log l,
                              at_check env f epoch w)
                (trainer.set_version_log log l, w2)) as Hfr3.
      { by apply fold_frame_world. }
      pose proof (fold_frame_trans _ _ _ _ _ _ Hfr12 Hfr3) as Hfr123.
      destruct (IH best _ w2 Hlt') as (n & Hfr & Hres).
      exists (0 + 1 + 0 + n).
      split; [by eapply fold_frame_trans|].
      destruct (loop rest best _).1 as [d|e].
      * destruct Hres as [-> Hd]. split; [simpl; lia|].
        destruct Hd as [[-> Hsame]|Hc]; [|by right].
        left. split; [done|]. rewrite Hsame. unfold w2. simpl.
        by rewrite Hf1.
      * destruct Hres as [He Hn]. split; [done|]. simpl. lia.
Qed.
End OneFold.

(** ** The loop over the folds *)

Lemma best_consistent_note_fold (k : nat) (d : float) (l : trainer.locals) :
  length (trainer.fold_dices l) = k →
  best_consistent l → best_consistent (trainer.note_fold k d l).
Proof.
  intros Hk Hb. unfold best_consistent, trainer.note_fold. simpl.
  destruct (fgt d (trainer.best_fold_dice l)) eqn:Hgt.
  - apply fgt_true in Hgt. right. exists k. split; [done|].
    split; [by rewrite lookup_app_r, Hk, Nat.sub_diag by lia|].
    assert (0 < d)%Q as Hpos.
    { destruct Hb as [(_ & H0 & _)|(b & _ & _ & Hpos & _)].
      - by rewrite H0 in Hgt.
      - by eapply Qlt_trans. }
    split; [done|].
    intros x [Hx|Hx%list_elem_of_singleton]%elem_of_app;
      [|subst x; apply Qle_refl].
    destruct Hb as [(_ & _ & Hall)|(b & _ & _ & _ & Hall)].
    + eapply Qle_trans; [by apply Hall|by apply Qlt_le_weak].
    + eapply Qle_trans; [by apply Hall|by apply Qlt_le_weak].
  - apply fgt_false in Hgt.
    destruct Hb as [(Hi & H0 & Hall)|(b & Hi & Hb & Hpos & Hall)].
    + left. split; [done|]. split; [done|].
      intros x [Hx|Hx%list_elem_of_singleton]%elem_of_app; [by apply Hall|].
      subst x. by rewrite H0 in Hgt.
    + right. exists b. split; [done|].
      split; [by apply lookup_app_l_Some|]. split; [done|].
      intros x [Hx|Hx%list_elem_of_singleton]%elem_of_app; [by apply Hall|].
      by subst x.
Qed.

Lemma other_folds_ok (folds : list (list training_pair)) (k : nat)
    (js : list nat) :
  (∀ j, j ∈ js → j < length folds) →
  ∃ tp, trainer.other_folds folds k js = Ok tp.
Proof.
  induction js as [|j js IH]; intros Hjs; simpl; [by eexists|].
  destruct IH as [tp Htp].
  { intros j' Hj'. apply Hjs. by apply list_elem_of_further. }
  case_decide; [|by eexists].
  unfold trainer.index.
  destruct (lookup_lt_is_Some_2 folds j) as [fj ->].
  { apply Hjs. apply list_elem_of_here. }
  rewrite Htp. by eexists.
Qed.

Section FoldLoop.
Import config.
Variables (env : environment) (max_epochs : Z).
Variables (folds : list (list training_pair)).
Hypothesis Hfolds : length folds = N_FOLDS.

Local Abbreviation body :=
  (trainer.fold_body env max_epochs (Some main.update_training_status)
     (Some training_cancel_event) folds).

Lemma fold_body_eq (k : nat) (l : trainer.locals) (w : world) :
  k < N_FOLDS →
  length (Log.folds (trainer.version_log l)) = N_FOLDS →
  ∃ tp val log e,
    Log.folds (trainer.version_log l) !! k = Some e
    ∧ Log.folds log
      = <[k := {| Log.fold_idx := Log.fold_idx e;
                  Log.train_count := tp; Log.val_count := val;
                  Log.best_dice := Log.best_dice e;
                  Log.best_epoch := Log.best_epoch e;
                  Log.epochs := Log.epochs e |}]>
          (Log.folds (trainer.version_log l))
    ∧ body k (l, w)
      = let l1 := trainer.set_version_log log l in
        if setup_raises env k then (Raise RuntimeError, (l1, w))
        else
          match trainer.epoch_loop env k (Z.of_nat k)
                  (Z.of_nat k * max_epochs)
                  (Some main.update_training_status)
                  (Some training_cancel_event)
                  (Some trainer.epoch_log_cb)
                  (trainer.epoch_range max_epochs) 0%Q (l1, w) with
          | (Ok d, s2) => (Ok tt, (trainer.note_fold k d (fst s2), snd s2))
          | (Raise e, s2) => (Raise e, s2)
          end.
Proof.
  intros Hk Hlen.
  destruct (lookup_lt_is_Some_2 folds k) as [val Hval]; [lia|].
  destruct (other_folds_ok folds k (seq 0 N_FOLDS)) as [tp Htp].
  { intros j Hj%elem_of_seq. lia. }
  destruct (lookup_lt_is_Some_2 (Log.folds (trainer.version_log l)) k)
    as [e He]; [lia|].
  eexists (length tp), (length val), _, e. split; [done|].
  split; last first.
  - unfold trainer.fold_body.
    erewrite bind_ok; [|by unfold of_result, trainer.index; rewrite Hval].
    erewrite bind_ok; [|by unfold of_result; rewrite Htp].
    rewrite bind_gets. cbn [fst snd].
    erewrite bind_ok;
      [|by unfold of_result, version_manager.set_fold_split_info;
           rewrite He].
    rewrite bind_modify. cbn [fst snd].
    unfold trainer._train_single_fold.
    destruct (setup_raises env k); [done|].
    unfold mbind, M_bind.
    destruct (trainer.epoch_loop _ _ _ _ _ _ _ _ _ _) as [[d|e'] [l2 w2]];
      done.
  - done.
Qed.

Lemma fold_body_spec (w1 : world) (k : nat) (s : trainer.tstate) :
  k < N_FOLDS →
  run_inv w1 k s →
  match (body k s).1 with
  | Ok _ => run_inv w1 (S k) (body k s).2
  | Raise e => run_stopped max_epochs w1 e (body k s).2
  end.
Proof.
  intros Hk [Hu Hd Hf He Hb Hs]. destruct s as [l w]. simpl in *.
  destruct (fold_body_eq k l w Hk Hf)
    as (tp & val & log & e & Hek & Hlog & ->). cbv zeta.
  set (l1 := trainer.set_version_log log l).
  assert (length (Log.folds (trainer.version_log l1)) = N_FOLDS) as Hf1.
  { simpl. by rewrite Hlog, length_insert. }
  assert (∀ j e', Log.folds (trainer.version_log l1) !! j = Some e' →
            Log.fold_idx e' = j ∧ (k ≤ j → Log.epochs e' = [])) as He1.
  { intros j e' Hj. simpl in Hj. rewrite Hlog in Hj.
    destruct (decide (j = k)) as [->|Hne].
    - rewrite list_lookup_insert_eq in Hj by lia. simplify_eq. simpl.
      by apply He.
    - rewrite list_lookup_insert_ne in Hj by done. by apply He. }
  destruct (setup_raises env k).
  { simpl. split; simpl; try done; [auto|lia|].
    intros j e' Hj. destruct (He1 j e' Hj) as [Hi Hempty].
    split; [done|]. split; intros ?; [apply Hempty; lia|].
    right. apply Hempty. lia. }
  destruct (epoch_loop_spec env k (Z.of_nat k * max_epochs)
              (trainer.epoch_range max_epochs) 0%Q l1 w)
    as (n & Hfr & Hres); [lia|].
  destruct (trainer.epoch_loop _ _ _ _ _ _ _ _ _ _) as [r [l2 w2]].
  destruct Hfr as [F1 F2 F3 F4 F5 F6 F7 (e0 & e2 & Fa & Fb & Fc & Fd)].
  simpl in *.
  assert (best_consistent l2) as Hb2.
  { unfold best_consistent in *. by rewrite F3, F4, F5. }
  destruct (He1 k e0 Fa) as [Hi0 Hempty0].
  rewrite Hempty0 in Fd by lia. simpl in Fd.
  assert (∀ j e', Log.folds (trainer.version_log l2) !! j = Some e' →
            j ≠ k → Log.fold_idx e' = j ∧ (k ≤ j → Log.epochs e' = []))
    as He2.
  { intros j e' Hj Hne. rewrite F7 in Hj by done. by apply He1. }
  destruct r as [d|e']; simpl.
  - destruct Hres as [-> Hd'].
    split; simpl.
    + congruence.
    + rewrite length_app, F3. simpl. lia.
    + congruence.
    + intros j e' Hj. destruct (decide (j = k)) as [->|Hne].
      * assert (e' = e2) as -> by congruence.
        split; [congruence|lia].
      * destruct (He2 j e' Hj Hne) as [Hi Hem].
        split; [done|]. intros ?. apply Hem. lia.
    + apply best_consistent_note_fold; [congruence|done].
    + intros i x Hi Hpos. simpl in Hi. rewrite F3 in Hi.
      apply lookup_app_Some in Hi as [Hi|[Hge Hi]].
      * destruct (Hs i x Hi Hpos) as (c & Hc & Hcd & Hci).
        exists c. split; [|done]. rewrite F2; [done|].
        apply lookup_lt_Some in Hi. lia.
      * rewrite Hd in Hge, Hi.
        assert (i = k) as ->.
        { apply lookup_lt_Some in Hi. simpl in Hi. lia. }
        rewrite Nat.sub_diag in Hi. simpl in Hi. injection Hi as <-.
        destruct Hd' as [[-> _]|Hc]; [by apply Qlt_irrefl in Hpos|done].
  - destruct Hres as [Hexn Hn].
    unfold trainer.epoch_range in Hn.
    rewrite length_fmap, length_seq in Hn.
    split; simpl; [done|congruence|rewrite F3; lia|congruence| |done].
    + rewrite F3, Hd. intros j e'' Hj.
      destruct (decide (j = k)) as [->|Hne].
      * assert (e'' = e2) as -> by congruence.
        split; [congruence|]. split; [lia|]. intros _. left. lia.
      * destruct (He2 j e'' Hj Hne) as [Hi Hem].
        split; [done|]. split; [|done]. intros ?. apply Hem. lia.
Qed.

Lemma fold_loop_spec (w1 : world) (n k : nat) (s : trainer.tstate) :
  k + n = N_FOLDS →
  run_inv w1 k s →
  match (for_each (seq k n) body s).1 with
  | Ok _ => run_inv w1 N_FOLDS (for_each (seq k n) body s).2
  | Raise e => run_stopped max_epochs w1 e (for_each (seq k n) body s).2
  end.
Proof.
  revert k s. induction n as [|n IH]; intros k s Hkn Hinv.
  - simpl. by replace N_FOLDS with k by lia.
  - cbn [seq for_each].
    pose proof (fold_body_spec w1 k s ltac:(lia) Hinv) as Hbody.
    unfold mbind, M_bind.
    destruct (body k s) as [[[]|e] s']; simpl in *; [|done].
    apply IH; [lia|done].
Qed.
End FoldLoop.

(** ** Finalizing a version *)

Section Finalize.
Import config version_manager.

Section Loop.
Variables (version : string).
Variables (da : DataStore) (vs : gmap string Entry).
Variables (cf : gmap Z Checkpoint.t) (b : option Checkpoint.t).
Variables (ms : list state_dict) (ml : bool).
Variables (st : Status.t) (ce : bool) (bt : list Task) (t : nat).

Lemma in_version_dir_insert (g : VersionDir → VersionDir)
    (d : VersionDir) :
  in_version_dir version g
    {| data := da; versions := <[version := Dir d]> vs;
       current_folds := cf; best_pt := b;
       _models := ms; _models_loaded := ml; training_status := st;
       training_cancel_event := ce; background_tasks := bt; ticks := t |}
  = (Ok tt,
     {| data := da; versions := <[version := Dir (g d)]> vs;
        current_folds := cf; best_pt := b;
        _models := ms; _models_loaded := ml; training_status := st;
        training_cancel_event := ce; background_tasks := bt;
        ticks := t |}).
Proof.
  unfold in_version_dir, modify, set_versions.
  cbn [data versions current_folds best_pt _models _models_loaded
       training_status training_cancel_event background_tasks ticks].
  by rewrite alter_insert_eq.
Qed.

Lemma finalize_loop (idxs : list nat) (d : VersionDir) :
  for_each idxs (λ i,
    src ← gets (λ w, current_folds w !! Z.of_nat i);
    match src with
    | Some c => in_version_dir version (put_fold (Z.of_nat i) c)
    | None => mret tt
    end)
    {| data := da; versions := <[version := Dir d]> vs;
       current_folds := cf; best_pt := b;
       _models := ms; _models_loaded := ml; training_status := st;
       training_cancel_event := ce; background_tasks := bt; ticks := t |}
  = (Ok tt,
     {| data := da;
        versions :=
          <[version := Dir {| vd_folds := copy_files cf idxs (vd_folds d);
                              vd_best := vd_best d;
                              vd_log := vd_log d |}]> vs;
        current_folds := cf; best_pt := b;
        _models := ms; _models_loaded := ml; training_status := st;
        training_cancel_event := ce; background_tasks := bt;
        ticks := t |}).
Proof.
  revert d. induction idxs as [|i idxs IH]; intros d.
  - by destruct d.
  - cbn [for_each]. rewrite copy_files_cons.
    rewrite bind_ok with (a := tt)
      (s' := {| data := da;
                versions := <[version :=
                  Dir match cf !! Z.of_nat i with
                      | Some c => put_fold (Z.of_nat i) c d
                      | None => d
                      end]> vs;
                current_folds := cf; best_pt := b;
                _models := ms; _models_loaded := ml;
                training_status := st; training_cancel_event := ce;
                background_tasks := bt; ticks := t |}).
    + rewrite IH. by destruct (cf !! Z.of_nat i).
    + rewrite bind_gets. cbn [current_folds].
      destruct (cf !! Z.of_nat i) as [c|]; [|done].
      apply in_version_dir_insert.
Qed.
End Loop.

(** [finalize_version] for a name that is not in the version directory
    yet, with a best index the scores allow: it returns, having created
    the directory with the files of the current slot and the record,
    stamped with the status and the time; nothing else changes but the
    clock. *)
Lemma finalize_version_fresh (env : environment) (version : string)
    (log : Log.t) (dices : list float) (best : Z) (status : string)
    (res : Log.Results) (w : world) :
  versions w !! version = None →
  results_block dices best = Ok res →
  finalize_version env version log dices best status w
  = (Ok (version, finalized log res status (clock env (ticks w))),
     tick (set_versions
             <[version :=
                 Dir (finalized_dir w
                        (finalized log res status (clock env (ticks w))))]>
             w)).
Proof.
  intros Hfresh Hres. destruct w as [da vs cf b ms ml st ce bt t].
  cbn [versions] in Hfresh. unfold finalize_version.
  rewrite bind_ok with (a := tt)
    (s' := {| data := da; versions := <[version := Dir empty_dir]> vs;
              current_folds := cf; best_pt := b;
              _models := ms; _models_loaded := ml;
              training_status := st; training_cancel_event := ce;
              background_tasks := bt; ticks := t |});
    [|by unfold makedirs; cbn [versions]; rewrite Hfresh].
  erewrite bind_ok; [|by apply finalize_loop].
  rewrite bind_gets. cbn [best_pt vd_folds vd_best vd_log empty_dir].
  erewrite bind_ok with (a := tt)
    (s' := {| data := da;
              versions := <[version :=
                Dir {| vd_folds := copy_files cf (seq 0 N_FOLDS) ∅;
                       vd_best := b; vd_log := None |}]> vs;
              current_folds := cf; best_pt := b;
              _models := ms; _models_loaded := ml;
              training_status := st; training_cancel_event := ce;
              background_tasks := bt; ticks := t |}).
  - erewrite bind_ok; [|by unfold of_result; rewrite Hres].
    unfold datetime_now at 1. unfold mbind at 1, M_bind at 1.
    unfold tick at 1.
    cbn [data versions current_folds best_pt _models _models_loaded
         training_status training_cancel_event background_tasks ticks].
    erewrite bind_ok; [|by apply in_version_dir_insert].
    reflexivity.
  - destruct b as [c|]; [|done].
    apply in_version_dir_insert.
Qed.

Lemma py_index_ok {A} (xs : list A) (i : nat) (x : A) :
  xs !! i = Some x → py_index xs (Z.of_nat i) = Ok x.
Proof.
  intros Hx. pose proof (lookup_lt_Some _ _ _ Hx) as Hlt.
  unfold py_index. cbv zeta.
  rewrite (decide_False (P := (Z.of_nat i < 0)%Z)) by lia.
  rewrite decide_True by lia. by rewrite Nat2Z.id, Hx.
Qed.

Lemma py_index_last {A} (xs : list A) :
  xs ≠ [] → ∃ x, py_index xs (-1) = Ok x.
Proof.
  intros Hne. unfold py_index. cbv zeta.
  rewrite (decide_True (P := (-1 < 0)%Z)) by lia.
  assert (0 < length xs) by (destruct xs; [done|simpl; lia]).
  rewrite decide_True by lia.
  destruct (lookup_lt_is_Some_2 xs (Z.to_nat (-1 + Z.of_nat (length xs))))
    as [x ->]; [lia|]. by eexists.
Qed.

(** The best index [train_model] hands over is one the scores allow. *)
Lemma results_block_ok (l : trainer.locals) (clamp : bool) :
  best_consistent l →
  (clamp = false → trainer.fold_dices l ≠ []) →
  ∃ res,
    results_block (trainer.fold_dices l)
      (if clamp then Z.max (trainer.best_fold_idx l) 0
       else trainer.best_fold_idx l) = Ok res
    ∧ Log.mean_dice res
      = round6 (match trainer.fold_dices l with
                | [] => 0%Q
                | _ => fmean (trainer.fold_dices l)
                end)
    ∧ Log.fold_dices res = round6 <$> trainer.fold_dices l
    ∧ Log.best_fold_idx res
      = (if clamp then Z.max (trainer.best_fold_idx l) 0
         else trainer.best_fold_idx l)
    ∧ (trainer.fold_dices l = [] → Log.best_fold_dice res = 0%Q).
Proof.
  intros Hb Hne. unfold results_block.
  destruct (trainer.fold_dices l) as [|d0 ds] eqn:Hd.
  - eexists. split; [done|]. simpl. by repeat split.
  - assert (∃ x, py_index (d0 :: ds)
                   (if clamp then Z.max (trainer.best_fold_idx l) 0
                    else trainer.best_fold_idx l) = Ok x) as [x Hx].
    { destruct Hb as [(Hi & _)|(b & Hi & Hl & _)]; rewrite Hi.
      - destruct clamp.
        + exists d0. by apply (py_index_ok (d0 :: ds) 0).
        + by apply py_index_last.
      - rewrite Hd in Hl. exists (trainer.best_fold_dice l).
        replace (if clamp then Z.max (Z.of_nat b) 0 else Z.of_nat b)
          with (Z.of_nat b) by (destruct clamp; lia).
        by apply py_index_ok. }
    rewrite Hx. eexists. split; [done|]. simpl. by repeat split.
Qed.
End Finalize.

(** ** A whole run *)

Section Run.
Import config.
Variables (env : environment) (max_epochs : Z).

Lemma untouched_versions (w w' : world) :
  untouched w' = untouched w → versions w' = versions w.
Proof. unfold untouched. congruence. Qed.

Lemma finalize_eq (version : string) (best_idx : trainer.locals → Z)
    (status : string) (res : Log.Results) (l : trainer.locals)
    (w : world) :
  versions w !! version = None →
  version_manager.results_block (trainer.fold_dices l) (best_idx l)
  = Ok res →
  trainer.finalize env version best_idx status (l, w)
  = (Ok tt,
     (trainer.set_version_log
        (version_manager.finalized (trainer.version_log l) res status
           (clock env (ticks w))) l,
      ended_world version
        (version_manager.finalized (trainer.version_log l) res status
           (clock env (ticks w))) w)).
Proof.
  intros Hfresh Hres. unfold trainer.finalize. cbn [fst snd].
  by rewrite (finalize_version_fresh _ _ _ _ _ _ res).
Qed.

Lemma setup_eq (training_pairs : list training_pair) (w : world) :
  ∃ log0 folds,
    length folds = N_FOLDS
    ∧ Log.folds log0 = version_manager.initial_fold <$> seq 0 N_FOLDS
    ∧ (version ← version_manager.get_next_version;
       version_log ← version_manager.create_version_log env version
                       training_pairs max_epochs 0 0;
       folds ← of_result (trainer._make_folds
                            (shuffle env training_pairs) N_FOLDS);
       mret (version, version_log, folds)) w
      = (Ok (version_manager.next_version (versions w), log0, folds),
         tick w).
Proof.
  destruct (make_folds_dealt (shuffle env training_pairs) N_FOLDS)
    as (folds & Hfolds & Hd); [unfold N_FOLDS; lia|].
  eexists _, folds. split; [by destruct Hd|]. split; last first.
  - unfold version_manager.get_next_version. rewrite bind_gets.
    unfold version_manager.create_version_log.
    unfold datetime_now at 1. unfold mbind at 1 2, M_bind at 1 2.
    unfold of_result. rewrite Hfolds. reflexivity.
  - done.
Qed.

Lemma run_inv_start (log0 : Log.t) (w1 : world) :
  Log.folds log0 = version_manager.initial_fold <$> seq 0 N_FOLDS →
  run_inv w1 0
    ({| trainer.version_log := log0; trainer.fold_dices := [];
        trainer.best_fold_idx := (-1)%Z;
        trainer.best_fold_dice := 0%Q |}, w1).
Proof.
  intros Hlog. split; simpl.
  - done.
  - done.
  - by rewrite Hlog, length_fmap, length_seq.
  - intros j e. rewrite Hlog, list_lookup_fmap.
    destruct (seq 0 N_FOLDS !! j) as [i|] eqn:Hi; [|done].
    apply lookup_seq in Hi as [-> _]. simpl. by intros [= <-].
  - left. repeat split. by intros d ?%elem_of_nil.
  - by intros i d ?.
Qed.

(** Every run of the server that is given a version ends as [run_ended]
    tells. *)
Lemma server_run_ended (training_pairs : list training_pair) (w : world) :
  MIN_IMAGES_FOR_TRAINING ≤ length training_pairs →
  ∃ r l w',
    server_run env training_pairs max_epochs w = (r, Some l, w')
    ∧ run_ended env max_epochs w r l w'.
Proof.
  intros Hmin. unfold server_run, trainer.train_model_locals.
  rewrite decide_False by lia. cbv zeta.
  destruct (setup_eq training_pairs w) as (log0 & folds & Hlen & Hlog & ->).
  set (version := version_manager.next_version (versions w)).
  set (l0 := {| trainer.version_log := log0 |}).
  pose proof (fold_loop_spec env max_epochs folds Hlen (tick w) N_FOLDS 0
                (l0, tick w) eq_refl (run_inv_start log0 _ Hlog)) as Hloop.
  unfold try_except, trainer.try_block.
  destruct (for_each (seq 0 N_FOLDS)
              (trainer.fold_body env max_epochs
                 (Some main.update_training_status)
                 (Some training_cancel_event) folds) (l0, tick w))
    as [[[]|e] [l w2]] eqn:Hrun; cbn [fst snd] in Hloop.
  - (* every fold finished *)
    assert (versions w2 !! version = None) as Hfresh.
    { pose proof (untouched_versions _ _ (ri_untouched _ _ _ Hloop))
        as Hv. simpl in Hv. rewrite Hv. apply next_version_fresh. }
    destruct (results_block_ok l false (ri_best _ _ _ Hloop))
      as (res & Hres & _).
    { intros _ Hnil. pose proof (ri_dices _ _ _ Hloop) as Hd.
      simpl in Hd. rewrite Hnil in Hd. done. }
    erewrite bind_ok; [|exact Hrun].
    rewrite bind_gets. cbn [fst snd].
    unfold trainer.lift_world at 1. unfold mbind at 1, M_bind at 1.
    cbn [fst snd modify].
    unfold trainer.lift_world at 1. unfold mbind at 1, M_bind at 1.
    unfold inference.reload_model. cbn [fst snd modify].
    rewrite bind_gets. cbn [fst snd].
    fold (promote (trainer.best_fold_idx l) w2).
    assert (versions (set_inference [] false
                        (promote (trainer.best_fold_idx l) w2))
              !! version = None) as Hfresh4.
    { unfold promote.
      by destruct (current_folds w2 !! trainer.best_fold_idx l). }
    erewrite bind_ok; [|by apply finalize_eq with (res := res)].
    eexists _, _, _. split; [reflexivity|].
    by apply (run_completed env max_epochs w l w2 res).
  - (* a fold raised *)
    assert (versions w2 !! version = None) as Hfresh.
    { pose proof (untouched_versions _ _ (rs_untouched _ _ _ _ Hloop))
        as Hv. simpl in Hv. rewrite Hv. apply next_version_fresh. }
    destruct (results_block_ok l true (rs_best _ _ _ _ Hloop))
      as (res & Hres & _); [done|].
    erewrite bind_raise; [|exact Hrun].
    destruct (rs_exn _ _ _ _ Hloop) as [->| ->].
    + unfold trainer.handlers.
      erewrite bind_ok; [|by apply finalize_eq with (res := res)].
      eexists _, _, _. split; [reflexivity|].
      by apply (run_raised env max_epochs w TrainingCancelled l w2 res).
    + unfold trainer.handlers.
      erewrite bind_ok; [|by apply finalize_eq with (res := res)].
      eexists _, _, _. split; [reflexivity|].
      by apply (run_raised env max_epochs w RuntimeError l w2 res).
Qed.
End Run.

(** ** What a run leaves behind *)

Section Outcomes.
Import config.
Variables (env : environment) (max_epochs : Z).

Lemma record_of_ended (version : string) (log : Log.t) (w : world) :
  record_of (ended_world version log w) version = Some (Doc log).
Proof.
  unfold record_of, ended_world. simpl. by rewrite lookup_insert_eq.
Qed.












Lemma run_training_task_status (training_pairs : list training_pair)
    (w : world) r l w' :
  server_run env training_pairs max_epochs w = (r, l, w') →
  Status.status (training_status
                   (main.run_training_task env training_pairs max_epochs w))
  = outcome_status r
  ∧ _models (main.run_training_task env training_pairs max_epochs w)
    = _models w'
  ∧ _models_loaded (main.run_training_task env training_pairs max_epochs w)
    = _models_loaded w'
  ∧ ∀ mean v, r = Ok (mean, v) →
      Status.best_dice
        (training_status
           (main.run_training_task env training_pairs max_epochs w))
      = mean.
Proof.
  unfold server_run, main.run_training_task, trainer.train_model.
  intros ->. simpl.
  split; [by destruct r as [[]|[]]|]. split; [done|]. split; [done|].
  by intros mean v ->.
Qed.


(** C7, amended. When a run completes, the loaded model set is dropped,
    so that the next inference loads the promoted files; when a run ends
    cancelled or in error because a fold's training raised, the loaded
    model set is left as it was. *)
Theorem reload_on_completion_only (training_pairs : list training_pair)
    (w : world) :
  MIN_IMAGES_FOR_TRAINING ≤ length training_pairs →
  ∃ r l w',
    server_run env training_pairs max_epochs w = (r, Some l, w')
    ∧ _models (main.run_training_task env training_pairs max_epochs w)
      = _models w'
    ∧ _models_loaded
        (main.run_training_task env training_pairs max_epochs w)
      = _models_loaded w'
    ∧ match r with
      | Ok _ => _models w' = [] ∧ _models_loaded w' = false
      | Raise e =>
          (e = TrainingCancelled ∨ e = RuntimeError)
          ∧ _models w' = _models w
          ∧ _models_loaded w' = _models_loaded w
      end.
Proof.
  intros Hmin.
  destruct (server_run_ended env max_epochs training_pairs w Hmin)
    as (r & l & w' & Hrun & Hend).
  exists r, l, w'. split; [done|].
  destruct (run_training_task_status _ _ _ _ _ Hrun) as (_ & Hm & Hl & _).
  split; [done|]. split; [done|].
  destruct Hend as [l0 w2 res version w4 log Hinv Hres
                   |e l0 w2 res version log Hstop Hres]; simpl.
  - done.
  - split; [apply Hstop|].
    pose proof (rs_untouched _ _ _ _ Hstop) as Hu. simpl in Hu.
    unfold untouched in Hu. simpl in Hu. by simplify_eq.
Qed.
End Outcomes.

(** C7 as stated fails: after a cancelled run the loaded models are
    still loaded. *)
Lemma cancelled_run_keeps_models :
  ¬ ∀ (env : environment) (training_pairs : list training_pair)
      (max_epochs : Z) (w : world),
      config.MIN_IMAGES_FOR_TRAINING ≤ length training_pairs →
      _models_loaded
        (main.run_training_task env training_pairs max_epochs w) = false.
Proof.
  intros H.
  specialize (H cancelling_env example_pairs 2%Z example_world).
  vm_compute in H. specialize (H ltac:(lia)). discriminate.
Qed.

(** ** Promotion, mean score and the record of an unfinished run *)

Section Results.
Import config.
Variables (env : environment) (max_epochs : Z).

(** C6, amended. When all folds complete, the value returned, which the
    server reports as the best score of the run, is the mean of the
    [N_FOLDS] per-fold best scores; the results block of the version
    records that mean and the per-fold scores rounded to six decimals.
    When some fold's best score is positive, a fold whose best score is
    the highest is promoted: its checkpoint, saved with that score, is
    the file of the best-model slot (and of the version). *)
Theorem promotion_and_mean (training_pairs : list training_pair)
    (w : world) :
  MIN_IMAGES_FOR_TRAINING ≤ length training_pairs →
  ∃ r l w',
    server_run env training_pairs max_epochs w = (r, Some l, w')
    ∧ ∀ mean version, r = Ok (mean, version) →
        length (trainer.fold_dices l) = N_FOLDS
        ∧ mean = fmean (trainer.fold_dices l)
        ∧ Status.best_dice
            (training_status
               (main.run_training_task env training_pairs max_epochs w))
          = fmean (trainer.fold_dices l)
        ∧ (∃ res,
             record_of w' version = Some (Doc (trainer.version_log l))
             ∧ Log.results (trainer.version_log l) = Some res
             ∧ Log.mean_dice res = round6 (fmean (trainer.fold_dices l))
             ∧ Log.fold_dices res = round6 <$> trainer.fold_dices l)
        ∧ ((∃ d, d ∈ trainer.fold_dices l ∧ (0 < d)%Q) →
           ∃ (b : nat) (c : Checkpoint.t),
             trainer.best_fold_idx l = Z.of_nat b
             ∧ trainer.fold_dices l !! b = Some (Checkpoint.best_dice c)
             ∧ (∀ d, d ∈ trainer.fold_dices l →
                     (d <= Checkpoint.best_dice c)%Q)
             ∧ Checkpoint.fold_idx c = b
             ∧ current_folds w' !! Z.of_nat b = Some c
             ∧ best_pt w' = Some c).
Proof.
  intros Hmin.
  destruct (server_run_ended env max_epochs training_pairs w Hmin)
    as (r & l & w' & Hrun & Hend).
  exists r, l, w'. split; [done|]. intros mean v Hr.
  destruct (run_training_task_status _ _ _ _ _ _ _ Hrun)
    as (_ & _ & _ & Hbest).
  specialize (Hbest _ _ Hr).
  destruct Hend as [l0 w2 res version w4 log Hinv Hres
                   |e l0 w2 res version log Hstop Hres]; [|done].
  injection Hr as <- <-.
  destruct Hinv as [Hu Hd Hf He Hb Hs]. simpl in *.
  split; [done|]. split; [done|]. split; [done|]. split.
  - exists res. split; [apply record_of_ended|]. split; [done|].
    unfold version_manager.results_block in Hres.
    destruct (trainer.fold_dices l0) as [|d0 ds] eqn:Hdices; [done|].
    destruct (py_index _ _); [|done]. by injection Hres as <-.
  - intros (d & Hin & Hpos).
    destruct Hb as [(_ & _ & Hall)|(b & Hi & Hl & Hp & Hall)].
    { apply Hall in Hin. by apply Qlt_not_le in Hpos. }
    destruct (Hs b _ Hl Hp) as (c & Hc & Hcd & Hci).
    exists b, c. rewrite Hcd.
    split; [done|]. split; [done|]. split; [done|]. split; [done|].
    unfold w4, promote. rewrite Hi, Hc. by split.
Qed.

(** C10. When a run is cancelled or fails before any fold has finished,
    the record of the version is still written with a results block: mean
    score 0, no per-fold score, best fold index 0 and best fold score 0.
    It keeps one entry per fold: those of the folds after the first have
    no epoch, that of the first has fewer epochs than the budget, or
    none. *)
Theorem finalize_without_finished_fold
    (training_pairs : list training_pair) (w : world) :
  MIN_IMAGES_FOR_TRAINING ≤ length training_pairs →
  ∃ r l w',
    server_run env training_pairs max_epochs w = (r, Some l, w')
    ∧ ∀ e, r = Raise e → trainer.fold_dices l = [] →
        record_of w' (version_manager.next_version (versions w))
        = Some (Doc (trainer.version_log l))
        ∧ Log.status (trainer.version_log l) = outcome_status r
        ∧ (e = TrainingCancelled ∨ e = RuntimeError)
        ∧ Log.results (trainer.version_log l)
          = Some {| Log.mean_dice := 0%Q; Log.fold_dices := [];
                    Log.best_fold_idx := 0%Z;
                    Log.best_fold_dice := 0%Q |}
        ∧ length (Log.folds (trainer.version_log l)) = N_FOLDS
        ∧ ∀ j f, Log.folds (trainer.version_log l) !! j = Some f →
            Log.fold_idx f = j
            ∧ (0 < j → Log.epochs f = [])
            ∧ (j = 0 →
               length (Log.epochs f) < Z.to_nat max_epochs
               ∨ Log.epochs f = []).
Proof.
  intros Hmin.
  destruct (server_run_ended env max_epochs training_pairs w Hmin)
    as (r & l & w' & Hrun & Hend).
  exists r, l, w'. split; [done|]. intros e' Hr Hnil.
  destruct Hend as [l0 w2 res version w4 log Hinv Hres
                   |e l0 w2 res version log Hstop Hres]; [done|].
  injection Hr as ->. simpl in Hnil.
  destruct Hstop as [Hexn Hu Hd Hf He Hb]. simpl in *.
  split; [apply record_of_ended|]. split; [done|]. split; [done|].
  split; [|split; [done|]].
  - f_equal. rewrite Hnil in Hres.
    destruct Hb as [(Hi & _)|(b & _ & Hl & _)].
    + rewrite Hi in Hres. by injection Hres as <-.
    + by rewrite Hnil in Hl.
  - intros j f Hj. rewrite Hnil in He. simpl in He.
    destruct (He j f Hj) as (Hi & Hlater & Hfirst). auto.
Qed.
End Results.

(** C6 as stated fails: a run in which every fold completes with a best
    score of zero (here: a budget of zero epochs) promotes no fold. *)
Lemma completed_run_without_promotion :
  ¬ ∀ (env : environment) (training_pairs : list training_pair)
      (max_epochs : Z) (w : world) (mean : float) (version : string),
      (server_run env training_pairs max_epochs w).1.1
      = Ok (mean, version) →
      ∃ (b : nat) (c : Checkpoint.t),
        current_folds (server_run env training_pairs max_epochs w).2
          !! Z.of_nat b = Some c
        ∧ best_pt (server_run env training_pairs max_epochs w).2 = Some c.
Proof.
  intros H.
  destruct (H steady_env example_pairs 0%Z example_world 0%Q "v001")
    as (b & c & _ & Hbest); [by vm_compute|].
  vm_compute in Hbest. discriminate.
Qed.

(** The mean the record keeps is rounded: with a mean of one third it is
    not the mean. *)
Remark recorded_mean_is_rounded :
  version_manager.results_block [(1 # 3)%Q; (1 # 3)%Q] 0
  = Ok {| Log.mean_dice := (333333 # 1000000)%Q;
          Log.fold_dices := [(333333 # 1000000)%Q; (333333 # 1000000)%Q];
          Log.best_fold_idx := 0;
          Log.best_fold_dice := (333333 # 1000000)%Q |}
  ∧ fmean [(1 # 3)%Q; (1 # 3)%Q] = (1 # 3)%Q.
Proof. by vm_compute. Qed.

(** The three outcomes occur: a steady run completes, a cancel request
    ends the run as cancelled, a model that cannot be built ends it in
    error; each leaves the record of [v001] with its status. *)
Example every_outcome_occurs :
  (server_run steady_env example_pairs 2 example_world).1.1
  = Ok ((3 # 10)%Q, "v001")
  ∧ (server_run cancelling_env example_pairs 2 example_world).1.1
    = Raise TrainingCancelled
  ∧ (server_run failing_env example_pairs 2 example_world).1.1
    = Raise RuntimeError
  ∧ match version_manager.list_all_versions
            (server_run steady_env example_pairs 2 example_world).2 with
    | Ok [summary] => Summary.status summary = JString "completed"
    | _ => False
    end
  ∧ match version_manager.list_all_versions
            (server_run cancelling_env example_pairs 2 example_world).2 with
    | Ok [summary] => Summary.status summary = JString "cancelled"
    | _ => False
    end
  ∧ match version_manager.list_all_versions
            (server_run failing_env example_pairs 2 example_world).2 with
    | Ok [summary] => Summary.status summary = JString "error"
    | _ => False
    end.
Proof. by vm_compute. Qed.

(** C3 as stated fails: the record of the run is written, but with the
    record of an older version that is not UTF-8 text the listing raises
    and shows no version at all. *)
Lemma listing_fails_after_finalize :
  ¬ ∀ (env : environment) (training_pairs : list training_pair)
      (max_epochs : Z) (w : world),
      config.MIN_IMAGES_FOR_TRAINING ≤ length training_pairs →
      ∃ summaries summary,
        version_manager.list_all_versions
          (server_run env training_pairs max_epochs w).2 = Ok summaries
        ∧ summary ∈ summaries
        ∧ Summary.version summary
          = version_manager.next_version (versions w).
Proof.
  intros H.
  destruct (H steady_env example_pairs 2%Z undecodable_world)
    as (summaries & summary & Hl & _); [vm_compute; lia|].
  vm_compute in Hl. discriminate.
Qed.


Lemma reload_on_completion_only_witness :
  _models_loaded
    (main.run_training_task steady_env example_pairs 2 example_world)
  = false
  ∧ _models_loaded
      (main.run_training_task cancelling_env example_pairs 2 example_world)
    = _models_loaded example_world.
Proof.
  destruct (reload_on_completion_only steady_env 2 example_pairs
              example_world)
    as (r & l & w' & Hrun & _ & Hl & Hr); [vm_compute; lia|].
  destruct (reload_on_completion_only cancelling_env 2 example_pairs
              example_world)
    as (r2 & l2 & w2 & Hrun2 & _ & Hl2 & Hr2); [vm_compute; lia|].
  pose proof (f_equal (λ x, x.1.1) Hrun) as E. vm_compute in E. subst r.
  pose proof (f_equal (λ x, x.1.1) Hrun2) as E. vm_compute in E. subst r2.
  split.
  - rewrite Hl. apply Hr.
  - rewrite Hl2. apply Hr2.
Defined.

Lemma promotion_and_mean_witness :
  ∃ c,
    best_pt (server_run steady_env example_pairs 2 example_world).2 = Some c
    ∧ Checkpoint.fold_idx c = 4
    ∧ Checkpoint.best_dice c = (5 # 10)%Q
    ∧ Status.best_dice
        (training_status
           (main.run_training_task steady_env example_pairs 2 example_world))
      = fmean [(1 # 10)%Q; (2 # 10)%Q; (3 # 10)%Q; (4 # 10)%Q; (5 # 10)%Q].
Proof.
  destruct (promotion_and_mean steady_env 2 example_pairs example_world)
    as (r & l & w' & Hrun & H); [vm_compute; lia|].
  pose proof (f_equal (λ x, x.1.1) Hrun) as Er. vm_compute in Er. subst r.
  assert (trainer.fold_dices
            <$> (server_run steady_env example_pairs 2 example_world).1.2
          = Some [(1 # 10)%Q; (2 # 10)%Q; (3 # 10)%Q; (4 # 10)%Q;
                  (5 # 10)%Q]) as El by (vm_compute; reflexivity).
  assert (trainer.best_fold_idx
            <$> (server_run steady_env example_pairs 2 example_world).1.2
          = Some 4%Z) as Eb by (vm_compute; reflexivity).
  rewrite Hrun in El, Eb. simpl in El, Eb.
  injection El as El. injection Eb as Eb.
  destruct (H _ _ eq_refl) as (_ & _ & Hmean & _ & Hpromote).
  rewrite El in Hmean, Hpromote.
  destruct Hpromote as (b & c & Hb & Hd & _ & Hf & _ & Hbest).
  { exists (1 # 10)%Q. split; [apply list_elem_of_here|reflexivity]. }
  assert (b = 4) as -> by lia.
  injection Hd as Hd.
  rewrite Hrun. exists c. split; [exact Hbest|]. split; [exact Hf|].
  split; [by rewrite <-Hd|exact Hmean].
Defined.

Lemma finalize_without_finished_fold_witness :
  ∃ log,
    record_of (server_run cancelling_env example_pairs 2 example_world).2
      "v001" = Some (Doc log)
    ∧ Log.status log = "cancelled"
    ∧ Log.results log
      = Some {| Log.mean_dice := 0%Q; Log.fold_dices := [];
                Log.best_fold_idx := 0%Z; Log.best_fold_dice := 0%Q |}
    ∧ length (Log.folds log) = config.N_FOLDS.
Proof.
  destruct (finalize_without_finished_fold cancelling_env 2 example_pairs
              example_world)
    as (r & l & w' & Hrun & H); [vm_compute; lia|].
  pose proof (f_equal (λ x, x.1.1) Hrun) as Er. vm_compute in Er. subst r.
  assert (trainer.fold_dices
            <$> (server_run cancelling_env example_pairs 2
                   example_world).1.2
          = Some []) as El by (vm_compute; reflexivity).
  rewrite Hrun in El. simpl in El. injection El as El.
  destruct (H _ eq_refl El) as (Hrec & Hst & _ & Hres & Hlen & _).
  rewrite Hrun. exists (trainer.version_log l).
  split; [exact Hrec|]. split; [exact Hst|]. split; [exact Hres|exact Hlen].
Defined.

(** * Further properties *)

(** ** Order of names *)

Section Names.

Lemma ascii_compare_refl (a : ascii) : Ascii.compare a a = Eq.
Proof. apply N.compare_refl. Qed.

Lemma ascii_compare_lt_trans (a b c : ascii) :
  Ascii.compare a b = Lt → Ascii.compare b c = Lt → Ascii.compare a c = Lt.
Proof.
  unfold Ascii.compare. rewrite !N.compare_lt_iff. lia.
Qed.

Lemma string_compare_le_trans (a b c : string) :
  String.compare a b ≠ Gt → String.compare b c ≠ Gt →
  String.compare a c ≠ Gt.
Proof.
  revert b c. induction a as [|x a IH]; intros [|y b] [|z c]; simpl;
    try done.
  destruct (Ascii.compare x y) eqn:Exy; [| |done].
  - apply Ascii.compare_eq_iff in Exy as ->.
    destruct (Ascii.compare y z); [apply IH|done|done].
  - destruct (Ascii.compare y z) eqn:Eyz; [| |done].
    + apply Ascii.compare_eq_iff in Eyz as <-. by rewrite Exy.
    + by rewrite (ascii_compare_lt_trans x y z).
Qed.

Lemma name_le_compare (a b : string) :
  name_le a b ↔ String.compare a b ≠ Gt.
Proof.
  unfold name_le, String.leb. destruct (String.compare a b); simpl;
    split; try done.
Qed.

Global Instance name_le_trans : Transitive name_le.
Proof.
  intros a b c. rewrite !name_le_compare. apply string_compare_le_trans.
Qed.

Global Instance name_le_total : Total name_le.
Proof.
  intros a b. unfold name_le.
  destruct (String.leb_total a b) as [H|H]; rewrite H; simpl; auto.
Qed.

Lemma name_le_antisym (a b : string) : name_le a b → name_le b a → a = b.
Proof.
  unfold name_le. intros H1%Is_true_true H2%Is_true_true.
  by apply String.leb_antisym.
Qed.

Lemma sorted_strongly (names : list string) :
  StronglySorted name_le (data_manager.sorted names).
Proof. apply (StronglySorted_merge_sort name_le). Qed.

Lemma elem_of_sorted (names : list string) (f : string) :
  f ∈ data_manager.sorted names ↔ f ∈ names.
Proof. unfold data_manager.sorted. by rewrite merge_sort_Permutation. Qed.

Lemma NoDup_sorted (names : list string) :
  NoDup (data_manager.sorted names) ↔ NoDup names.
Proof. unfold data_manager.sorted. by rewrite merge_sort_Permutation. Qed.

(** The head of a sorted listing is its least name. *)
Lemma head_sorted_least (names : list string) (f g : string) :
  head (data_manager.sorted names) = Some f → g ∈ names → name_le f g.
Proof.
  intros Hhead Hg. apply elem_of_sorted in Hg.
  pose proof (sorted_strongly names) as Hs.
  destruct (data_manager.sorted names) as [|x rest]; [done|].
  simpl in Hhead. injection Hhead as ->.
  apply StronglySorted_inv in Hs as [_ Hall].
  apply elem_of_cons in Hg as [->|Hg].
  - destruct (name_le_total f f); done.
  - rewrite Forall_forall in Hall. by apply Hall.
Qed.
End Names.

(** ** Listing the inbox *)

Section Listing.
Import data_manager.

Lemma in_set_false (names : list string) (f : string) :
  in_set names f = false ↔ f ∉ names.
Proof. unfold in_set. by rewrite bool_decide_eq_false. Qed.

Lemma ids_listing (s : DataStore) :
  ImageEntry.id <$> list_unannotated_images s
  = sorted (_list_png (unannotated_images s)).
Proof.
  unfold list_unannotated_images. rewrite <-list_fmap_compose.
  apply list_fmap_id.
Qed.

Lemma elem_of_listing (s : DataStore) (e : ImageEntry.t) :
  e ∈ list_unannotated_images s
  ↔ ImageEntry.id e ∈ _list_png (unannotated_images s)
    ∧ ImageEntry.has_label e
      = in_set (_list_png (unannotated_annotations s)) (ImageEntry.id e).
Proof.
  unfold list_unannotated_images. rewrite list_elem_of_fmap. split.
  - intros (f & -> & Hf). rewrite elem_of_sorted in Hf. done.
  - intros [Hin Hlabel]. exists (ImageEntry.id e).
    split; [|by apply elem_of_sorted].
    destruct e as [i l]. simpl in *. by rewrite Hlabel.
Qed.

Lemma elem_of_unlabeled_images (s : DataStore) (f : string) :
  f ∈ unlabeled_images s
  ↔ is_png f = true ∧ is_Some (unannotated_images s !! f)
    ∧ unannotated_annotations s !! f = None.
Proof.
  unfold unlabeled_images.
  rewrite list_elem_of_filter, in_set_false, !elem_of_list_png.
  rewrite eq_None_not_Some. tauto.
Qed.

(** X1. [list_unannotated_images] lists exactly the png files of the
    inbox image directory, each once, in ascending order of name, and
    marks an entry as labelled exactly when the inbox annotation
    directory holds a file of the same name. *)
Theorem list_unannotated_images_spec (s : DataStore) :
  let listing := list_unannotated_images s in
  let ids := ImageEntry.id <$> listing in
  (∀ f, f ∈ ids ↔ is_png f = true ∧ is_Some (unannotated_images s !! f))
  ∧ NoDup ids
  ∧ StronglySorted name_le ids
  ∧ (∀ e, e ∈ listing →
       ImageEntry.has_label e = true
       ↔ is_Some (unannotated_annotations s !! ImageEntry.id e)).
Proof.
  cbv zeta. rewrite ids_listing. split; [|split; [|split]].
  - intros f. by rewrite elem_of_sorted, elem_of_list_png.
  - apply NoDup_sorted, NoDup_list_png.
  - apply sorted_strongly.
  - intros e [Hid ->]%elem_of_listing.
    apply elem_of_list_png in Hid as [Hpng _].
    rewrite in_set_true, elem_of_list_png. tauto.
Qed.

Lemma get_next_unlabeled_elem_of (strategy : string) (draw : nat)
    (s : DataStore) (f : string) :
  get_next_unlabeled strategy draw s = Some f → f ∈ unlabeled_images s.
Proof.
  unfold get_next_unlabeled. cbv zeta.
  destruct (unlabeled_images s) as [|x rest]; [done|].
  case_decide.
  - intros Hf. apply elem_of_sorted. by apply head_Some_elem_of.
  - intros Hf. by eapply list_elem_of_lookup_2.
Qed.

(** The labelled and the unlabelled images of the inbox make up its
    images. *)
Lemma length_labeled_unlabeled (s : DataStore) :
  length (filter
            (λ f, in_set (_list_png (unannotated_annotations s)) f = true)
            (_list_png (unannotated_images s)))
  + length (unlabeled_images s)
  = length (_list_png (unannotated_images s)).
Proof.
  unfold unlabeled_images.
  induction (_list_png (unannotated_images s)) as [|f images IH]; [done|].
  rewrite !filter_cons.
  destruct (in_set (_list_png (unannotated_annotations s)) f) eqn:Hf.
  - rewrite decide_True by done. rewrite decide_False by done.
    simpl. lia.
  - rewrite decide_False by done. rewrite decide_True by done.
    simpl. lia.
Qed.

(** X2. [get_next_unlabeled] returns nothing exactly when every png
    file of the inbox image directory has a file of the same name in
    the inbox annotation directory; what it returns, under any strategy
    and any random draw, is a png file of the inbox image directory
    without such an annotation; under the sequential strategy it is the
    least such name. *)
Theorem get_next_unlabeled_spec (strategy : string) (draw : nat)
    (s : DataStore) :
  (get_next_unlabeled strategy draw s = None
   ↔ ∀ f, is_png f = true → is_Some (unannotated_images s !! f) →
          is_Some (unannotated_annotations s !! f))
  ∧ (∀ f, get_next_unlabeled strategy draw s = Some f →
       is_png f = true ∧ is_Some (unannotated_images s !! f)
       ∧ unannotated_annotations s !! f = None
       ∧ (strategy = "sequential" →
          ∀ g, is_png g = true → is_Some (unannotated_images s !! g) →
               unannotated_annotations s !! g = None → name_le f g)).
Proof.
  unfold get_next_unlabeled. cbv zeta.
  pose proof (elem_of_unlabeled_images s) as Hmem.
  destruct (unlabeled_images s) as [|x rest] eqn:Hun.
  - split.
    + split; [|done]. intros _ f Hpng Himg.
      destruct (unannotated_annotations s !! f) eqn:Hf; [eauto|].
      exfalso. eapply not_elem_of_nil, Hmem. eauto.
    + done.
  - split.
    + split.
      * case_decide.
        -- intros Hnone. exfalso.
           assert (x ∈ sorted (x :: rest)) as Hx
             by (apply elem_of_sorted; left).
           destruct (sorted (x :: rest)); [by apply not_elem_of_nil in Hx|done].
        -- intros Hnone%lookup_ge_None. exfalso.
           pose proof (Nat.mod_upper_bound draw (length (x :: rest))) as Hlt.
           simpl in *. lia.
      * intros Hall. exfalso.
        destruct (Hmem x) as [(Hpng & Himg & Hnone) _]; [left|].
        destruct (Hall x Hpng Himg) as [? ?]. congruence.
    + intros f Hf.
      assert (f ∈ x :: rest) as Hin.
      { case_decide.
        - apply elem_of_sorted. by apply head_Some_elem_of.
        - by eapply list_elem_of_lookup_2. }
      apply Hmem in Hin as (Hpng & Himg & Hnone).
      split; [done|]. split; [done|]. split; [done|].
      intros -> g Hg1 Hg2 Hg3. rewrite decide_True in Hf by done.
      eapply head_sorted_least; [done|]. apply Hmem. done.
Qed.

(** X4. The counts of [get_stats] agree with the other views of the
    inbox: the labelled count is the number of entries
    [list_unannotated_images] marks as labelled, the unlabelled count is
    the number of candidates of [get_next_unlabeled] (so it is never
    negative), and the two add up to the number of inbox images. *)
Theorem get_stats_inbox_counts (s : DataStore) :
  let stats := get_stats s in
  stat_unannotated_labeled stats
  = length (filter (λ e, ImageEntry.has_label e = true)
              (list_unannotated_images s))
  ∧ stat_unannotated_unlabeled stats
    = Z.of_nat (length (unlabeled_images s))
  ∧ stat_unannotated_labeled stats + length (unlabeled_images s)
    = stat_unannotated_images stats
  ∧ stat_unannotated_images stats = length (list_unannotated_images s).
Proof.
  cbv zeta. unfold get_stats. cbn [stat_unannotated_labeled
    stat_unannotated_unlabeled stat_unannotated_images].
  set (images := _list_png (unannotated_images s)).
  set (annotations := _list_png (unannotated_annotations s)).
  assert (length (filter (λ f, in_set images f = true) annotations)
          + length (unlabeled_images s) = length images) as Hsum.
  { rewrite length_filter_in_set_comm by apply NoDup_list_png.
    apply length_labeled_unlabeled. }
  split; [|split; [lia|split; [done|]]].
  - rewrite length_filter_in_set_comm by apply NoDup_list_png.
    rewrite <-(length_fmap ImageEntry.id).
    apply Permutation_length, NoDup_Permutation.
    + apply NoDup_filter, NoDup_list_png.
    + apply (NoDup_fmap_2_strong ImageEntry.id).
      * intros [i1 l1] [i2 l2].
        rewrite !list_elem_of_filter, !elem_of_listing. simpl.
        intros [-> [_ ->]] [-> [_ ->]] ->. done.
      * apply NoDup_filter.
        unfold list_unannotated_images.
        apply NoDup_fmap_2_strong.
        -- intros x y _ _ Heq. by injection Heq.
        -- apply NoDup_sorted, NoDup_list_png.
    + intros f. rewrite list_elem_of_filter, list_elem_of_fmap. split.
      * intros [Hlabel Hin].
        exists {| ImageEntry.id := f; ImageEntry.has_label := true |}.
        split; [done|]. rewrite list_elem_of_filter, elem_of_listing.
        simpl. done.
      * intros (e & -> & [Hl [Hin Heq]%elem_of_listing]%list_elem_of_filter).
        split; [|done]. unfold annotations. by rewrite <-Heq.
  - unfold list_unannotated_images. rewrite length_fmap.
    unfold sorted. by rewrite merge_sort_Permutation.
Qed.
End Listing.

(** ** Saving an annotation *)

Section Saving.
Import data_manager.

Lemma length_filter_update (xs : list string) (P P' : string → bool)
    (id : string) :
  NoDup xs →
  (∀ f, f ∈ xs → f ≠ id → P' f = P f) →
  (id ∈ xs → P' id = true) →
  length (filter (λ f, P' f = true) xs)
  = length (filter (λ f, P f = true) xs)
    + (if bool_decide (id ∈ xs) && negb (P id) then 1 else 0).
Proof.
  induction xs as [|x xs IH]; intros Hnd Hsame Hid; [done|].
  apply NoDup_cons in Hnd as [Hx Hnd].
  rewrite !filter_cons.
  destruct (decide (x = id)) as [->|Hne].
  - rewrite (bool_decide_eq_true_2 (id ∈ id :: xs)) by left.
    rewrite (decide_True (P := P' id = true)) by (apply Hid; left).
    rewrite length_cons.
    rewrite IH; [|done|intros; apply Hsame; [by right|done]|done].
    rewrite (bool_decide_eq_false_2 (id ∈ xs)) by done.
    destruct (P id); simpl.
    + lia.
    + lia.
  - rewrite (Hsame x) by (done || left).
    assert (bool_decide (id ∈ x :: xs) = bool_decide (id ∈ xs)) as ->.
    { apply bool_decide_ext. rewrite elem_of_cons.
      split; [intros [Heq|Hin]; [congruence|done]|by right]. }
    destruct (decide (P x = true)); rewrite ?length_cons;
      (rewrite IH; [|done|intros; apply Hsame; [by right|done]
                    |intros; apply Hid; by right]); lia.
Qed.


Lemma in_set_annotations_written (id : string) (content : bytes)
    (s : DataStore) (f : string) :
  in_set (_list_png (unannotated_annotations
                       (write_annotation id content s))) f
  = if decide (f = id) then is_png id
    else in_set (_list_png (unannotated_annotations s)) f.
Proof.
  unfold in_set. simpl. case_decide as Hf.
  - subst f. destruct (is_png id) eqn:Hpng.
    + apply bool_decide_eq_true_2, elem_of_list_png.
      rewrite lookup_insert_eq. eauto.
    + apply bool_decide_eq_false_2. rewrite elem_of_list_png.
      intros [? _]. congruence.
  - apply bool_decide_ext. rewrite !elem_of_list_png.
    by rewrite lookup_insert_ne.
Qed.


(** Writing an annotation adds one labelled image when the id was an
    unlabelled png image of the inbox, and none otherwise. *)
Lemma length_labeled_written (image_id : string) (content : bytes)
    (s : DataStore) :
  length (filter
            (λ f, in_set (_list_png (<[image_id:=content]>
                                       (unannotated_annotations s))) f = true)
            (_list_png (unannotated_images s)))
  = length (filter
              (λ f, in_set (_list_png (unannotated_annotations s)) f = true)
              (_list_png (unannotated_images s)))
    + (if bool_decide (image_id ∈ unlabeled_images s) then 1 else 0).
Proof.
  rewrite (length_filter_update _
             (in_set (_list_png (unannotated_annotations s))) _ image_id).
  - f_equal.
    assert (bool_decide (image_id ∈ unlabeled_images s)
            = bool_decide (image_id ∈ _list_png (unannotated_images s))
              && negb (in_set (_list_png (unannotated_annotations s))
                         image_id)) as ->; [|done].
    unfold unlabeled_images.
    destruct (in_set _ image_id) eqn:Hin; simpl.
    + rewrite andb_false_r. apply bool_decide_eq_false_2.
      rewrite list_elem_of_filter. intros [? _]. congruence.
    + rewrite andb_true_r. apply bool_decide_ext.
      rewrite list_elem_of_filter. tauto.
  - apply NoDup_list_png.
  - intros f _ Hne.
    pose proof (in_set_annotations_written image_id content s f) as H.
    simpl in H. rewrite H. by rewrite decide_False.
  - intros [Hpng _]%elem_of_list_png.
    pose proof (in_set_annotations_written image_id content s image_id)
      as H.
    simpl in H. rewrite H. by rewrite decide_True.
Qed.


(** X6. [get_all_training_pairs] returns, each once, exactly the pairs
    of an image and an annotation of one partition that carry the same
    png name and both exist; it never pairs files of different
    partitions. *)
Theorem training_pairs_spec (s : DataStore) :
  NoDup (get_all_training_pairs s)
  ∧ ∀ p, p ∈ get_all_training_pairs s
      ↔ ∃ f, is_png f = true
          ∧ ((p = ((COMPLETED_IMAGES_DIR, f), (COMPLETED_ANNOTATIONS_DIR, f))
              ∧ is_Some (completed_images s !! f)
              ∧ is_Some (completed_annotations s !! f))
             ∨ (p = ((UNANNOTATED_IMAGES_DIR, f),
                     (UNANNOTATED_ANNOTATIONS_DIR, f))
                ∧ is_Some (unannotated_images s !! f)
                ∧ is_Some (unannotated_annotations s !! f))).
Proof.
  assert (∀ di da images annotations p,
            p ∈ pairs_of di da images annotations
            ↔ ∃ f, p = ((di, f), (da, f)) ∧ is_png f = true
                ∧ is_Some (images !! f) ∧ is_Some (annotations !! f))
    as Hmem.
  { intros. unfold pairs_of. rewrite list_elem_of_fmap.
    split; intros (f & Hp & Hf); exists f; (split; [done|]).
    - apply list_elem_of_filter in Hf as [Ha Hi].
      apply in_set_true in Ha.
      apply elem_of_list_png in Ha, Hi. tauto.
    - apply list_elem_of_filter. rewrite in_set_true, !elem_of_list_png.
      tauto. }
  assert (∀ di da images annotations,
            NoDup (pairs_of di da images annotations)) as Hnd.
  { intros. unfold pairs_of. apply NoDup_fmap_2.
    - intros f g Heq. by injection Heq.
    - apply NoDup_filter, NoDup_list_png. }
  unfold get_all_training_pairs. split.
  - apply NoDup_app. split; [apply Hnd|split; [|apply Hnd]].
    intros p (f & -> & _)%Hmem (g & Heq & _)%Hmem. discriminate.
  - intros p. rewrite elem_of_app, !Hmem. split.
    + intros [(f & -> & ? & ? & ?)|(f & -> & ? & ? & ?)]; exists f; tauto.
    + intros (f & Hpng & [(-> & ? & ?)|(-> & ? & ?)]);
        [left|right]; exists f; tauto.
Qed.

End Saving.




(** ** The list of versions *)

Section VersionList.
Import version_manager.










Lemma max_default_elem_of (existing : list N) :
  existing ≠ [] → max_default existing ∈ existing.
Proof.
  induction existing as [|m rest IH]; [done|]. intros _. simpl.
  destruct rest as [|m' rest'].
  - simpl. rewrite N.max_0_r. left.
  - destruct (N.max_spec m (max_default (m' :: rest'))) as [[_ ->]|[_ ->]].
    + right. by apply IH.
    + left.
Qed.

Lemma max_default_largest (vs : gmap string Entry) (name : string)
    (m : N) :
  is_Some (vs !! name) → version_number name = Some m →
  (∀ name' m', is_Some (vs !! name') →
               version_number name' = Some m' → (m' ≤ m)%N) →
  max_default (existing_numbers vs) = m.
Proof.
  intros Hin Hm Hmax.
  apply N.le_antisymm; [|by eapply existing_number_le].
  destruct (existing_numbers vs) as [|x rest] eqn:He; [simpl; lia|].
  assert (max_default (x :: rest) ∈ existing_numbers vs) as Hin'.
  { rewrite He. by apply max_default_elem_of. }
  unfold existing_numbers in Hin'.
  apply list_elem_of_omap in Hin' as (name' & Hname' & Hm').
  apply elem_of_listdir in Hname'. by eapply Hmax.
Qed.

(** X9. [get_next_version] looks at the largest number only: with [m]
    the largest number an identifier of the directory carries, the new
    identifier is the one of [m + 1], whatever smaller numbers are
    missing and whatever other names the directory holds; a directory
    without any identifier gives [v001]. *)
Theorem next_version_above_largest (vs : gmap string Entry) :
  (∀ name m,
     is_Some (vs !! name) → version_number name = Some m →
     (∀ name' m', is_Some (vs !! name') →
                  version_number name' = Some m' → (m' ≤ m)%N) →
     next_version vs = format_version (m + 1))
  ∧ ((∀ name, is_Some (vs !! name) → version_number name = None) →
     next_version vs = "v001").
Proof.
  split.
  - intros name m Hin Hm Hmax. unfold next_version.
    by rewrite (max_default_largest vs name m).
  - intros Hnone. unfold next_version.
    assert (existing_numbers vs = []) as ->; [|done].
    unfold existing_numbers.
    destruct (omap version_number (data_manager.listdir vs))
      as [|x rest] eqn:He; [done|].
    assert (x ∈ omap version_number (data_manager.listdir vs)) as Hx
      by (rewrite He; left).
    apply list_elem_of_omap in Hx as (name & Hname%elem_of_listdir & Hm).
    rewrite (Hnone name Hname) in Hm. done.
Qed.
End VersionList.

(** ** The record of a run *)

Section Records.
Import config version_manager.

Lemma fold_entry_ok_insert (log : Log.t) (i : nat) (e' : Log.Fold) :
  log_ok log → i < length (Log.folds log) → fold_entry_ok i e' →
  log_ok (with_folds log (<[i := e']> (Log.folds log))).
Proof.
  intros [Hlen Hall] Hi He'. split.
  - cbn [with_folds Log.folds]. by rewrite length_insert.
  - intros j e. cbn [with_folds Log.folds].
    destruct (decide (j = i)) as [->|Hne].
    + rewrite list_lookup_insert_eq by done. by intros [= <-].
    + rewrite list_lookup_insert_ne by done. apply Hall.
Qed.

Lemma set_fold_split_info_log_ok (log log' : Log.t) (fold_idx : nat)
    (train_count val_count : nat) :
  set_fold_split_info log fold_idx train_count val_count = Ok log' →
  log_ok log → log_ok log'.
Proof.
  unfold set_fold_split_info.
  destruct (Log.folds log !! fold_idx) as [e|] eqn:He; [|done].
  intros [= <-] Hok. apply fold_entry_ok_insert; [done|..].
  - by eapply lookup_lt_Some.
  - destruct Hok as [_ Hall]. apply (Hall _ _ He).
Qed.

Lemma record_epoch_log_ok (log log' : Log.t) (fold_idx : nat) (epoch : Z)
    (train_loss val_dice : float) :
  record_epoch log fold_idx epoch train_loss val_dice = Ok log' →
  log_ok log → log_ok log'.
Proof.
  unfold record_epoch.
  destruct (Log.folds log !! fold_idx) as [e|] eqn:He; [|done].
  intros [= <-] Hok. apply fold_entry_ok_insert; [done|..].
  - by eapply lookup_lt_Some.
  - destruct Hok as [_ Hall].
    destruct (Hall _ _ He) as [Hidx Hbest].
    split; [done|]. cbn [Log.best_epoch Log.best_dice Log.epochs].
    destruct (fgt val_dice (Log.best_dice e)).
    + right. eexists. split; [apply elem_of_app; right; left|done].
    + destruct Hbest as [?|(entry & Hin & ? & ?)]; [by left|].
      right. exists entry. split; [|done].
      apply elem_of_app. by left.
Qed.

(** X10. The record of a run is well formed from its creation on:
    [create_version_log] returns a record with one empty entry for each
    of the [N_FOLDS] folds, and [set_fold_split_info] and [record_epoch]
    keep it well formed whenever they return; each of the two raises
    [IndexError] exactly for a fold index beyond the entries, touches
    the entry of its fold only, and [record_epoch] appends exactly one
    epoch to it. *)
Theorem version_log_well_formed (env : environment) (version : string)
    (training_pairs : list training_pair) (max_epochs : Z)
    (total unannotated : nat) (w : world) (log : Log.t) (fold_idx : nat) :
  (∃ log0,
     create_version_log env version training_pairs max_epochs total
       unannotated w = (Ok log0, tick w)
     ∧ log_ok log0
     ∧ ∀ j e, Log.folds log0 !! j = Some e → Log.epochs e = [])
  ∧ (∀ train_count val_count,
       if decide (fold_idx < length (Log.folds log)) then
         ∃ log', set_fold_split_info log fold_idx train_count val_count
                 = Ok log'
           ∧ (log_ok log → log_ok log')
           ∧ (∀ j, j ≠ fold_idx →
                Log.folds log' !! j = Log.folds log !! j)
           ∧ Log.epochs <$> Log.folds log' = Log.epochs <$> Log.folds log
       else set_fold_split_info log fold_idx train_count val_count
            = Raise IndexError)
  ∧ (∀ epoch train_loss val_dice,
       if decide (fold_idx < length (Log.folds log)) then
         ∃ log' e e',
           record_epoch log fold_idx epoch train_loss val_dice = Ok log'
           ∧ (log_ok log → log_ok log')
           ∧ (∀ j, j ≠ fold_idx →
                Log.folds log' !! j = Log.folds log !! j)
           ∧ Log.folds log !! fold_idx = Some e
           ∧ Log.folds log' !! fold_idx = Some e'
           ∧ Log.epochs e'
             = Log.epochs e
               ++ [{| Log.epoch := epoch;
                      Log.train_loss := round6 train_loss;
                      Log.val_dice := round6 val_dice |}]
       else record_epoch log fold_idx epoch train_loss val_dice
            = Raise IndexError).
Proof.
  split; [|split].
  - eexists. split; [reflexivity|]. split.
    + split; [by vm_compute|].
      intros j e. cbn [Log.folds].
      intros Hj. apply list_lookup_fmap_Some in Hj as (i & -> & Hi).
      apply lookup_seq in Hi as [-> _]. split; [done|]. by left.
    + intros j e. cbn [Log.folds].
      intros Hj. by apply list_lookup_fmap_Some in Hj as (i & -> & Hi).
  - intros train_count val_count. unfold set_fold_split_info.
    case_decide as Hi.
    + destruct (lookup_lt_is_Some_2 _ _ Hi) as [e He]. rewrite He.
      eexists. split; [reflexivity|]. split; [|split].
      * apply (set_fold_split_info_log_ok log _ fold_idx train_count
                 val_count).
        unfold set_fold_split_info. by rewrite He.
      * intros j Hne. cbn [with_folds Log.folds].
        by rewrite list_lookup_insert_ne.
      * cbn [with_folds Log.folds]. rewrite list_fmap_insert.
        cbn [Log.epochs]. apply list_insert_id.
        by rewrite list_lookup_fmap, He.
    + by rewrite (lookup_ge_None_2 _ _) by lia.
  - intros epoch train_loss val_dice. unfold record_epoch.
    case_decide as Hi.
    + destruct (lookup_lt_is_Some_2 _ _ Hi) as [e He]. rewrite He.
      eexists _, e, _. split; [reflexivity|].
      cbn [with_folds Log.folds].
      split; [|split; [|split; [done|split]]].
      * apply (record_epoch_log_ok log _ fold_idx epoch train_loss
                 val_dice).
        unfold record_epoch. by rewrite He.
      * intros j Hne. by rewrite list_lookup_insert_ne.
      * by rewrite list_lookup_insert_eq.
      * done.
    + by rewrite (lookup_ge_None_2 _ _) by lia.
Qed.
End Records.

(** ** Archiving and restoring *)

Section Archive.
Import config version_manager.

(** [finalize_version] for a new name when the results block raises:
    the directory is there with the files of the current slot, the
    record is not written and the clock is not read. *)
Lemma finalize_version_fresh_raise (env : environment) (version : string)
    (log : Log.t) (dices : list float) (best : Z) (status : string)
    (e : exn) (w : world) :
  versions w !! version = None →
  results_block dices best = Raise e →
  finalize_version env version log dices best status w
  = (Raise e, set_versions <[version := Dir (unfinished_dir w)]> w).
Proof.
  intros Hfresh Hres. destruct w as [da vs cf b ms ml st ce bt t].
  cbn [versions] in Hfresh. unfold finalize_version.
  rewrite bind_ok with (a := tt)
    (s' := {| data := da; versions := <[version := Dir empty_dir]> vs;
              current_folds := cf; best_pt := b;
              _models := ms; _models_loaded := ml;
              training_status := st; training_cancel_event := ce;
              background_tasks := bt; ticks := t |});
    [|by unfold makedirs; cbn [versions]; rewrite Hfresh].
  erewrite bind_ok; [|by apply finalize_loop].
  rewrite bind_gets. cbn [best_pt vd_folds vd_best vd_log empty_dir].
  erewrite bind_ok with (a := tt)
    (s' := {| data := da;
              versions := <[version :=
                Dir {| vd_folds := copy_files cf (seq 0 N_FOLDS) ∅;
                       vd_best := b; vd_log := None |}]> vs;
              current_folds := cf; best_pt := b;
              _models := ms; _models_loaded := ml;
              training_status := st; training_cancel_event := ce;
              background_tasks := bt; ticks := t |}).
  - erewrite bind_raise; [reflexivity|]. unfold of_result. by rewrite Hres.
  - destruct b as [c|]; [|done].
    apply in_version_dir_insert.
Qed.



Lemma copy_files_back (cf : gmap Z Checkpoint.t) :
  copy_files (copy_files cf (seq 0 N_FOLDS) ∅) (seq 0 N_FOLDS) cf = cf.
Proof.
  apply map_eq. intros j. rewrite !lookup_copy_files_range.
  case_decide; [|done]. rewrite lookup_empty.
  by destruct (cf !! j).
Qed.

(** X12. Archiving then restoring gives back what was there: once
    [finalize_version] has returned for a new name, [restore_version]
    of that name returns, and leaves every file of the current slot as
    it is; it only drops the loaded models. *)
Theorem finalize_then_restore (env : environment) (version : string)
    (log : Log.t) (dices : list float) (best : Z) (status : string)
    (w w' : world) (r : string * Log.t) :
  versions w !! version = None →
  finalize_version env version log dices best status w = (Ok r, w') →
  restore_version version w' = (Ok tt, set_inference [] false w').
Proof.
  intros Hfresh Hfin.
  destruct (results_block dices best) as [res|e] eqn:Hres.
  - rewrite (finalize_version_fresh _ _ _ _ _ _ res) in Hfin by done.
    injection Hfin as _ <-.
    destruct w as [da vs cf b ms ml st ce bt t].
    unfold restore_version, tick, set_versions, finalized_dir.
    cbn [data versions current_folds best_pt _models _models_loaded
         training_status training_cancel_event background_tasks ticks].
    rewrite bind_gets. cbn [versions].
    erewrite locate_version_dir by apply lookup_insert_eq.
    erewrite bind_ok;
      [|by apply restore_loop; rewrite lookup_insert_eq].
    rewrite bind_gets. cbn [versions]. rewrite lookup_insert_eq.
    cbn [vd_best vd_folds]. rewrite copy_files_back.
    destruct b as [c|].
    + by rewrite bind_modify.
    + by rewrite bind_ret.
  - rewrite (finalize_version_fresh_raise _ _ _ _ _ _ e) in Hfin by done.
    discriminate.
Qed.
End Archive.


Lemma next_version_above_largest_witness :
  version_manager.next_version (versions file_world)
  = version_manager.format_version (7 + 1)
  ∧ version_manager.next_version {["notes.txt" := File]} = "v001".
Proof.
  destruct (next_version_above_largest (versions file_world))
    as [Hlargest _].
  destruct (next_version_above_largest {["notes.txt" := File]})
    as [_ Hnone].
  split.
  - apply (Hlargest "v007" 7%N).
    + apply (bool_decide_unpack _). vm_compute. exact I.
    + vm_compute. reflexivity.
    + intros name' m' [e He] Hm'.
      assert (map_Forall
                (λ k _, (default 0 (version_manager.version_number k) ≤ 7)%N)
                (versions file_world)) as Hall.
      { apply (bool_decide_unpack _). vm_compute. exact I. }
      specialize (Hall name' e He). cbv beta in Hall.
      by rewrite Hm' in Hall.
  - apply Hnone. intros name [e He].
    assert (map_Forall
              (λ k _, version_manager.version_number k = None)
              ({["notes.txt" := File]} : gmap string Entry)) as Hall.
    { apply (bool_decide_unpack _). vm_compute. exact I. }
    apply (Hall name e He).
Defined.


Lemma finalize_then_restore_witness :
  let w' :=
    (version_manager.finalize_version steady_env "v002" example_log
       [(1 # 2)%Q] 0 "completed" unlogged_world).2 in
  version_manager.restore_version "v002" w'
  = (Ok tt, set_inference [] false w').
Proof.
  destruct (version_manager.finalize_version steady_env "v002" example_log
              [(1 # 2)%Q] 0 "completed" unlogged_world)
    as [[r|e] w'] eqn:Hfin.
  - apply (finalize_then_restore steady_env "v002" example_log
             [(1 # 2)%Q] 0 "completed" unlogged_world w' r).
    + vm_compute. reflexivity.
    + exact Hfin.
  - vm_compute in Hfin. discriminate.
Defined.


(** ** Image identifiers *)

Section ImageIds.
Import data_manager version_manager main.

Lemma class_star_png_cons (c : ascii) (s : string) :
  class_star_png (String c s)
  = String.eqb (String c s) ".png" || in_class c && class_star_png s.
Proof. reflexivity. Qed.

Lemma contains_cons (sub : string) (c : ascii) (s : string) :
  contains sub (String c s) = String.prefix sub (String c s) || contains sub s.
Proof. reflexivity. Qed.

Lemma strip_final_newline_cons (c d : ascii) (s : string) :
  strip_final_newline (String c (String d s))
  = String c (strip_final_newline (String d s)).
Proof. reflexivity. Qed.

Lemma all_chars_impl (p q : ascii → bool) (s : string) :
  (∀ c, p c = true → q c = true) →
  all_chars p s = true → all_chars q s = true.
Proof.
  intros Hpq. induction s as [|c s IH]; [done|]. simpl.
  rewrite !andb_true_iff. intros [Hc Hs]. auto.
Qed.

Lemma class_star_png_all (s : string) :
  class_star_png s = true → all_chars in_class s = true.
Proof.
  induction s as [|c s IH]; [done|].
  rewrite class_star_png_cons, orb_true_iff, andb_true_iff.
  intros [Heq%String.eqb_eq|[Hc Hs]].
  - rewrite Heq. reflexivity.
  - cbn [all_chars]. by rewrite Hc, IH.
Qed.

Lemma all_chars_strip (p : ascii → bool) (s : string) :
  all_chars p (strip_final_newline s) = true →
  all_chars (λ c, p c || Ascii.eqb c newline) s = true.
Proof.
  induction s as [|c s IH]; [done|]. destruct s as [|d s].
  - cbn [strip_final_newline]. fold newline.
    destruct (Ascii.eqb c newline) eqn:Hc.
    + intros _. cbn [all_chars]. by rewrite Hc, orb_true_r.
    + cbn [all_chars]. rewrite !andb_true_iff. intros [-> _]. done.
  - rewrite strip_final_newline_cons. cbn [all_chars] in *.
    rewrite !andb_true_iff in *. intros [-> Hs]. split; [done|].
    by apply IH.
Qed.

Lemma contains_char_false (p : ascii → bool) (x : ascii) (s : string) :
  all_chars p s = true → p x = false →
  contains (String x EmptyString) s = false.
Proof.
  intros Hs Hx. induction s as [|c s IH]; [done|].
  cbn [all_chars] in Hs. apply andb_true_iff in Hs as [Hc Hs].
  rewrite contains_cons, IH by done. rewrite orb_false_r.
  cbn [String.prefix]. destruct (ascii_dec x c) as [->|]; [|done].
  congruence.
Qed.

Lemma matches_image_id_chars (image_id : string) :
  matches_image_id image_id = true →
  all_chars (λ c, in_class c || Ascii.eqb c newline) image_id = true.
Proof.
  unfold matches_image_id. intros Hm. apply all_chars_strip.
  destruct (strip_final_newline image_id) as [|c s]; [done|].
  apply andb_true_iff in Hm as [Hc Hs].
  cbn [all_chars]. by rewrite Hc, class_star_png_all.
Qed.

Lemma length_lower (s : string) :
  String.length (lower s) = String.length s.
Proof. induction s as [|c s IH]; simpl; congruence. Qed.

Lemma endswith_cons (c : ascii) (s suffix : string) :
  String.length suffix ≤ String.length s →
  endswith (String c s) suffix = endswith s suffix.
Proof.
  intros Hle. unfold endswith. cbn [String.length]. cbv zeta.
  rewrite !decide_True by lia.
  replace (S (String.length s) - String.length suffix)
    with (S (String.length s - String.length suffix)) by lia.
  reflexivity.
Qed.

Lemma endswith_length (s suffix : string) :
  endswith s suffix = true → String.length suffix ≤ String.length s.
Proof. unfold endswith. cbv zeta. by case_decide. Qed.

Lemma substring_all (s : string) : substring 0 (String.length s) s = s.
Proof. induction s as [|c s IH]; simpl; congruence. Qed.

Lemma endswith_same_length (s suffix : string) :
  String.length s = String.length suffix →
  endswith s suffix = true → s = suffix.
Proof.
  intros Hlen. unfold endswith. cbv zeta. rewrite decide_True by lia.
  rewrite Hlen, Nat.sub_diag, <-Hlen, substring_all.
  apply String.eqb_eq.
Qed.

Lemma class_star_png_endswith (s : string) :
  class_star_png s = true → endswith s ".png" = true.
Proof.
  induction s as [|c s IH]; [done|].
  rewrite class_star_png_cons, orb_true_iff, andb_true_iff.
  intros [Heq%String.eqb_eq|[_ Hs]].
  - rewrite Heq. reflexivity.
  - specialize (IH Hs). rewrite endswith_cons; [done|].
    by apply endswith_length.
Qed.

Lemma last_char_cons (c d : ascii) (s : string) :
  last_char (String c (String d s)) = last_char (String d s).
Proof. reflexivity. Qed.

Lemma endswith_last_char (s suffix : string) :
  suffix ≠ EmptyString → endswith s suffix = true →
  last_char s = last_char suffix.
Proof.
  intros Hne. induction s as [|c s IH].
  - intros Hle%endswith_length. destruct suffix; [done|]. simpl in Hle. lia.
  - intros He.
    destruct (decide (String.length suffix ≤ String.length s)) as [Hle|Hgt].
    + rewrite endswith_cons in He by done. rewrite <-IH by done.
      destruct s as [|d s]; [|done].
      destruct suffix; [done|]. simpl in Hle. lia.
    + pose proof (endswith_length _ _ He) as Hle. cbn [String.length] in Hle.
      f_equal. apply endswith_same_length; [|done].
      cbn [String.length]. lia.
Qed.

Lemma last_char_lower (s : string) :
  last_char (lower s) = lower_ascii <$> last_char s.
Proof.
  induction s as [|c s IH]; [done|]. destruct s as [|d s]; [done|].
  cbn [lower] in *. by rewrite !last_char_cons.
Qed.

Lemma strip_final_newline_id (s : string) :
  last_char s ≠ Some newline → strip_final_newline s = s.
Proof.
  induction s as [|c s IH]; [done|]. destruct s as [|d s].
  - cbn [last_char strip_final_newline]. fold newline. intros Hc.
    destruct (Ascii.eqb c newline) eqn:Heq; [|done].
    apply Ascii.eqb_eq in Heq. congruence.
  - rewrite last_char_cons, strip_final_newline_cons. intros Hl.
    by rewrite IH.
Qed.

(** A name [_list_png] accepts does not end in a newline. *)
Lemma is_png_strip (f : string) :
  is_png f = true → strip_final_newline f = f.
Proof.
  unfold is_png. intros Hl%endswith_last_char; [|done].
  apply strip_final_newline_id. rewrite last_char_lower in Hl.
  intros Heq. rewrite Heq in Hl. vm_compute in Hl. discriminate.
Qed.

Lemma strip_final_newline_app (s : string) :
  strip_final_newline (s ++ String newline EmptyString) = s.
Proof.
  induction s as [|c s IH]; [done|].
  destruct s as [|d s]; [done|].
  change ((String c (String d s) ++ String newline "")%string)
    with (String c (String d (s ++ String newline ""))).
  rewrite strip_final_newline_cons. f_equal. exact IH.
Qed.

Lemma prefix_app_newline (sub s : string) :
  all_chars (λ c, negb (Ascii.eqb c newline)) sub = true →
  sub ≠ EmptyString →
  String.prefix sub (s ++ String newline EmptyString) = String.prefix sub s.
Proof.
  revert s. induction sub as [|a sub IH]; [done|]. intros s Hall _.
  cbn [all_chars] in Hall. apply andb_true_iff in Hall as [Ha Hall].
  destruct s as [|c s]; simpl.
  - destruct (ascii_dec a newline) as [->|]; [|done].
    by rewrite Ascii.eqb_refl in Ha.
  - destruct (ascii_dec a c); [|done].
    destruct sub as [|b sub]; [by destruct s|]. by apply IH.
Qed.

Lemma contains_app_newline (sub s : string) :
  all_chars (λ c, negb (Ascii.eqb c newline)) sub = true →
  sub ≠ EmptyString →
  contains sub (s ++ String newline EmptyString) = contains sub s.
Proof.
  intros Hall Hne. induction s as [|c s IH].
  - simpl. destruct sub as [|a sub]; [done|].
    cbn [all_chars] in Hall. apply andb_true_iff in Hall as [Ha _].
    simpl. destruct (ascii_dec a newline) as [->|]; [|done].
    by rewrite Ascii.eqb_refl in Ha.
  - change ((String c s ++ String newline "")%string)
      with (String c (s ++ String newline "")).
    rewrite !contains_cons, IH. f_equal.
    change (String c (s ++ String newline ""))
      with ((String c s ++ String newline "")%string).
    by apply prefix_app_newline.
Qed.

Lemma has_nul_chars (p : ascii → bool) (s : string) :
  all_chars p s = true → p "000"%char = false →
  posixpath.has_nul s = false.
Proof.
  intros Hs Hx. induction s as [|c s IH]; [done|].
  cbn [all_chars] in Hs. apply andb_true_iff in Hs as [Hc Hs].
  cbn [posixpath.has_nul]. rewrite IH by done. rewrite orb_false_r.
  destruct (Ascii.eqb c "000") eqn:Heq; [|done].
  apply Ascii.eqb_eq in Heq. congruence.
Qed.

Lemma split_chars (p : ascii → bool) (sep : ascii) (s : string) :
  all_chars p s = true → p sep = false → posixpath.split sep s = [s].
Proof.
  intros Hs Hx. induction s as [|c s IH]; [done|].
  cbn [all_chars] in Hs. apply andb_true_iff in Hs as [Hc Hs].
  cbn [posixpath.split]. rewrite IH by done.
  destruct (Ascii.eqb c sep) eqn:Heq; [|done].
  apply Ascii.eqb_eq in Heq. congruence.
Qed.

(** An identifier [validate_image_id] accepts is a file name. *)
Lemma validate_image_id_name (image_id : string) :
  validate_image_id image_id = true →
  posixpath.is_name image_id = true.
Proof.
  unfold validate_image_id. intros Hv.
  destruct (matches_image_id image_id) eqn:Hm; [|done]. cbn [negb] in Hv.
  destruct (contains ".." image_id) eqn:Hdots; [done|]. clear Hv.
  pose proof (matches_image_id_chars _ Hm) as Hall.
  apply is_name_spec. split; [|split; [|split; [|split]]].
  - by eapply has_nul_chars.
  - by eapply split_chars.
  - by intros ->.
  - by intros ->.
  - by intros ->.
Qed.

(** X13. An identifier [validate_image_id] accepts is a non-empty name
    without a separator and without two dots in a row, so that joined
    to a directory it names an entry of that directory; up to a final
    newline it ends in [.png] in lower case. Of the three substring
    tests only the one for two dots can reject what the pattern
    accepted: the pattern already excludes both separators. *)
Theorem validate_image_id_spec (image_id : string) :
  validate_image_id image_id
  = matches_image_id image_id && negb (contains ".." image_id)
  ∧ (validate_image_id image_id = true →
     contains "/" image_id = false
     ∧ contains "\" image_id = false
     ∧ contains ".." image_id = false
     ∧ image_id ≠ "" ∧ image_id ≠ "."
     ∧ endswith (strip_final_newline image_id) ".png" = true).
Proof.
  assert (matches_image_id image_id = true →
          contains "/" image_id = false ∧ contains "\" image_id = false
          ∧ image_id ≠ "" ∧ image_id ≠ "."
          ∧ endswith (strip_final_newline image_id) ".png" = true)
    as Hm.
  { intros Hm. pose proof (matches_image_id_chars _ Hm) as Hall.
    split; [by eapply contains_char_false|].
    split; [by eapply contains_char_false|].
    split; [by intros ->|]. split; [by intros ->|].
    unfold matches_image_id in Hm.
    destruct (strip_final_newline image_id) as [|c s]; [done|].
    apply andb_true_iff in Hm as [_ Hs].
    pose proof (class_star_png_endswith _ Hs) as He.
    rewrite endswith_cons; [done|]. by apply endswith_length. }
  unfold validate_image_id.
  destruct (matches_image_id image_id) eqn:Hmatch; simpl; [|done].
  destruct (Hm eq_refl) as (Hs1 & Hs2 & Hne1 & Hne2 & Hend).
  rewrite Hs1, Hs2, !orb_false_r.
  destruct (contains ".." image_id); simpl; [done|]. done.
Qed.

(** X14. The end-of-text anchor of the pattern also matches before a
    final newline: an identifier that is accepted and does not end in a
    newline is accepted again with a newline appended, although no such
    name ends in [.png]. *)
Theorem validate_image_id_final_newline (image_id : string) :
  validate_image_id image_id = true →
  last_char image_id ≠ Some newline →
  validate_image_id (image_id ++ String newline "") = true
  ∧ endswith (image_id ++ String newline "") ".png" = false
  ∧ is_png (image_id ++ String newline "") = false.
Proof.
  intros Hv Hlast.
  assert (∀ t, endswith (t ++ String newline "") ".png" = false) as Hend.
  { intros t. destruct (endswith (t ++ String newline "") ".png") eqn:He;
      [|done].
    apply endswith_last_char in He; [|done].
    assert (∀ u, last_char (u ++ String newline "") = Some newline) as Hl.
    { induction u as [|c u IH]; [done|].
      destruct u as [|d u]; [done|].
      change ((String c (String d u) ++ String newline "")%string)
        with (String c (String d (u ++ String newline ""))).
      by rewrite last_char_cons. }
    rewrite Hl in He. vm_compute in He. discriminate. }
  split; [|split].
  - unfold validate_image_id, matches_image_id in *.
    rewrite strip_final_newline_app.
    rewrite strip_final_newline_id in Hv by done.
    destruct image_id as [|c s]; [done|].
    destruct (in_class c && class_star_png s); [|done].
    cbn [negb] in *.
    rewrite !contains_app_newline by done. exact Hv.
  - apply Hend.
  - unfold is_png.
    destruct (endswith (lower (image_id ++ String newline "")) ".png")
      eqn:He; [|done].
    apply endswith_last_char in He; [|done].
    rewrite last_char_lower in He.
    assert (∀ u, last_char (u ++ String newline "") = Some newline) as Hl.
    { induction u as [|c u IH]; [done|].
      destruct u as [|d u]; [done|].
      change ((String c (String d u) ++ String newline "")%string)
        with (String c (String d (u ++ String newline ""))).
      by rewrite last_char_cons. }
    rewrite Hl in He. vm_compute in He. discriminate.
Qed.
End ImageIds.

Lemma validate_image_id_spec_witness :
  main.contains "/" "x.png" = false
  ∧ main.contains ".." "x.png" = false
  ∧ data_manager.endswith
      (version_manager.strip_final_newline "x.png") ".png" = true.
Proof.
  destruct (validate_image_id_spec "x.png") as [_ Hvalid].
  destruct Hvalid as (Hslash & _ & Hdots & _ & _ & Hend).
  - vm_compute. reflexivity.
  - split; [exact Hslash|]. split; [exact Hdots|exact Hend].
Defined.

Lemma validate_image_id_final_newline_witness :
  main.validate_image_id ("x.png" ++ String newline "") = true
  ∧ data_manager.endswith ("x.png" ++ String newline "") ".png" = false
  ∧ data_manager.is_png ("x.png" ++ String newline "") = false.
Proof.
  apply (validate_image_id_final_newline "x.png").
  - vm_compute. reflexivity.
  - vm_compute. discriminate.
Defined.

(** ** The image endpoints *)

Section Endpoints.
Import data_manager main.

Lemma set_data_same (w : world) : set_data (λ _, data w) w = w.
Proof. by destruct w. Qed.

Lemma submit_label_eq (image_id : string) (content : bytes) (w : world) :
  submit_label image_id content w
  = if negb (validate_image_id image_id) then
      (error_response 400 (message "invalid image_id"), w)
    else if bool_decide
              (is_Some (unannotated_images (data w) !! image_id)) then
      (saved image_id,
       set_data (write_annotation image_id content) w)
    else (error_response 400 (exception_text ValueError), w).
Proof.
  unfold submit_label.
  destruct (validate_image_id image_id) eqn:Hv; [|done]. cbn [negb].
  rewrite save_annotation_name by by apply validate_image_id_name.
  destruct (bool_decide _); simpl.
  - by destruct w.
  - by rewrite set_data_same.
Qed.

(** X15. [submit_label] answers [saved] exactly for an identifier that
    [validate_image_id] accepts and that names an inbox image; it then
    writes the bytes to the inbox annotation of that name and changes
    nothing else. Every other request is answered with the status 400
    and changes nothing at all. *)
Theorem submit_label_spec (image_id : string) (content : bytes)
    (w : world) :
  let accepted :=
    validate_image_id image_id
    && bool_decide (is_Some (unannotated_images (data w) !! image_id)) in
  if accepted then
    submit_label image_id content w
    = (saved image_id, set_data (write_annotation image_id content) w)
  else
    ∃ error, submit_label image_id content w
             = (error_response 400 error, w).
Proof.
  cbv zeta. rewrite submit_label_eq.
  destruct (validate_image_id image_id); simpl; [|eauto].
  case_bool_decide; eauto.
Qed.

(** X16. An image whose extension is not in lower case is listed by
    [list_images] and counted, and [get_next_sample] may propose it,
    since [_list_png] ignores case; but [validate_image_id] does not,
    and so no endpoint serves it or takes its label: each answers 400
    and changes nothing. *)
Theorem upper_case_extension_refused (image_id : string)
    (content : bytes) (ensemble : inference.forward_pass) (w : world) :
  is_png image_id = true →
  endswith image_id ".png" = false →
  validate_image_id image_id = false
  ∧ download_image image_id w
    = error_response 400 (message "invalid image_id")
  ∧ download_label image_id w
    = error_response 400 (message "invalid image_id")
  ∧ submit_label image_id content w
    = (error_response 400 (message "invalid image_id"), w)
  ∧ infer ensemble image_id w
    = (error_response 400 (message "invalid image_id"), w)
  ∧ (is_Some (unannotated_images (data w) !! image_id) →
     image_id ∈ ImageEntry.id <$> list_images w).
Proof.
  intros Hpng Hend.
  assert (validate_image_id image_id = false) as Hv.
  { destruct (validate_image_id image_id) eqn:Hv; [|done].
    unfold validate_image_id, matches_image_id in Hv.
    rewrite (is_png_strip _ Hpng) in Hv.
    destruct image_id as [|c s]; [done|].
    destruct (in_class c && class_star_png s) eqn:Hm; [|done].
    apply andb_true_iff in Hm as [_ Hs].
    apply class_star_png_endswith in Hs.
    rewrite endswith_cons in Hend by by apply endswith_length.
    congruence. }
  split; [done|].
  unfold download_image, download_label, submit_label, infer.
  rewrite Hv. cbn [negb]. repeat (split; [done|]).
  intros Himg. unfold list_images. rewrite ids_listing.
  by apply elem_of_sorted, elem_of_list_png.
Qed.

(** X17. Labelling what [get_next_sample] proposes makes progress: when
    the identifier proposed passes [validate_image_id], [submit_label]
    accepts it, it is not proposed again, and one image fewer is left
    without label; the number of unlabelled images [get_info] reports
    goes down by one. *)
Theorem labelling_progress (strategy : string) (draw : nat)
    (image_id : string) (content : bytes) (w : world) :
  get_next_sample strategy draw w = next_image (Some image_id) →
  validate_image_id image_id = true →
  ∃ w',
    submit_label image_id content w = (saved image_id, w')
    ∧ (∀ strategy' draw',
         get_next_sample strategy' draw' w' ≠ next_image (Some image_id))
    ∧ length (data_manager.unlabeled_images (data w')) + 1
      = length (data_manager.unlabeled_images (data w))
    ∧ (unlabeled_images (get_info w') + 1)%Z
      = unlabeled_images (get_info w).
Proof.
  unfold get_next_sample. intros [= Hnext] Hv.
  apply get_next_unlabeled_elem_of in Hnext.
  pose proof Hnext as Hin.
  apply elem_of_unlabeled_images in Hin as (Hpng & Himg & Hnone).
  rewrite submit_label_eq, Hv. cbn [negb].
  rewrite bool_decide_eq_true_2 by done.
  eexists. split; [reflexivity|].
  assert (length (data_manager.unlabeled_images
                    (write_annotation image_id content (data w))) + 1
          = length (data_manager.unlabeled_images (data w))) as Hlen.
  { pose proof (length_labeled_unlabeled (data w)) as H1.
    pose proof (length_labeled_unlabeled
                  (write_annotation image_id content (data w))) as H2.
    pose proof (length_labeled_written image_id content (data w)) as H3.
    rewrite bool_decide_eq_true_2 in H3 by done.
    cbn [unannotated_images unannotated_annotations write_annotation]
      in H2.
    lia. }
  split; [|split].
  - intros strategy' draw' [= Hagain].
    apply get_next_unlabeled_elem_of in Hagain.
    apply elem_of_unlabeled_images in Hagain as (_ & _ & Hnone').
    destruct w as [da vs cf b ms ml st ce bt t].
    simpl in Hnone'. by rewrite lookup_insert_eq in Hnone'.
  - by destruct w.
  - unfold get_info. cbn [unlabeled_images].
    unfold get_stats. cbn [stat_unannotated_unlabeled].
    rewrite <-!(length_filter_in_set_comm
                  (_list_png (unannotated_images _)))
      by apply NoDup_list_png.
    pose proof (length_labeled_unlabeled (data w)) as H1.
    pose proof (length_labeled_unlabeled
                  (write_annotation image_id content (data w))) as H2.
    destruct w as [da vs cf b ms ml st ce bt t]. cbn [data set_data] in *.
    cbn [unannotated_images unannotated_annotations write_annotation]
      in *.
    lia.
Qed.
End Endpoints.

(** ** Inference *)

Section Inference.
Import config inference.

Lemma load_ensemble_eq (w : world) :
  load_ensemble w = (Ok tt, set_inference (ensemble_of w) true w).
Proof.
  unfold load_ensemble, ensemble_of. rewrite bind_gets.
  destruct w as [da vs cf b ms ml st ce bt t].
  destruct (existing_folds _) as [|c0 rest] eqn:He.
  - unfold mbind at 1, M_bind at 1. rewrite bind_gets. cbn [best_pt].
    by destruct b.
  - reflexivity.
Qed.


Lemma run_inference_eq (ensemble : forward_pass) (image_path : path)
    (w : world) :
  run_inference ensemble image_path w
  = if _models_loaded w then
      (inference_answer ensemble (_models w) (read (data w) image_path), w)
    else
      (inference_answer ensemble (ensemble_of w)
         (read (data w) image_path),
       set_inference (ensemble_of w) true w).
Proof.
  unfold run_inference. rewrite bind_gets.
  destruct (_models_loaded w) eqn:Hl; cbn [negb].
  - rewrite bind_ret, bind_gets. unfold inference_answer.
    destruct (_models w) as [|m ms]; [done|].
    rewrite bind_gets. destruct (read (data w) image_path); [|done].
    unfold mbind, M_bind, of_result. by destruct (ensemble _ _).
  - erewrite bind_ok; [|apply load_ensemble_eq].
    rewrite bind_gets. unfold inference_answer.
    destruct w as [da vs cf b ms ml st ce bt t].
    cbn [_models set_inference data].
    destruct (ensemble_of _) as [|m ms']; [done|].
    rewrite bind_gets. cbn [data set_inference].
    destruct (read da image_path); [|done].
    unfold mbind, M_bind, of_result. by destruct (ensemble _ _).
Qed.

Lemma existing_folds_nil (w : world) :
  existing_folds w = []
  ↔ ∀ i, i < N_FOLDS → current_folds w !! Z.of_nat i = None.
Proof.
  unfold existing_folds. split.
  - intros Hnil i Hi.
    destruct (current_folds w !! Z.of_nat i) as [c|] eqn:Hc; [|done].
    assert (c ∈ omap (λ i, current_folds w !! Z.of_nat i)
                  (seq 0 N_FOLDS)) as Hin.
    { apply list_elem_of_omap. exists i. split; [|done].
      apply elem_of_seq. lia. }
    rewrite Hnil in Hin. by apply not_elem_of_nil in Hin.
  - intros Hnone.
    destruct (omap _ _) as [|c rest] eqn:He; [done|].
    assert (c ∈ omap (λ i, current_folds w !! Z.of_nat i)
                  (seq 0 N_FOLDS)) as Hin by (rewrite He; left).
    apply list_elem_of_omap in Hin as (i & Hi%elem_of_seq & Hc).
    rewrite Hnone in Hc by lia. done.
Qed.

(** X18. [run_inference] loads models only when none are marked as
    loaded: it then takes the fold files of the current slot, in the
    order of their numbers, and the promoted file only if there is no
    fold file. It leaves the models marked as loaded and touches no
    file. It returns nothing exactly when it has no model, which for a
    fresh load means that the slot holds neither a fold file nor a
    promoted file; with models marked as loaded, the files play no
    part. *)
Theorem run_inference_spec (ensemble : forward_pass) (image_path : path)
    (w : world) :
  let r := (run_inference ensemble image_path w).1 in
  let w' := (run_inference ensemble image_path w).2 in
  _models_loaded w' = true
  ∧ _models w' = (if _models_loaded w then _models w else ensemble_of w)
  ∧ r = inference_answer ensemble (_models w') (read (data w) image_path)
  ∧ (r = Ok None ↔ _models w' = [])
  ∧ w' = set_inference (_models w') true w
  ∧ (ensemble_of w = []
     ↔ best_pt w = None
       ∧ ∀ i, i < N_FOLDS → current_folds w !! Z.of_nat i = None)
  ∧ (existing_folds w ≠ [] →
     ensemble_of w = _load_single_model <$> existing_folds w).
Proof.
  cbv zeta. rewrite run_inference_eq.
  assert (∀ ms img, inference_answer ensemble ms img = Ok None ↔ ms = [])
    as Hnone.
  { intros [|m ms] img; [done|]. unfold inference_answer.
    split; [|done]. destruct img; [|done]. by destruct (ensemble _ _). }
  split; [|split; [|split; [|split; [|split; [|split]]]]].
  - by destruct (_models_loaded w) eqn:Hl.
  - by destruct (_models_loaded w).
  - by destruct (_models_loaded w).
  - destruct (_models_loaded w); apply Hnone.
  - destruct (_models_loaded w) eqn:Hl; [|done].
    destruct w as [da vs cf b ms ml st ce bt t]. simpl in *. by subst.
  - unfold ensemble_of. rewrite <-existing_folds_nil.
    destruct (existing_folds w) as [|c rest].
    + destruct (best_pt w); split; try done. by intros [? _].
    + split; [done|]. by intros [_ ?].
  - intros Hne. unfold ensemble_of. by destruct (existing_folds w).
Qed.

Lemma restore_version_eq (version : string) (d : VersionDir) (w : world) :
  versions w !! version = Some (Dir d) →
  version_manager.restore_version version w = (Ok tt, restored_world d w).
Proof.
  intros Hd. destruct w as [da vs cf b ms ml st ce bt t].
  cbn [versions] in Hd. unfold version_manager.restore_version.
  rewrite bind_gets. cbn [versions].
  rewrite (locate_version_dir _ _ d) by done.
  erewrite bind_ok; [|by apply restore_loop].
  rewrite bind_gets. cbn [versions]. rewrite Hd.
  unfold restored_world.
  destruct (vd_best d) as [c|].
  - by rewrite bind_modify.
  - by rewrite bind_ret.
Qed.

(** A path leads to the directory of a version only through an entry
    that is a directory. *)
Lemma locate_version_dir_inv (vs : gmap string Entry)
    (version name : string) :
  version_manager.locate_version vs version
  = version_manager.version_dir name →
  ∃ d, vs !! name = Some (Dir d).
Proof.
  assert (∀ components p,
            (∀ n, p = version_manager.version_dir n →
                  ∃ d, vs !! n = Some (Dir d)) →
            foldl (version_manager.version_step vs) p components
            = version_manager.version_dir name →
            ∃ d, vs !! name = Some (Dir d)) as Hwalk.
  { induction components as [|c components IH]; intros p Hp; [by apply Hp|].
    cbn [foldl]. apply IH. intros n.
    unfold version_manager.version_step.
    destruct p as [m| | |]; try done.
    - case_decide; [by apply Hp|]. case_decide; done.
    - case_decide; [done|]. case_decide; [done|].
      destruct (vs !! c) as [[|d]|] eqn:Hc; try done.
      intros [= <-]. by exists d. }
  unfold version_manager.locate_version.
  destruct (vs !! version) as [[|d]|] eqn:Hv.
  - destruct (posixpath.has_nul version); [done|].
    destruct (posixpath.isabs version); [done|].
    destruct (foldl _ _ _) eqn:Hf; try done.
    + intros [= <-].
      by eapply (Hwalk _ version_manager.versions_dir); [|exact Hf].
    + by destruct (existsb _ _).
  - intros [= <-]. by exists d.
  - destruct (posixpath.has_nul version); [done|].
    destruct (posixpath.isabs version); [done|].
    destruct (foldl _ _ _) eqn:Hf; try done.
    + intros [= <-].
      by eapply (Hwalk _ version_manager.versions_dir); [|exact Hf].
    + by destruct (existsb _ _).
Qed.

(** What [restore_version] does, by where the path of the version
    leads. *)
Lemma restore_version_cases (version : string) (w : world) :
  match version_manager.locate_version (versions w) version with
  | version_manager.version_dir name =>
      ∃ d, versions w !! name = Some (Dir d)
           ∧ version_manager.restore_version version w
             = (Ok tt, restored_world d w)
  | version_manager.versions_dir =>
      version_manager.restore_version version w
      = (Ok tt, set_inference [] false w)
  | _ =>
      version_manager.restore_version version w
      = (Raise FileNotFoundError, w)
  end.
Proof.
  destruct (version_manager.locate_version (versions w) version)
    as [name| | |] eqn:Hplace;
    try (unfold version_manager.restore_version; rewrite bind_gets;
         by rewrite Hplace).
  destruct (locate_version_dir_inv _ _ _ Hplace) as [d Hd].
  exists d. split; [done|].
  destruct w as [da vs cf b ms ml st ce bt t].
  cbn [versions] in *. unfold version_manager.restore_version.
  rewrite bind_gets. cbn [versions]. rewrite Hplace.
  erewrite bind_ok; [|by apply restore_loop].
  rewrite bind_gets. cbn [versions]. rewrite Hd.
  unfold restored_world.
  destruct (vd_best d) as [c|].
  - by rewrite bind_modify.
  - by rewrite bind_ret.
Qed.

Lemma omap_ext_elem {A B} (f g : A → option B) (l : list A) :
  (∀ x, x ∈ l → f x = g x) → omap f l = omap g l.
Proof.
  induction l as [|x l IH]; intros Hfg; [done|].
  cbn [omap list_omap]. rewrite (Hfg x) by left.
  rewrite IH; [done|]. intros y Hy. apply Hfg. by right.
Qed.

Lemma existing_folds_restored (d : VersionDir) (w : world) :
  existing_folds (restored_world d w)
  = omap (λ i, match vd_folds d !! Z.of_nat i with
               | Some c => Some c
               | None => current_folds w !! Z.of_nat i
               end) (seq 0 N_FOLDS).
Proof.
  unfold existing_folds, restored_world.
  cbn [current_folds set_inference set_best_pt set_current_folds].
  apply omap_ext_elem. intros i Hi%elem_of_seq.
  rewrite lookup_copy_files_range. rewrite decide_True by lia. done.
Qed.

(** X19. Inference after a restore: [restore_version] drops the loaded
    models, so the next [run_inference] loads the files of the current
    slot, which hold, fold by fold, the file of the restored version
    where it has one and the file that was there before where it has
    none. A promoted file is used only if no fold file is around: when
    the restored version has no fold file and the slot had some, the
    inference goes on with the fold files of the slot, not with the
    promoted file just restored. *)
Theorem restore_then_inference (ensemble : forward_pass)
    (image_path : path) (version : string) (d : VersionDir) (w : world) :
  versions w !! version = Some (Dir d) →
  let w1 := (version_manager.restore_version version w).2 in
  let w2 := (run_inference ensemble image_path w1).2 in
  existing_folds w1
  = omap (λ i, match vd_folds d !! Z.of_nat i with
               | Some c => Some c
               | None => current_folds w !! Z.of_nat i
               end) (seq 0 N_FOLDS)
  ∧ _models w2 = ensemble_of w1
  ∧ ((∀ i, i < N_FOLDS → vd_folds d !! Z.of_nat i = None) →
     existing_folds w ≠ [] →
     _models w2 = _load_single_model <$> existing_folds w)
  ∧ ((∀ i, i < N_FOLDS → vd_folds d !! Z.of_nat i = None) →
     existing_folds w = [] →
     _models w2
     = match vd_best d, best_pt w with
       | Some c, _ | None, Some c => [_load_single_model c]
       | None, None => []
       end).
Proof.
  intros Hd. cbv zeta. rewrite (restore_version_eq _ d) by done.
  cbn [snd]. rewrite run_inference_eq.
  assert (_models_loaded (restored_world d w) = false) as -> by done.
  cbn [snd]. split; [apply existing_folds_restored|]. split; [done|].
  assert ((∀ i, i < N_FOLDS → vd_folds d !! Z.of_nat i = None) →
          existing_folds (restored_world d w) = existing_folds w) as Hsame.
  { intros Hnone. rewrite existing_folds_restored. unfold existing_folds.
    apply omap_ext_elem. intros i Hi%elem_of_seq.
    rewrite Hnone by lia. done. }
  split.
  - intros Hnone Hne.
    change (_models (set_inference ?ms _ _)) with ms.
    unfold ensemble_of. rewrite (Hsame Hnone).
    by destruct (existing_folds w).
  - intros Hnone Hnil.
    change (_models (set_inference ?ms _ _)) with ms.
    unfold ensemble_of. rewrite (Hsame Hnone), Hnil.
    unfold restored_world. cbn [best_pt set_inference set_best_pt].
    by destruct (vd_best d), (best_pt w).
Qed.
End Inference.

Section Infer.
Import config inference data_manager main.

Lemma get_image_path_read (s : DataStore) (image_id : string) (p : path) :
  posixpath.is_name image_id = true →
  get_image_path s image_id = Some p → is_Some (read s p).
Proof.
  intros Hname. rewrite get_image_path_name by done.
  repeat case_bool_decide; intros [= <-]; by rewrite read_name.
Qed.

(** X20. The answer of [infer] for an identifier it accepts, naming an
    image, with no models loaded yet. Without a promoted file it
    answers 503 and loads nothing, also when the slot holds fold files
    from which [run_inference] itself would return a mask. With a
    promoted file it loads the models and answers with the mask the
    forward pass returns on the image of the inbox, or of the completed
    partition if the inbox has none of that name, and with the status
    500 if the forward pass raises; it never answers 503 then. *)
Theorem infer_spec (ensemble : forward_pass) (image_id : string)
    (image_path : path) (w : world) :
  validate_image_id image_id = true →
  get_image_path (data w) image_id = Some image_path →
  _models_loaded w = false →
  match best_pt w with
  | None =>
      infer ensemble image_id w
      = (error_response 503 (message "model not available, train first"),
         w)
      ∧ (existing_folds w ≠ [] →
         (run_inference ensemble image_path w).1 ≠ Ok None)
  | Some _ =>
      ∃ content,
        read (data w) image_path = Some content
        ∧ ensemble_of w ≠ []
        ∧ infer ensemble image_id w
          = (match ensemble (ensemble_of w) content with
             | Ok mask => Response mask
             | Raise e => error_response 500 (exception_text e)
             end,
             set_inference (ensemble_of w) true w)
  end.
Proof.
  intros Hv Hp Hl. unfold infer. rewrite Hv, Hp. cbn [negb].
  destruct (get_image_path_read _ _ _ (validate_image_id_name _ Hv) Hp)
    as [content Hc].
  destruct (best_pt w) as [c|] eqn:Hb.
  - rewrite bool_decide_eq_true_2 by eauto. cbn [negb].
    exists content. split; [done|].
    assert (ensemble_of w ≠ []) as Hne.
    { unfold ensemble_of. rewrite Hb.
      by destruct (existing_folds w). }
    split; [done|].
    rewrite run_inference_eq, Hl, Hc. unfold inference_answer.
    destruct (ensemble_of w) as [|m ms]; [done|].
    by destruct (ensemble (m :: ms) content).
  - rewrite bool_decide_eq_false_2 by by intros [? ?]. cbn [negb].
    split; [done|]. intros Hne.
    rewrite run_inference_eq, Hl, Hc. cbn [fst].
    unfold inference_answer, ensemble_of.
    destruct (existing_folds w) as [|c0 rest]; [done|].
    cbn [fmap list_fmap].
    by destruct (ensemble _ content).
Qed.
End Infer.

Lemma upper_case_extension_refused_witness :
  main.validate_image_id "z.PNG" = false
  ∧ main.submit_label "z.PNG" [Byte.x01] mixed_case_world
    = (main.error_response 400 (main.message "invalid image_id"),
       mixed_case_world)
  ∧ "z.PNG" ∈ data_manager.ImageEntry.id <$> main.list_images mixed_case_world.
Proof.
  destruct (upper_case_extension_refused "z.PNG" [Byte.x01] example_forward
              mixed_case_world)
    as (Hinvalid & _ & _ & Hsubmit & _ & Hlisted).
  - vm_compute. reflexivity.
  - vm_compute. reflexivity.
  - split; [exact Hinvalid|]. split; [exact Hsubmit|].
    apply Hlisted. apply (bool_decide_unpack _). vm_compute. exact I.
Defined.

Lemma labelling_progress_witness :
  ∃ w',
    main.submit_label "y.png" [Byte.x01] example_world
    = (main.saved "y.png", w')
    ∧ (∀ strategy' draw',
         main.get_next_sample strategy' draw' w'
         ≠ main.next_image (Some "y.png"))
    ∧ length (data_manager.unlabeled_images (data w')) + 1
      = length (data_manager.unlabeled_images (data example_world))
    ∧ (main.unlabeled_images (main.get_info w') + 1)%Z
      = main.unlabeled_images (main.get_info example_world).
Proof.
  apply (labelling_progress "sequential" 0 "y.png" [Byte.x01]
           example_world).
  - vm_compute. reflexivity.
  - vm_compute. reflexivity.
Defined.

Lemma restore_then_inference_witness :
  _models
    (inference.run_inference example_forward
       (UNANNOTATED_IMAGES_DIR, "x.png")
       (version_manager.restore_version "v001" unlogged_world).2).2
  = ensemble_of (version_manager.restore_version "v001" unlogged_world).2.
Proof.
  destruct (restore_then_inference example_forward
              (UNANNOTATED_IMAGES_DIR, "x.png") "v001"
              {| vd_folds := {[2%Z := example_checkpoint]};
                 vd_best := Some example_checkpoint;
                 vd_log := None |} unlogged_world) as (_ & Hmodels & _).
  - vm_compute. reflexivity.
  - exact Hmodels.
Defined.

Lemma infer_spec_witness :
  match best_pt restored_example_world with
  | None =>
      main.infer example_forward "x.png" restored_example_world
      = (main.error_response 503
           (main.message "model not available, train first"),
         restored_example_world)
      ∧ (inference.existing_folds restored_example_world ≠ [] →
         (inference.run_inference example_forward
            (UNANNOTATED_IMAGES_DIR, "x.png") restored_example_world).1
         ≠ Ok None)
  | Some _ =>
      ∃ content,
        read (data restored_example_world)
          (UNANNOTATED_IMAGES_DIR, "x.png") = Some content
        ∧ ensemble_of restored_example_world ≠ []
        ∧ main.infer example_forward "x.png" restored_example_world
          = (match example_forward (ensemble_of restored_example_world)
                     content with
             | Ok mask => main.Response mask
             | Raise e => main.error_response 500 (main.exception_text e)
             end,
             set_inference (ensemble_of restored_example_world) true
               restored_example_world)
  end.
Proof.
  apply (infer_spec example_forward "x.png"
           (UNANNOTATED_IMAGES_DIR, "x.png") restored_example_world).
  - vm_compute. reflexivity.
  - vm_compute. reflexivity.
  - vm_compute. reflexivity.
Defined.


(** ** What a run leaves alone *)

Section Keeps.
Import config.

Lemma status_fixed_refl (st : Status.t) : status_fixed st st.
Proof. unfold status_fixed. repeat split; try done. apply Qle_refl. Qed.

Lemma status_fixed_trans (st0 st1 st2 : Status.t) :
  status_fixed st0 st1 → status_fixed st1 st2 → status_fixed st0 st2.
Proof.
  unfold status_fixed.
  intros (?&?&?&?&?&?&?&?) (?&?&?&?&?&?&?&?).
  repeat split; try congruence. by eapply Qle_trans.
Qed.

Lemma log_fixed_refl (log : Log.t) : log_fixed log log.
Proof. unfold log_fixed. by repeat split. Qed.

Lemma log_fixed_trans (log0 log1 log2 : Log.t) :
  log_fixed log0 log1 → log_fixed log1 log2 → log_fixed log0 log2.
Proof.
  unfold log_fixed.
  intros (?&?&?&?&?&?&?) (?&?&?&?&?&?&?). repeat split; congruence.
Qed.

Lemma run_keeps_refl (s : trainer.tstate) : run_keeps s s.
Proof.
  split; [done|done|done|done|apply status_fixed_refl
         |apply log_fixed_refl|done].
Qed.

Lemma run_keeps_trans (s0 s1 s2 : trainer.tstate) :
  run_keeps s0 s1 → run_keeps s1 s2 → run_keeps s0 s2.
Proof.
  intros [H1 H2 H3 H4 H5 H6 H7] [G1 G2 G3 G4 G5 G6 G7].
  split; [congruence|auto| |auto| | |auto].
  - intros j Hj. by rewrite G3, H3.
  - by eapply status_fixed_trans.
  - by eapply log_fixed_trans.
Qed.

Lemma fmax_ge (a b : float) : (a <= fmax a b)%Q.
Proof.
  unfold fmax. destruct (fgt b a) eqn:Hgt; [|apply Qle_refl].
  apply fgt_true in Hgt. by apply Qlt_le_weak.
Qed.

Lemma record_epoch_fixed (log log' : Log.t) (f : nat) (epoch : Z)
    (loss dice : float) :
  version_manager.record_epoch log f epoch loss dice = Ok log' →
  log_fixed log log'.
Proof.
  unfold version_manager.record_epoch.
  destruct (Log.folds log !! f); [|done]. intros [= <-].
  unfold log_fixed. by repeat split.
Qed.

Lemma set_fold_split_info_fixed (log log' : Log.t) (f tc vc : nat) :
  version_manager.set_fold_split_info log f tc vc = Ok log' →
  log_fixed log log'.
Proof.
  unfold version_manager.set_fold_split_info.
  destruct (Log.folds log !! f); [|done]. intros [= <-].
  unfold log_fixed. by repeat split.
Qed.

Section OneFold.
Variables (env : environment) (f : nat) (offset : Z).
Hypothesis Hf : f < N_FOLDS.

Local Abbreviation loop :=
  (trainer.epoch_loop env f (Z.of_nat f) offset
     (Some main.update_training_status) (Some training_cancel_event)
     (Some trainer.epoch_log_cb)).

Lemma at_check_keeps (epoch : Z) (l : trainer.locals) (w : world) :
  run_keeps (l, w) (l, at_check env f epoch w).
Proof.
  unfold at_check. destruct (cancel_arrives env f epoch);
    [|apply run_keeps_refl].
  split; [done|done|done|done|apply status_fixed_refl
         |apply log_fixed_refl|done].
Qed.

Lemma epoch_step_keeps (epoch global_epoch : Z) (out : EpochOutcome)
    (log : Log.t) (l : trainer.locals) (w : world) (save : bool) :
  version_manager.record_epoch (trainer.version_log l) f epoch
    (avg_loss out) (mean_dice out) = Ok log →
  run_keeps (l, w)
    (trainer.set_version_log log l,
     if save then
       set_current_folds <[Z.of_nat f := saved f epoch out]>
         (after_status f global_epoch out w)
     else after_status f global_epoch out w).
Proof.
  intros Hrec.
  assert (status_fixed (training_status w)
            (training_status (after_status f global_epoch out w))) as Hst.
  { unfold after_status, main.update_training_status, modify,
      status_fixed. simpl. repeat split; try done. apply fmax_ge. }
  split.
  - by destruct save.
  - intros j Hj. destruct save; [|done]. simpl.
    destruct (decide (j = Z.of_nat f)) as [->|Hne].
    + rewrite lookup_insert_eq. eauto.
    + by rewrite lookup_insert_ne.
  - intros j Hj. destruct save; [|done]. simpl.
    rewrite lookup_insert_ne; [done|]. lia.
  - by destruct save.
  - by destruct save.
  - cbn [fst trainer.version_log trainer.set_version_log].
    by eapply record_epoch_fixed.
  - cbn [fst trainer.version_log trainer.set_version_log].
    by eapply record_epoch_log_ok.
Qed.

Lemma epoch_loop_keeps (epochs : list Z) (best : float)
    (l : trainer.locals) (w : world) :
  run_keeps (l, w) (loop epochs best (l, w)).2.
Proof.
  revert best l w. induction epochs as [|epoch rest IH]; intros best l w.
  - apply run_keeps_refl.
  - rewrite epoch_loop_cons. cbv zeta.
    pose proof (at_check_keeps epoch l w) as Hcheck.
    destruct (training_cancel_event (at_check env f epoch w)); [done|].
    destruct (run_epoch env f epoch) as [out|]; [|done].
    destruct (version_manager.record_epoch _ _ _ _ _) as [log|e] eqn:Hrec;
      [|done].
    pose proof (λ save, epoch_step_keeps epoch (offset + epoch) out log l
                          (at_check env f epoch w) save Hrec) as Hstep.
    destruct (fgt (mean_dice out) best).
    + eapply run_keeps_trans; [exact Hcheck|].
      eapply run_keeps_trans; [exact (Hstep true)|]. apply IH.
    + eapply run_keeps_trans; [exact Hcheck|].
      eapply run_keeps_trans; [exact (Hstep false)|]. apply IH.
Qed.
End OneFold.
End Keeps.

(** ** The loop over the folds, once more *)

Section FoldLoopKeeps.
Import config.
Variables (env : environment) (max_epochs : Z).
Variables (folds : list (list training_pair)).
Hypothesis Hfolds : length folds = N_FOLDS.

Local Abbreviation body :=
  (trainer.fold_body env max_epochs (Some main.update_training_status)
     (Some training_cancel_event) folds).

(** One turn of the loop over the folds, step by step. *)
Lemma fold_body_unfold (k : nat) (l : trainer.locals) (w : world) :
  k < N_FOLDS →
  length (Log.folds (trainer.version_log l)) = N_FOLDS →
  ∃ tp val log,
    folds !! k = Some val
    ∧ trainer.other_folds folds k (seq 0 N_FOLDS) = Ok tp
    ∧ version_manager.set_fold_split_info (trainer.version_log l) k
        (length tp) (length val) = Ok log
    ∧ body k (l, w)
      = let l1 := trainer.set_version_log log l in
        if setup_raises env k then (Raise RuntimeError, (l1, w))
        else
          match trainer.epoch_loop env k (Z.of_nat k)
                  (Z.of_nat k * max_epochs)
                  (Some main.update_training_status)
                  (Some training_cancel_event)
                  (Some trainer.epoch_log_cb)
                  (trainer.epoch_range max_epochs) 0%Q (l1, w) with
          | (Ok d, s2) => (Ok tt, (trainer.note_fold k d (fst s2), snd s2))
          | (Raise e, s2) => (Raise e, s2)
          end.
Proof.
  intros Hk Hlen.
  destruct (lookup_lt_is_Some_2 folds k) as [val Hval]; [lia|].
  destruct (other_folds_ok folds k (seq 0 N_FOLDS)) as [tp Htp].
  { intros j Hj%elem_of_seq. lia. }
  destruct (lookup_lt_is_Some_2 (Log.folds (trainer.version_log l)) k)
    as [e He]; [lia|].
  eexists tp, val, _. split; [done|]. split; [done|].
  split; [by unfold version_manager.set_fold_split_info; rewrite He|].
  unfold trainer.fold_body.
  erewrite bind_ok; [|by unfold of_result, trainer.index; rewrite Hval].
  erewrite bind_ok; [|by unfold of_result; rewrite Htp].
  rewrite bind_gets. cbn [fst snd].
  erewrite bind_ok;
    [|by unfold of_result, version_manager.set_fold_split_info;
         rewrite He].
  rewrite bind_modify. cbn [fst snd].
  unfold trainer._train_single_fold.
  destruct (setup_raises env k); [done|].
  unfold mbind, M_bind.
  destruct (trainer.epoch_loop _ _ _ _ _ _ _ _ _ _) as [[d|e'] [l2 w2]];
    done.
Qed.

Lemma fold_body_keeps (k : nat) (s : trainer.tstate) :
  k < N_FOLDS →
  length (Log.folds (trainer.version_log (fst s))) = N_FOLDS →
  run_keeps s (body k s).2.
Proof.
  intros Hk Hlen. destruct s as [l w]. cbn [fst] in Hlen.
  destruct (fold_body_unfold k l w Hk Hlen)
    as (tp & val & log & _ & _ & Hsplit & ->). cbv zeta.
  assert (run_keeps (l, w) (trainer.set_version_log log l, w)) as Hstart.
  { split; [done|done|done|done|apply status_fixed_refl| |].
    - by eapply set_fold_split_info_fixed.
    - by eapply set_fold_split_info_log_ok. }
  destruct (setup_raises env k); [done|].
  pose proof (epoch_loop_keeps env k (Z.of_nat k * max_epochs) Hk
                (trainer.epoch_range max_epochs) 0%Q
                (trainer.set_version_log log l) w) as Hloop.
  destruct (trainer.epoch_loop _ _ _ _ _ _ _ _ _ _) as [[d|e'] [l2 w2]].
  - eapply run_keeps_trans; [exact Hstart|].
    eapply run_keeps_trans; [exact Hloop|].
    split; [done|done|done|done|apply status_fixed_refl
           |apply log_fixed_refl|done].
  - by eapply run_keeps_trans.
Qed.

Lemma fold_loop_keeps (n k : nat) (s : trainer.tstate) :
  k + n = N_FOLDS →
  log_ok (trainer.version_log (fst s)) →
  run_keeps s (for_each (seq k n) body s).2.
Proof.
  revert k s. induction n as [|n IH]; intros k s Hkn Hok.
  - apply run_keeps_refl.
  - cbn [seq for_each].
    pose proof (fold_body_keeps k s ltac:(lia) (proj1 Hok)) as Hbody.
    unfold mbind, M_bind.
    destruct (body k s) as [[[]|e] s']; cbn [snd] in *; [|done].
    eapply run_keeps_trans; [exact Hbody|].
    apply IH; [lia|]. by apply (rk_log_ok _ _ Hbody).
Qed.
End FoldLoopKeeps.

(** ** A whole run, step by step *)

Section RunUnfold.
Import config.
Variables (env : environment) (max_epochs : Z).

Lemma initial_log_ok (version : string)
    (training_pairs : list training_pair) (w : world) :
  log_ok (initial_log env version training_pairs max_epochs w).
Proof.
  split; [by vm_compute|].
  intros j e. cbn [Log.folds initial_log].
  intros Hj. apply list_lookup_fmap_Some in Hj as (i & -> & Hi).
  apply lookup_seq in Hi as [-> _]. split; [done|]. by left.
Qed.

(** A run of the server, from the loop over the folds on: the loop ends
    in a state that keeps what [run_keeps] tells, in which the results
    block can be built, and the run ends as [run_end] tells. *)
Lemma server_run_unfold (training_pairs : list training_pair)
    (w : world) :
  MIN_IMAGES_FOR_TRAINING ≤ length training_pairs →
  let version := version_manager.next_version (versions w) in
  let l0 := initial_locals
              (initial_log env version training_pairs max_epochs w) in
  ∃ folds r l2 w2 res,
    trainer._make_folds (shuffle env training_pairs) N_FOLDS = Ok folds
    ∧ dealt N_FOLDS (shuffle env training_pairs) folds
    ∧ for_each (seq 0 N_FOLDS)
        (trainer.fold_body env max_epochs
           (Some main.update_training_status)
           (Some training_cancel_event) folds) (l0, tick w)
      = (r, (l2, w2))
    ∧ run_keeps (l0, tick w) (l2, w2)
    ∧ match r with
      | Ok _ => run_inv (tick w) N_FOLDS (l2, w2)
      | Raise e => run_stopped max_epochs (tick w) e (l2, w2)
      end
    ∧ version_manager.results_block (trainer.fold_dices l2)
        (match r with
         | Ok _ => trainer.best_fold_idx l2
         | Raise _ => Z.max (trainer.best_fold_idx l2) 0
         end) = Ok res
    ∧ server_run env training_pairs max_epochs w
      = run_end env version r l2 w2 res.
Proof.
  intros Hmin. cbv zeta.
  set (version := version_manager.next_version (versions w)).
  set (log0 := initial_log env version training_pairs max_epochs w).
  destruct (make_folds_dealt (shuffle env training_pairs) N_FOLDS)
    as (folds & Hfolds & Hd); [unfold N_FOLDS; lia|].
  pose proof (dealt_length _ _ _ Hd) as Hlen.
  assert (run_inv (tick w) 0 (initial_locals log0, tick w)) as Hinv0
    by by apply run_inv_start.
  pose proof (fold_loop_spec env max_epochs folds Hlen (tick w) N_FOLDS 0
                (initial_locals log0, tick w) eq_refl Hinv0) as Hloop.
  pose proof (fold_loop_keeps env max_epochs folds Hlen N_FOLDS 0
                (initial_locals log0, tick w) eq_refl
                (initial_log_ok _ _ _)) as Hkeeps.
  destruct (for_each (seq 0 N_FOLDS)
              (trainer.fold_body env max_epochs
                 (Some main.update_training_status)
                 (Some training_cancel_event) folds)
              (initial_locals log0, tick w))
    as [r [l w2]] eqn:Hrun; cbn [fst snd] in Hloop, Hkeeps.
  assert (versions w2 !! version = None) as Hfresh.
  { pose proof (untouched_versions _ _ (rk_untouched _ _ Hkeeps)) as Hv.
    simpl in Hv. rewrite Hv. apply next_version_fresh. }
  assert (server_run env training_pairs max_epochs w
          = let '(r', (l', w')) :=
              try_except
                (trainer.try_block env max_epochs
                   (Some main.update_training_status)
                   (Some training_cancel_event) version folds)
                (trainer.handlers env version)
                (initial_locals log0, tick w) in
            (r', Some l', w')) as ->.
  { unfold server_run, trainer.train_model_locals.
    rewrite decide_False by lia. cbv zeta.
    unfold version_manager.get_next_version. rewrite bind_gets.
    unfold version_manager.create_version_log.
    unfold datetime_now at 1. unfold mbind at 1 2, M_bind at 1 2.
    unfold of_result. rewrite Hfolds. reflexivity. }
  unfold try_except, trainer.try_block.
  destruct r as [[]|e].
  - destruct (results_block_ok l false (ri_best _ _ _ Hloop))
      as (res & Hres & _).
    { intros _ Hnil. pose proof (ri_dices _ _ _ Hloop) as Hdl.
      simpl in Hdl. rewrite Hnil in Hdl. done. }
    exists folds, (Ok tt), l, w2, res.
    split; [done|]. split; [done|]. split; [done|]. split; [done|].
    split; [done|]. split; [done|].
    erewrite bind_ok; [|exact Hrun].
    rewrite bind_gets. cbn [fst snd].
    unfold trainer.lift_world at 1. unfold mbind at 1, M_bind at 1.
    cbn [fst snd modify].
    unfold trainer.lift_world at 1. unfold mbind at 1, M_bind at 1.
    unfold inference.reload_model. cbn [fst snd modify].
    rewrite bind_gets. cbn [fst snd].
    fold (promote (trainer.best_fold_idx l) w2).
    assert (versions (set_inference [] false
                        (promote (trainer.best_fold_idx l) w2))
              !! version = None) as Hfresh4.
    { unfold promote.
      by destruct (current_folds w2 !! trainer.best_fold_idx l). }
    erewrite bind_ok; [|by apply finalize_eq with (res := res)].
    reflexivity.
  - destruct (results_block_ok l true (rs_best _ _ _ _ Hloop))
      as (res & Hres & _); [done|].
    exists folds, (Raise e), l, w2, res.
    split; [done|]. split; [done|]. split; [done|]. split; [done|].
    split; [done|]. split; [done|].
    erewrite bind_raise; [|exact Hrun].
    destruct (rs_exn _ _ _ _ Hloop) as [->| ->].
    + unfold trainer.handlers.
      erewrite bind_ok; [|by apply finalize_eq with (res := res)].
      reflexivity.
    + unfold trainer.handlers.
      erewrite bind_ok; [|by apply finalize_eq with (res := res)].
      reflexivity.
Qed.
End RunUnfold.

(** ** What a run archives *)

Section RunEffects.
Import config.
Variables (env : environment) (max_epochs : Z).

Lemma restore_ended_world (version : string) (log : Log.t) (w : world) :
  version_manager.restore_version version (ended_world version log w)
  = (Ok tt, set_inference [] false (ended_world version log w)).
Proof.
  rewrite (restore_version_eq _ (finalized_dir w log));
    [|by unfold ended_world; simpl; rewrite lookup_insert_eq].
  f_equal. destruct w as [da vs cf b ms ml st ce bt t].
  unfold restored_world, ended_world, finalized_dir, tick, set_versions,
    set_inference, set_best_pt, set_current_folds.
  cbn [data versions current_folds best_pt _models _models_loaded
       training_status training_cancel_event background_tasks ticks
       vd_folds vd_best].
  rewrite copy_files_back. by destruct b.
Qed.

Lemma next_version_after_insert (vs : gmap string Entry) (e : Entry) :
  number_of (version_manager.next_version
               (<[version_manager.next_version vs := e]> vs))
  = (number_of (version_manager.next_version vs) + 1)%N.
Proof.
  rewrite (number_of_next_version (<[_ := _]> _)). f_equal.
  apply (max_default_largest _ (version_manager.next_version vs)).
  - rewrite lookup_insert_eq. eauto.
  - unfold number_of, version_manager.next_version.
    by rewrite version_number_format.
  - intros name' m' Hin Hm'.
    destruct (decide (name' = version_manager.next_version vs)) as [->|Hne].
    + unfold number_of. rewrite Hm'. done.
    + rewrite lookup_insert_ne in Hin by done.
      rewrite number_of_next_version.
      pose proof (existing_number_le vs name' m' Hin Hm'). lia.
Qed.

Lemma promote_keeps (best : Z) (w : world) :
  current_folds (promote best w) = current_folds w
  ∧ versions (promote best w) = versions w
  ∧ data (promote best w) = data w
  ∧ background_tasks (promote best w) = background_tasks w
  ∧ training_cancel_event (promote best w) = training_cancel_event w
  ∧ training_status (promote best w) = training_status w
  ∧ ticks (promote best w) = ticks w
  ∧ (is_Some (best_pt w) → is_Some (best_pt (promote best w))).
Proof.
  unfold promote. destruct (current_folds w !! best); simpl;
    repeat split; eauto.
Qed.

(** X21. A run of the server deletes nothing: every file of the current
    slot is still there when it ends (rewritten or not), and so is the
    promoted file; no file of the slot other than the five fold files
    and the promoted file is written; the archived versions and the
    data store are as before, no task is queued, and a cancel request
    that was pending is still pending. *)
Theorem run_deletes_nothing (training_pairs : list training_pair)
    (w : world) :
  MIN_IMAGES_FOR_TRAINING ≤ length training_pairs →
  ∃ r l w',
    server_run env training_pairs max_epochs w = (r, Some l, w')
    ∧ (∀ j, is_Some (current_folds w !! j) →
            is_Some (current_folds w' !! j))
    ∧ (∀ j, ¬ (0 ≤ j < Z.of_nat N_FOLDS)%Z →
            current_folds w' !! j = current_folds w !! j)
    ∧ (is_Some (best_pt w) → is_Some (best_pt w'))
    ∧ (∀ name, name ≠ version_manager.next_version (versions w) →
               versions w' !! name = versions w !! name)
    ∧ data w' = data w
    ∧ background_tasks w' = background_tasks w
    ∧ (training_cancel_event w = true → training_cancel_event w' = true).
Proof.
  intros Hmin.
  destruct (server_run_unfold env max_epochs training_pairs w Hmin)
    as (folds & r & l2 & w2 & res & _ & _ & _ & Hk & _ & _ & ->).
  destruct Hk as [Hu Hfiles Hout Hflag _ _ _]. cbn [fst snd] in *.
  unfold untouched in Hu. cbn [tick data versions best_pt _models
    _models_loaded background_tasks ticks] in Hu.
  injection Hu as Hdata Hvers Hbest Hms Hml Hbt Hticks.
  destruct r as [[]|e]; cbn [run_end]; cbv zeta.
  - destruct (promote_keeps (trainer.best_fold_idx l2) w2)
      as (Pcf & Pv & Pd & Pbt & Pce & _ & _ & Pbest).
    eexists _, _, _. split; [reflexivity|].
    unfold ended_world.
    cbn [tick set_versions set_inference data versions current_folds
         best_pt background_tasks training_cancel_event].
    rewrite Pcf, Pv, Pd, Pbt, Pce.
    split; [exact Hfiles|]. split; [exact Hout|].
    split; [intros Hb; apply Pbest; by rewrite Hbest|].
    split; [intros name Hne; by rewrite lookup_insert_ne, Hvers|].
    split; [done|]. split; [done|]. exact Hflag.
  - eexists _, _, _. split; [reflexivity|].
    unfold ended_world.
    cbn [tick set_versions data versions current_folds
         best_pt background_tasks training_cancel_event].
    split; [exact Hfiles|]. split; [exact Hout|].
    split; [by rewrite Hbest|].
    split; [intros name Hne; by rewrite lookup_insert_ne, Hvers|].
    split; [done|]. split; [done|]. exact Hflag.
Qed.

(** X22. Whatever its outcome, a run of the server archives the current
    slot as it leaves it: the directory of the new version holds the
    record and a copy of the promoted file and of each of the five fold
    files the slot holds when the run ends, files of earlier runs
    included, and nothing else. Restoring that version right away
    changes no file. The next run will get the next number. *)
Theorem run_archives_slot (training_pairs : list training_pair)
    (w : world) :
  MIN_IMAGES_FOR_TRAINING ≤ length training_pairs →
  let version := version_manager.next_version (versions w) in
  ∃ r l w' d,
    server_run env training_pairs max_epochs w = (r, Some l, w')
    ∧ versions w !! version = None
    ∧ versions w' !! version = Some (Dir d)
    ∧ vd_log d = Some (Doc (trainer.version_log l))
    ∧ vd_best d = best_pt w'
    ∧ (∀ j, vd_folds d !! j
            = if decide (0 ≤ j < Z.of_nat N_FOLDS)%Z
              then current_folds w' !! j else None)
    ∧ version_manager.restore_version version w'
      = (Ok tt, set_inference [] false w')
    ∧ number_of (version_manager.next_version (versions w'))
      = (number_of version + 1)%N.
Proof.
  intros Hmin. cbv zeta.
  destruct (server_run_unfold env max_epochs training_pairs w Hmin)
    as (folds & r & l2 & w2 & res & _ & _ & _ & Hk & _ & _ & ->).
  pose proof (untouched_versions _ _ (rk_untouched _ _ Hk)) as Hvers.
  cbn [fst snd tick versions] in Hvers.
  assert (∀ log wx, versions wx = versions w →
            versions w !! version_manager.next_version (versions w) = None
            ∧ versions (ended_world
                          (version_manager.next_version (versions w))
                          log wx)
                !! version_manager.next_version (versions w)
              = Some (Dir (finalized_dir wx log))
            ∧ vd_log (finalized_dir wx log) = Some (Doc log)
            ∧ vd_best (finalized_dir wx log)
              = best_pt (ended_world
                           (version_manager.next_version (versions w))
                           log wx)
            ∧ (∀ j, vd_folds (finalized_dir wx log) !! j
                    = if decide (0 ≤ j < Z.of_nat N_FOLDS)%Z
                      then current_folds
                             (ended_world
                                (version_manager.next_version (versions w))
                                log wx) !! j
                      else None)
            ∧ version_manager.restore_version
                (version_manager.next_version (versions w))
                (ended_world (version_manager.next_version (versions w))
                   log wx)
              = (Ok tt,
                 set_inference [] false
                   (ended_world
                      (version_manager.next_version (versions w)) log wx))
            ∧ number_of
                (version_manager.next_version
                   (versions
                      (ended_world
                         (version_manager.next_version (versions w))
                         log wx)))
              = (number_of (version_manager.next_version (versions w))
                 + 1)%N) as Hend.
  { intros log wx Hv.
    split; [apply next_version_fresh|].
    split; [by unfold ended_world; simpl; rewrite lookup_insert_eq|].
    split; [done|]. split; [done|].
    split.
    - intros j. unfold finalized_dir, ended_world.
      cbn [vd_folds current_folds tick set_versions].
      rewrite lookup_copy_files_range, lookup_empty.
      case_decide; [|done]. by destruct (current_folds wx !! j).
    - split; [apply restore_ended_world|].
      unfold ended_world. simpl. rewrite Hv.
      apply next_version_after_insert. }
  destruct r as [[]|e]; cbn [run_end]; cbv zeta.
  - eexists _, _, _, _. split; [reflexivity|].
    apply Hend.
    destruct (promote_keeps (trainer.best_fold_idx l2) w2)
      as (_ & Pv & _). simpl. by rewrite Pv.
  - eexists _, _, _, _. split; [reflexivity|]. by apply Hend.
Qed.

(** X23. The record a run of the server writes is well formed and tells
    where it comes from: it names the version, the time the run
    started, the number of pairs the run was given and the epoch budget
    of a fold; its status is the outcome and its completion time is the
    second reading of the clock, the run reading it twice. The two other
    counts of the dataset are 0 in every record, [train_model] passing
    none. *)
Theorem run_record_well_formed (training_pairs : list training_pair)
    (w : world) :
  MIN_IMAGES_FOR_TRAINING ≤ length training_pairs →
  ∃ r l w',
    server_run env training_pairs max_epochs w = (r, Some l, w')
    ∧ log_ok (trainer.version_log l)
    ∧ Log.version (trainer.version_log l)
      = version_manager.next_version (versions w)
    ∧ Log.started_at (trainer.version_log l) = clock env (ticks w)
    ∧ Log.completed_at (trainer.version_log l)
      = Some (clock env (S (ticks w)))
    ∧ ticks w' = S (S (ticks w))
    ∧ Log.status (trainer.version_log l) = outcome_status r
    ∧ Log.dataset (trainer.version_log l)
      = {| Log.total_pairs := 0;
           Log.completed_pairs := length training_pairs;
           Log.unannotated_pairs := 0 |}
    ∧ Log.max_epochs_per_fold (Log.hyperparameters (trainer.version_log l))
      = max_epochs
    ∧ Log.n_folds (Log.hyperparameters (trainer.version_log l)) = N_FOLDS
    ∧ is_Some (Log.results (trainer.version_log l)).
Proof.
  intros Hmin.
  destruct (server_run_unfold env max_epochs training_pairs w Hmin)
    as (folds & r & l2 & w2 & res & _ & _ & _ & Hk & _ & _ & ->).
  destruct Hk as [Hu _ _ _ _ Hlog Hok]. cbn [fst snd] in *.
  specialize (Hok (initial_log_ok _ _ _ _ _)).
  unfold untouched in Hu. cbn [tick data versions best_pt _models
    _models_loaded background_tasks ticks] in Hu.
  injection Hu as _ _ _ _ _ _ Hticks.
  destruct Hlog as (Lv & Ls & _ & _ & Lh & Ld & _).
  cbn [initial_log initial_locals trainer.version_log Log.version
       Log.started_at Log.hyperparameters Log.dataset] in *.
  destruct r as [[]|e]; cbn [run_end]; cbv zeta.
  - eexists _, _, _. split; [reflexivity|].
    destruct (promote_keeps (trainer.best_fold_idx l2) w2)
      as (_ & _ & _ & _ & _ & _ & Pt & _).
    cbn [trainer.set_version_log trainer.version_log
         version_manager.finalized Log.version Log.started_at
         Log.completed_at Log.status Log.dataset Log.hyperparameters
         Log.results Log.folds].
    split; [exact Hok|]. split; [done|]. split; [done|].
    split; [simpl; by rewrite Pt, Hticks|].
    split; [unfold ended_world; simpl; by rewrite Pt, Hticks|].
    split; [done|]. split; [done|].
    split; [by rewrite Lh|]. split; [by rewrite Lh|]. eauto.
  - eexists _, _, _. split; [reflexivity|].
    cbn [trainer.set_version_log trainer.version_log
         version_manager.finalized Log.version Log.started_at
         Log.completed_at Log.status Log.dataset Log.hyperparameters
         Log.results Log.folds].
    split; [exact Hok|]. split; [done|]. split; [done|].
    split; [by rewrite Hticks|].
    split; [unfold ended_world; simpl; by rewrite Hticks|].
    split; [done|]. split; [done|].
    split; [by rewrite Lh|]. split; [by rewrite Lh|]. eauto.
Qed.
End RunEffects.

(** ** Runs that train nothing *)

Section Scenarios.
Import config.
Variables (env : environment) (max_epochs : Z).

Lemma epoch_range_nonpos : (max_epochs ≤ 0)%Z →
  trainer.epoch_range max_epochs = [].
Proof.
  intros Hle. unfold trainer.epoch_range.
  by replace (Z.to_nat max_epochs) with 0 by lia.
Qed.

Lemma epoch_range_pos : (0 < max_epochs)%Z →
  ∃ rest, trainer.epoch_range max_epochs = 1%Z :: rest.
Proof.
  intros Hpos. unfold trainer.epoch_range.
  destruct (Z.to_nat max_epochs) as [|n] eqn:Hn; [lia|].
  cbn [seq fmap list_fmap]. by eexists.
Qed.

Lemma split_info_epochs (log log' : Log.t) (k tc vc : nat) :
  version_manager.set_fold_split_info log k tc vc = Ok log' →
  Log.epochs <$> Log.folds log' = Log.epochs <$> Log.folds log.
Proof.
  unfold version_manager.set_fold_split_info.
  destruct (Log.folds log !! k) as [e|] eqn:He; [|done].
  intros [= <-]. cbn [version_manager.with_folds Log.folds].
  rewrite list_fmap_insert. cbn [Log.epochs].
  apply list_insert_id. by rewrite list_lookup_fmap, He.
Qed.

Lemma no_epochs_lookup (log : Log.t) :
  Forall (λ eps, eps = []) (Log.epochs <$> Log.folds log) →
  ∀ j e, Log.folds log !! j = Some e → Log.epochs e = [].
Proof.
  rewrite Forall_fmap, Forall_lookup. intros Hall j e Hj.
  apply (Hall j e Hj).
Qed.

Lemma initial_log_no_epochs (version : string)
    (training_pairs : list training_pair) (w : world) :
  Forall (λ eps, eps = [])
    (Log.epochs
       <$> Log.folds (initial_log env version training_pairs max_epochs w)).
Proof. by vm_compute; repeat constructor. Qed.

(** X24. A cancel request that is pending when the task starts stops
    the run before any training: with a positive epoch budget and the
    model of the first fold built, the run ends cancelled at the check
    of the first epoch. No epoch is recorded and no progress reported,
    no file of the current slot and no loaded model is touched; the
    version is archived all the same, its record telling [cancelled],
    no score, a mean of 0 and the best fold 0. *)
Theorem cancel_before_first_epoch (training_pairs : list training_pair)
    (w : world) :
  MIN_IMAGES_FOR_TRAINING ≤ length training_pairs →
  training_cancel_event w = true →
  (0 < max_epochs)%Z →
  setup_raises env 0 = false →
  ∃ l w',
    server_run env training_pairs max_epochs w
    = (Raise TrainingCancelled, Some l, w')
    ∧ trainer.fold_dices l = []
    ∧ (∀ j e, Log.folds (trainer.version_log l) !! j = Some e →
              Log.epochs e = [])
    ∧ Log.status (trainer.version_log l) = "cancelled"
    ∧ Log.results (trainer.version_log l)
      = Some {| Log.mean_dice := 0%Q; Log.fold_dices := [];
                Log.best_fold_idx := 0; Log.best_fold_dice := 0%Q |}
    ∧ record_of w' (version_manager.next_version (versions w))
      = Some (Doc (trainer.version_log l))
    ∧ current_folds w' = current_folds w
    ∧ best_pt w' = best_pt w
    ∧ _models w' = _models w
    ∧ _models_loaded w' = _models_loaded w
    ∧ training_status w' = training_status w
    ∧ Status.status
        (training_status
           (main.run_training_task env training_pairs max_epochs w))
      = "cancelled".
Proof.
  intros Hmin Hflag Hpos Hsetup.
  destruct (server_run_unfold env max_epochs training_pairs w Hmin)
    as (folds & r & l2 & w2 & res & _ & Hd & Hrun & _ & _ & Hres & Heq).
  pose proof (dealt_length _ _ _ Hd) as Hlen.
  set (version := version_manager.next_version (versions w)) in *.
  set (log0 := initial_log env version training_pairs max_epochs w) in *.
  destruct (fold_body_unfold env max_epochs folds Hlen 0
              (initial_locals log0) (tick w))
    as (tp & val & log & _ & _ & Hsplit & Hbody);
    [unfold N_FOLDS; lia|by vm_compute|].
  destruct epoch_range_pos as [rest Hrange]; [done|].
  assert (training_cancel_event (at_check env 0 1 (tick w)) = true)
    as Hflag1.
  { unfold at_check. by destruct (cancel_arrives env 0 1). }
  cbv zeta in Hbody.
  rewrite Hsetup, Hrange, epoch_loop_cons in Hbody. cbv zeta in Hbody.
  rewrite Hflag1 in Hbody.
  change (seq 0 N_FOLDS) with (0 :: seq 1 4) in Hrun.
  cbn [for_each] in Hrun.
  erewrite bind_raise in Hrun by exact Hbody.
  injection Hrun as <- <- <-.
  injection Hres as <-.
  assert (server_run env training_pairs max_epochs w
          = run_end env version (Raise TrainingCancelled)
              (trainer.set_version_log log (initial_locals log0))
              (at_check env 0 1 (tick w))
              {| Log.mean_dice := round6 0%Q; Log.fold_dices := [];
                 Log.best_fold_idx := Z.max (-1) 0;
                 Log.best_fold_dice := 0%Q |})
    as Hrun by exact Heq.
  assert (round6 0%Q = 0%Q) as Hround by by vm_compute.
  rewrite Hround in Hrun. change (Z.max (-1) 0) with 0%Z in Hrun.
  destruct (run_training_task_status env max_epochs _ _ _ _ _ Hrun)
    as (Hst & _).
  cbn [run_end] in Hrun. cbv zeta in Hrun.
  eexists _, _. split; [exact Hrun|].
  destruct (at_check_untouched env 0 1 (tick w)) as [Hu Hcf].
  unfold untouched in Hu. injection Hu as _ _ Hb Hms Hml _ _.
  assert (training_status (at_check env 0 1 (tick w)) = training_status w)
    as Hts.
  { unfold at_check. by destruct (cancel_arrives env 0 1). }
  split; [done|]. split.
  { apply no_epochs_lookup.
    cbn [trainer.set_version_log trainer.version_log
         version_manager.finalized Log.folds].
    rewrite (split_info_epochs _ _ _ _ _ Hsplit).
    apply initial_log_no_epochs. }
  split; [done|]. split; [done|].
  split; [apply record_of_ended|].
  unfold ended_world. cbn [tick set_versions current_folds best_pt
    _models _models_loaded training_status].
  repeat split; first [done|exact Hst].
Qed.

Lemma zero_budget_loop (folds : list (list training_pair)) (n k : nat)
    (l : trainer.locals) (w1 : world) :
  length folds = N_FOLDS →
  (max_epochs ≤ 0)%Z →
  (∀ j, j < N_FOLDS → setup_raises env j = false) →
  k + n = N_FOLDS →
  length (Log.folds (trainer.version_log l)) = N_FOLDS →
  Forall (λ eps, eps = []) (Log.epochs <$> Log.folds (trainer.version_log l)) →
  trainer.fold_dices l = replicate k 0%Q →
  trainer.best_fold_idx l = (-1)%Z →
  trainer.best_fold_dice l = 0%Q →
  ∃ l',
    for_each (seq k n)
      (trainer.fold_body env max_epochs (Some main.update_training_status)
         (Some training_cancel_event) folds) (l, w1)
    = (Ok tt, (l', w1))
    ∧ Forall (λ eps, eps = [])
        (Log.epochs <$> Log.folds (trainer.version_log l'))
    ∧ trainer.fold_dices l' = replicate N_FOLDS 0%Q
    ∧ trainer.best_fold_idx l' = (-1)%Z.
Proof.
  intros Hlen Hle Hsetup. revert k l.
  induction n as [|n IH]; intros k l Hkn Hfl Hno Hd Hbi Hbd.
  - exists l. replace k with N_FOLDS in Hd by lia. done.
  - destruct (fold_body_unfold env max_epochs folds Hlen k l w1)
      as (tp & val & log & _ & _ & Hsplit & Hbody); [lia|done|].
    cbv zeta in Hbody.
    rewrite Hsetup, epoch_range_nonpos in Hbody by (done || lia).
    cbn [trainer.epoch_loop mret M_ret fst snd] in Hbody.
    destruct (IH (S k) (trainer.note_fold k 0%Q
                          (trainer.set_version_log log l)))
      as (l' & Hrest & Hno' & Hd' & Hbi'); [lia|..].
    + cbn [trainer.note_fold trainer.set_version_log trainer.version_log].
      pose proof (f_equal length (split_info_epochs _ _ _ _ _ Hsplit))
        as Hl. rewrite !length_fmap in Hl. congruence.
    + cbn [trainer.note_fold trainer.set_version_log trainer.version_log].
      by rewrite (split_info_epochs _ _ _ _ _ Hsplit).
    + cbn [trainer.note_fold trainer.set_version_log trainer.fold_dices].
      rewrite Hd. by rewrite <-replicate_S_end.
    + cbn [trainer.note_fold trainer.set_version_log
           trainer.best_fold_idx trainer.best_fold_dice].
      rewrite Hbd. done.
    + cbn [trainer.note_fold trainer.set_version_log
           trainer.best_fold_idx trainer.best_fold_dice].
      rewrite Hbd. done.
    + exists l'. split; [|done].
      cbn [seq for_each]. erewrite bind_ok; [exact Hrest|exact Hbody].
Qed.

(** X25. A run with an epoch budget of zero or less trains nothing and
    yet completes, cancel request or not: when the model of each fold
    can be built, every fold scores 0, no fold is the best, and the
    record tells [completed] with five scores of 0, no epoch and the
    best index [-1]. The fold files of the slot are left as they are
    and no fold is promoted, but the loaded models are dropped. *)
Theorem zero_budget_run (training_pairs : list training_pair) (w : world) :
  MIN_IMAGES_FOR_TRAINING ≤ length training_pairs →
  (max_epochs ≤ 0)%Z →
  (∀ j, j < N_FOLDS → setup_raises env j = false) →
  ∃ l w',
    server_run env training_pairs max_epochs w
    = (Ok (0%Q, version_manager.next_version (versions w)), Some l, w')
    ∧ trainer.fold_dices l = replicate N_FOLDS 0%Q
    ∧ trainer.best_fold_idx l = (-1)%Z
    ∧ (∀ j e, Log.folds (trainer.version_log l) !! j = Some e →
              Log.epochs e = [])
    ∧ Log.status (trainer.version_log l) = "completed"
    ∧ Log.results (trainer.version_log l)
      = Some {| Log.mean_dice := 0%Q;
                Log.fold_dices := replicate N_FOLDS 0%Q;
                Log.best_fold_idx := (-1);
                Log.best_fold_dice := 0%Q |}
    ∧ current_folds w' = current_folds w
    ∧ best_pt w' = match current_folds w !! (-1)%Z with
                   | Some c => Some c
                   | None => best_pt w
                   end
    ∧ _models w' = [] ∧ _models_loaded w' = false
    ∧ training_status w' = training_status w
    ∧ training_cancel_event w' = training_cancel_event w.
Proof.
  intros Hmin Hle Hsetup.
  destruct (server_run_unfold env max_epochs training_pairs w Hmin)
    as (folds & r & l2 & w2 & res & _ & Hd & Hrun & _ & _ & Hres & Heq).
  pose proof (dealt_length _ _ _ Hd) as Hlen.
  set (version := version_manager.next_version (versions w)) in *.
  set (log0 := initial_log env version training_pairs max_epochs w) in *.
  destruct (zero_budget_loop folds N_FOLDS 0 (initial_locals log0) (tick w)
              Hlen Hle Hsetup eq_refl)
    as (l' & Hloop & Hno & Hdices & Hbest);
    [by vm_compute|apply initial_log_no_epochs|done|done|done|].
  rewrite Hloop in Hrun. injection Hrun as <- <- <-.
  rewrite Hdices, Hbest in Hres.
  assert (res = {| Log.mean_dice := 0%Q;
                   Log.fold_dices := replicate N_FOLDS 0%Q;
                   Log.best_fold_idx := (-1);
                   Log.best_fold_dice := 0%Q |}) as ->.
  { vm_compute in Hres. injection Hres as <-. by vm_compute. }
  rewrite Heq. cbn [run_end]. cbv zeta. rewrite Hdices, Hbest.
  assert (fmean (replicate N_FOLDS 0%Q) = 0%Q) as -> by by vm_compute.
  eexists _, _. split; [reflexivity|].
  split; [done|]. split; [done|]. split.
  { apply no_epochs_lookup. exact Hno. }
  split; [done|]. split; [done|].
  unfold ended_world, promote. cbn [tick current_folds].
  destruct (current_folds w !! (-1)%Z) as [c|]; by repeat split.
Qed.
End Scenarios.

(** ** The life of a run *)

Section Lifecycle.
Import config.
Variables (env : environment) (max_epochs : Z).

(** The status dictionary once the task of a run has ended. *)
Lemma run_training_task_after (training_pairs : list training_pair)
    (w : world) :
  MIN_IMAGES_FOR_TRAINING ≤ length training_pairs →
  let w2 := main.run_training_task env training_pairs max_epochs w in
  (Status.status (training_status w2) = "completed"
   ∨ Status.status (training_status w2) = "cancelled"
   ∨ Status.status (training_status w2) = "error")
  ∧ Status.started_at (training_status w2)
    = Status.started_at (training_status w)
  ∧ Status.max_epochs (training_status w2)
    = Status.max_epochs (training_status w)
  ∧ Status.completed_at (training_status w2)
    = Some (clock env (S (S (ticks w))))
  ∧ data w2 = data w
  ∧ background_tasks w2 = background_tasks w.
Proof.
  intros Hmin. cbv zeta.
  destruct (server_run_unfold env max_epochs training_pairs w Hmin)
    as (folds & r & l2 & w2 & res & _ & _ & _ & Hk & _ & _ & Hrun).
  destruct Hk as [Hu _ _ _ Hst _ _]. cbn [fst snd] in *.
  unfold untouched in Hu. cbn [tick data versions best_pt _models
    _models_loaded background_tasks ticks] in Hu.
  injection Hu as Hdata _ _ _ _ Hbt Hticks.
  destruct Hst as (_ & Hmax & _ & Hstart & _).
  cbn [tick training_status] in Hmax, Hstart.
  unfold main.run_training_task, trainer.train_model.
  unfold server_run in Hrun. rewrite Hrun.
  destruct r as [[]|e]; cbn [run_end]; cbv zeta.
  - destruct (promote_keeps (trainer.best_fold_idx l2) w2)
      as (_ & _ & Pd & Pbt & _ & Pts & Pt & _).
    unfold ended_world.
    cbn [tick set_versions set_inference set_training_status data
         training_status background_tasks ticks main.status_on_end
         Status.status Status.started_at Status.max_epochs
         Status.completed_at].
    rewrite Pd, Pbt, Pts, Pt, Hticks. split; [by left|]. done.
  - unfold ended_world.
    cbn [tick set_versions set_training_status data
         training_status background_tasks ticks main.status_on_end
         Status.status Status.started_at Status.max_epochs
         Status.completed_at].
    rewrite Hticks. split; [|done].
    right. destruct e; auto.
Qed.

(** X26. The life of a run. A start request that is accepted marks the
    status as running, clears the cancel flag and queues one task with
    the pairs of that moment. Until the task has run, a second start
    and a restore are refused with the status 409 and change nothing,
    and a cancel request is accepted and only sets the flag. When the
    task has run, with or without a cancel request, the status is
    completed, cancelled or error, with the start time of the request
    and a completion time; the data store is as it was; a cancel
    request is refused with 409, and a new start is accepted. *)
Theorem training_lifecycle (w : world) (version : string) :
  let pairs := data_manager.get_all_training_pairs (data w) in
  MIN_IMAGES_FOR_TRAINING ≤ length pairs →
  Status.status (training_status w) ≠ "running" →
  ∃ w1,
    main.start_training env max_epochs w
    = (main.started max_epochs (length pairs), w1)
    ∧ Status.status (training_status w1) = "running"
    ∧ training_cancel_event w1 = false
    ∧ background_tasks w1
      = background_tasks w ++ [run_training_task_with pairs max_epochs]
    ∧ (∀ env' max_epochs',
         main.start_training env' max_epochs' w1
         = (main.JSONResponse 409 (main.message "training already running"),
            w1))
    ∧ main.restore_model_version version w1
      = (main.JSONResponse 409
           (main.message "training in progress, wait for completion"), w1)
    ∧ main.cancel_training w1
      = (main.cancelling, set_training_cancel_event true w1)
    ∧ ∀ w1', w1' = w1 ∨ w1' = set_training_cancel_event true w1 →
        let w2 := main.run_task env
                    (run_training_task_with pairs max_epochs) w1' in
        (Status.status (training_status w2) = "completed"
         ∨ Status.status (training_status w2) = "cancelled"
         ∨ Status.status (training_status w2) = "error")
        ∧ Status.started_at (training_status w2)
          = Some (clock env (ticks w))
        ∧ is_Some (Status.completed_at (training_status w2))
        ∧ data w2 = data w
        ∧ main.cancel_training w2
          = (main.JSONResponse 409
               (main.message "training is not running"), w2)
        ∧ ∃ w3, main.start_training env max_epochs w2
                = (main.started max_epochs (length pairs), w3).
Proof.
  cbv zeta. intros Hmin Hidle.
  set (pairs := data_manager.get_all_training_pairs (data w)) in *.
  unfold main.start_training at 1. fold pairs. cbv zeta.
  rewrite decide_False by lia. rewrite decide_False by done.
  eexists. split; [reflexivity|].
  set (w1 := add_task _ _).
  assert (data w1 = data w) as Hdata1 by done.
  assert (Status.status (training_status w1) = "running") as Hrun1 by done.
  split; [done|]. split; [done|]. split; [done|].
  split; [|split; [|split]].
  - intros env' m'. unfold main.start_training. rewrite Hdata1.
    fold pairs. cbv zeta. rewrite decide_False by lia.
    by rewrite decide_True.
  - unfold main.restore_model_version. by rewrite decide_True.
  - unfold main.cancel_training. rewrite decide_False; [done|].
    intros Hne. by apply Hne.
  - intros w1' Hw1'. cbn [main.run_task].
    assert (data w1' = data w ∧ training_status w1' = training_status w1)
      as [Hdata1' Hst1'] by (by destruct Hw1' as [->| ->]).
    destruct (run_training_task_after pairs w1' Hmin)
      as (Hst & Hstart & _ & Hdone & Hdata2 & _).
    set (w2 := main.run_training_task env pairs max_epochs w1') in *.
    assert (Status.status (training_status w2) ≠ "running") as Hidle2.
    { destruct Hst as [->|[->| ->]]; discriminate. }
    split; [done|]. split; [by rewrite Hstart, Hst1'|].
    split; [rewrite Hdone; eauto|]. split; [congruence|].
    split.
    + unfold main.cancel_training. by rewrite decide_True.
    + unfold main.start_training. rewrite Hdata2, Hdata1'. fold pairs.
      cbv zeta. rewrite decide_False by lia.
      rewrite decide_False by done. by eexists.
Qed.
End Lifecycle.

Lemma run_deletes_nothing_witness :
  ∃ r l w',
    server_run steady_env example_pairs 2 unlogged_world = (r, Some l, w')
    ∧ versions w' !! "v001" = versions unlogged_world !! "v001"
    ∧ data w' = data unlogged_world.
Proof.
  destruct (run_deletes_nothing steady_env 2 example_pairs unlogged_world)
    as (r & l & w' & Hrun & _ & _ & _ & Hvers & Hdata & _).
  - vm_compute. lia.
  - exists r, l, w'. split; [exact Hrun|]. split; [|exact Hdata].
    apply Hvers. vm_compute. discriminate.
Defined.

Lemma run_archives_slot_witness :
  ∃ r l w' d,
    server_run steady_env example_pairs 2 example_world = (r, Some l, w')
    ∧ versions w' !! version_manager.next_version (versions example_world)
      = Some (Dir d)
    ∧ vd_best d = best_pt w'
    ∧ number_of (version_manager.next_version (versions w'))
      = (number_of (version_manager.next_version (versions example_world))
         + 1)%N.
Proof.
  destruct (run_archives_slot steady_env 2 example_pairs example_world)
    as (r & l & w' & d & Hrun & _ & Hdir & _ & Hbest & _ & _ & Hnext).
  - vm_compute. lia.
  - exists r, l, w', d. split; [exact Hrun|]. split; [exact Hdir|].
    split; [exact Hbest|exact Hnext].
Defined.

Lemma run_record_well_formed_witness :
  ∃ r l w',
    server_run cancelling_env example_pairs 2 example_world
    = (r, Some l, w')
    ∧ log_ok (trainer.version_log l)
    ∧ Log.completed_at (trainer.version_log l)
      = Some (clock cancelling_env (S (ticks example_world)))
    ∧ Log.status (trainer.version_log l) = outcome_status r.
Proof.
  destruct (run_record_well_formed cancelling_env 2 example_pairs
              example_world)
    as (r & l & w' & Hrun & Hok & _ & _ & Hdone & _ & Hstatus & _).
  - vm_compute. lia.
  - exists r, l, w'. split; [exact Hrun|]. split; [exact Hok|].
    split; [exact Hdone|exact Hstatus].
Defined.

Lemma cancel_before_first_epoch_witness :
  ∃ l w',
    server_run steady_env example_pairs 2 cancel_pending_world
    = (Raise TrainingCancelled, Some l, w')
    ∧ trainer.fold_dices l = []
    ∧ Log.status (trainer.version_log l) = "cancelled"
    ∧ current_folds w' = current_folds cancel_pending_world.
Proof.
  destruct (cancel_before_first_epoch steady_env 2 example_pairs
              cancel_pending_world)
    as (l & w' & Hrun & Hdices & _ & Hstatus & _ & _ & Hfiles & _).
  - vm_compute. lia.
  - vm_compute. reflexivity.
  - lia.
  - vm_compute. reflexivity.
  - exists l, w'. split; [exact Hrun|]. split; [exact Hdices|].
    split; [exact Hstatus|exact Hfiles].
Defined.

Lemma zero_budget_run_witness :
  ∃ l w',
    server_run steady_env example_pairs 0 cancel_pending_world
    = (Ok (0%Q, version_manager.next_version
                  (versions cancel_pending_world)), Some l, w')
    ∧ trainer.best_fold_idx l = (-1)%Z
    ∧ Log.status (trainer.version_log l) = "completed"
    ∧ _models_loaded w' = false.
Proof.
  destruct (zero_budget_run steady_env 0 example_pairs cancel_pending_world)
    as (l & w' & Hrun & _ & Hbest & _ & Hstatus & _ & _ & _ & _ & Hloaded
        & _).
  - vm_compute. lia.
  - lia.
  - intros j _. reflexivity.
  - exists l, w'. split; [exact Hrun|]. split; [exact Hbest|].
    split; [exact Hstatus|exact Hloaded].
Defined.

Lemma training_lifecycle_witness :
  ∃ w1,
    main.start_training steady_env 2 example_world
    = (main.started 2
         (length (data_manager.get_all_training_pairs (data example_world))),
       w1)
    ∧ main.cancel_training w1
      = (main.cancelling, set_training_cancel_event true w1)
    ∧ main.restore_model_version "v001" w1
      = (main.JSONResponse 409
           (main.message "training in progress, wait for completion"), w1).
Proof.
  destruct (training_lifecycle steady_env 2 example_world "v001")
    as (w1 & Hstart & _ & _ & _ & _ & Hrestore & Hcancel & _).
  - vm_compute. lia.
  - vm_compute. discriminate.
  - exists w1. split; [exact Hstart|]. split; [exact Hcancel|exact Hrestore].
Defined.


(** ** Training, then inference *)

Section TrainThenInfer.
Import config inference.
Variables (env : environment) (max_epochs : Z).

Lemma omap_seq_total {A} (f : nat → option A) (n : nat) :
  (∀ i, i < n → is_Some (f i)) →
  length (omap f (seq 0 n)) = n
  ∧ ∀ i, i < n → omap f (seq 0 n) !! i = f i.
Proof.
  intros Hall.
  assert (∀ k m, (∀ i, k ≤ i < k + m → is_Some (f i)) →
            length (omap f (seq k m)) = m
            ∧ ∀ i, i < m → omap f (seq k m) !! i = f (k + i)) as Hgen.
  { intros k m. revert k. induction m as [|m IH]; intros k Hk.
    - split; [done|]. intros i Hi. lia.
    - cbn [seq omap list_omap].
      destruct (Hk k) as [x Hx]; [lia|]. rewrite Hx.
      destruct (IH (S k)) as [Hlen Hlook]; [intros i Hi; apply Hk; lia|].
      split; [simpl; by rewrite Hlen|].
      intros [|i] Hi; simpl.
      + by rewrite Nat.add_0_r.
      + rewrite Hlook by lia. f_equal. lia. }
  destruct (Hgen 0 n) as [Hlen Hlook]; [intros i Hi; apply Hall; lia|].
  split; [done|]. intros i Hi. by rewrite Hlook.
Qed.

(** X27. Training, then inference. When a run of the server completes
    and every fold has a positive best score, the five fold files of
    the current slot are the checkpoints of this run: the file of fold
    [i] carries the index [i] and the score the run reports for that
    fold. The run has dropped the loaded models, so the next
    [run_inference] loads exactly these five, in the order of the
    folds. *)
Theorem completed_run_then_inference (ensemble : forward_pass)
    (image_path : path) (training_pairs : list training_pair)
    (w w' : world) (l : trainer.locals) (mean : float)
    (version : string) :
  MIN_IMAGES_FOR_TRAINING ≤ length training_pairs →
  server_run env training_pairs max_epochs w
  = (Ok (mean, version), Some l, w') →
  (∀ d, d ∈ trainer.fold_dices l → (0 < d)%Q) →
  length (trainer.fold_dices l) = N_FOLDS
  ∧ length (existing_folds w') = N_FOLDS
  ∧ (∀ i d, trainer.fold_dices l !! i = Some d →
       ∃ c, existing_folds w' !! i = Some c
            ∧ Checkpoint.best_dice c = d
            ∧ Checkpoint.fold_idx c = i)
  ∧ _models_loaded w' = false
  ∧ _models (run_inference ensemble image_path w').2
    = _load_single_model <$> existing_folds w'.
Proof.
  intros Hmin Hrun Hpos.
  destruct (server_run_unfold env max_epochs training_pairs w Hmin)
    as (folds & r & l2 & w2 & res & _ & _ & _ & _ & Hinv & _ & Heq).
  rewrite Heq in Hrun. destruct r as [[]|e]; [|done].
  cbn [run_end] in Hrun. cbv zeta in Hrun.
  injection Hrun as _ _ <- <-.
  cbn [trainer.set_version_log trainer.fold_dices] in *.
  destruct Hinv as [_ Hlen _ _ _ Hsaved]. cbn [fst snd] in *.
  set (w4 := set_inference [] false
               (promote (trainer.best_fold_idx l2) w2)).
  assert (∀ v log, current_folds (ended_world v log w4) = current_folds w2)
    as Hcf.
  { intros v log. unfold ended_world, w4, promote. simpl.
    by destruct (current_folds w2 !! trainer.best_fold_idx l2). }
  assert (∀ i, i < N_FOLDS →
            ∃ d c, trainer.fold_dices l2 !! i = Some d
                   ∧ current_folds w2 !! Z.of_nat i = Some c
                   ∧ Checkpoint.best_dice c = d
                   ∧ Checkpoint.fold_idx c = i) as Hall.
  { intros i Hi.
    destruct (lookup_lt_is_Some_2 (trainer.fold_dices l2) i) as [d Hd];
      [lia|].
    destruct (Hsaved i d Hd) as (c & Hc & Hbd & Hfi).
    { apply Hpos. by eapply list_elem_of_lookup_2. }
    by exists d, c. }
  destruct (omap_seq_total (λ i, current_folds w2 !! Z.of_nat i) N_FOLDS)
    as [Hlen' Hlook].
  { intros i Hi. destruct (Hall i Hi) as (d & c & _ & Hc & _). eauto. }
  split; [done|]. unfold existing_folds at 1 2. rewrite !Hcf.
  split; [done|]. split.
  - intros i d Hd. pose proof (lookup_lt_Some _ _ _ Hd) as Hi.
    destruct (Hall i) as (d' & c & Hd' & Hc & Hbd & Hfi); [lia|].
    exists c. rewrite Hlook by lia. split; [done|].
    split; [congruence|done].
  - split; [done|]. rewrite run_inference_eq.
    assert (∀ v log, _models_loaded (ended_world v log w4) = false)
      as -> by done.
    cbn [snd]. change (_models (set_inference ?ms _ _)) with ms.
    unfold ensemble_of, existing_folds. rewrite Hcf.
    destruct (omap _ _) as [|c0 rest] eqn:He; [|done].
    simpl in Hlen'. unfold N_FOLDS in Hlen'. lia.
Qed.
End TrainThenInfer.


Lemma completed_run_then_inference_witness :
  let run := server_run steady_env example_pairs 2 example_world in
  length (inference.existing_folds run.2) = config.N_FOLDS
  ∧ _models
      (inference.run_inference example_forward
         (UNANNOTATED_IMAGES_DIR, "x.png") run.2).2
    = inference._load_single_model <$> inference.existing_folds run.2.
Proof.
  destruct (server_run steady_env example_pairs 2 example_world)
    as [[r ol] w'] eqn:Hrun.
  destruct r as [[mean version]|e]; [|vm_compute in Hrun; discriminate].
  destruct ol as [l|]; [|vm_compute in Hrun; discriminate].
  destruct (completed_run_then_inference steady_env 2 example_forward
              (UNANNOTATED_IMAGES_DIR, "x.png") example_pairs
              example_world w' l mean version)
    as (_ & Hlen & _ & _ & Hmodels).
  - (vm_compute; lia).
  - exact Hrun.
  - assert (trainer.fold_dices l
            = [(1 # 10)%Q; (2 # 10)%Q; (3 # 10)%Q; (4 # 10)%Q;
               (5 # 10)%Q]) as ->.
    { vm_compute in Hrun. by injection Hrun as _ _ <- _. }
    apply Forall_forall.
    repeat (constructor; [vm_compute; reflexivity|]). constructor.
  - cbv zeta. cbn [snd]. split; [exact Hlen|exact Hmodels].
Defined.

(** ** Progress reports *)

Section Progress.
Import config.
Variables (env : environment) (max_epochs : Z).

Section OneFold.
Variables (f : nat) (offset : Z).

Local Abbreviation loop :=
  (trainer.epoch_loop env f (Z.of_nat f) offset
     (Some main.update_training_status) (Some training_cancel_event)
     (Some trainer.epoch_log_cb)).

Lemma at_check_progress (epoch : Z) (w : world) :
  progress (at_check env f epoch w) = progress w.
Proof. unfold at_check. by destruct (cancel_arrives env f epoch). Qed.

(** The epochs [a], [a + 1], ... of fold [f]: when the loop returns, the
    last epoch is the one reported; when it raises, the last epoch
    has not been reported. *)
Lemma epoch_loop_progress (n a : nat) (best : float)
    (l : trainer.locals) (w : world) :
  let epochs := (λ i, Z.of_nat i) <$> seq a n in
  match (loop epochs best (l, w)).1 with
  | Ok _ =>
      progress (loop epochs best (l, w)).2.2
      = match n with
        | 0 => progress w
        | S n' => ((offset + Z.of_nat (a + n'))%Z, f)
        end
  | Raise _ =>
      progress (loop epochs best (l, w)).2.2 = progress w
      ∨ ∃ e, a ≤ e ∧ S e < a + n
             ∧ progress (loop epochs best (l, w)).2.2
               = ((offset + Z.of_nat e)%Z, f)
  end.
Proof.
  cbv zeta. revert a best l w.
  induction n as [|n IH]; intros a best l w; [done|].
  cbn [seq fmap list_fmap]. rewrite epoch_loop_cons. cbv zeta.
  pose proof (at_check_progress (Z.of_nat a) w) as Hcheck.
  destruct (training_cancel_event (at_check env f (Z.of_nat a) w));
    [by left|].
  destruct (run_epoch env f (Z.of_nat a)) as [out|]; [|by left].
  destruct (version_manager.record_epoch _ _ _ _ _) as [log|e];
    [|by left].
  assert (∀ save : bool,
            progress (if save then
                        set_current_folds
                          <[Z.of_nat f := saved f (Z.of_nat a) out]>
                          (after_status f (offset + Z.of_nat a) out
                             (at_check env f (Z.of_nat a) w))
                      else after_status f (offset + Z.of_nat a) out
                             (at_check env f (Z.of_nat a) w))
            = ((offset + Z.of_nat a)%Z, f)) as Hstep.
  { by intros []. }
  assert (∀ s,
            progress s.2 = ((offset + Z.of_nat a)%Z, f) →
            ∀ best',
            match (loop ((λ i, Z.of_nat i) <$> seq (S a) n) best' s).1 with
            | Ok _ =>
                progress
                  (loop ((λ i, Z.of_nat i) <$> seq (S a) n) best' s).2.2
                = ((offset + Z.of_nat (a + n))%Z, f)
            | Raise _ =>
                progress
                  (loop ((λ i, Z.of_nat i) <$> seq (S a) n) best' s).2.2
                = progress w
                ∨ ∃ e, a ≤ e ∧ S e < a + S n
                       ∧ progress
                           (loop ((λ i, Z.of_nat i) <$> seq (S a) n)
                              best' s).2.2
                         = ((offset + Z.of_nat e)%Z, f)
            end) as Hrest.
  { intros [l' w'] Hp best'. cbn [snd] in Hp. destruct n as [|n'].
    - cbn [seq fmap list_fmap trainer.epoch_loop mret M_ret fst snd].
      by rewrite Hp, Nat.add_0_r.
    - specialize (IH (S a) best' l' w').
      destruct (loop _ best' (l', w')).1 as [d|e].
      + rewrite IH. do 2 f_equal. lia.
      + right. destruct IH as [IH|(e' & He1 & He2 & IH)].
        * exists a. split; [lia|]. split; [lia|]. by rewrite IH, Hp.
        * exists e'. split; [lia|]. split; [lia|done]. }
  destruct (fgt (mean_dice out) best).
  - apply Hrest. apply (Hstep true).
  - apply Hrest. apply (Hstep false).
Qed.
End OneFold.
End Progress.

Section Progress2.
Import config.
Variables (env : environment) (max_epochs : Z).
Hypothesis Hpos : (0 < max_epochs)%Z.

Section Folds.
Variables (folds : list (list training_pair)).
Hypothesis Hfolds : length folds = N_FOLDS.
Variable p0 : Z * nat.

Local Abbreviation body :=
  (trainer.fold_body env max_epochs (Some main.update_training_status)
     (Some training_cancel_event) folds).

Lemma progress_after_bound (k : nat) :
  k < N_FOLDS →
  progress_after max_epochs p0 k = p0
  ∨ (0 < (progress_after max_epochs p0 k).1
         < Z.of_nat N_FOLDS * max_epochs)%Z.
Proof.
  intros Hk. destruct k as [|k']; [by left|]. right.
  cbn [progress_after fst]. nia.
Qed.

Lemma fold_body_progress (k : nat) (l : trainer.locals) (w : world) :
  k < N_FOLDS →
  length (Log.folds (trainer.version_log l)) = N_FOLDS →
  progress w = progress_after max_epochs p0 k →
  match (body k (l, w)).1 with
  | Ok _ =>
      progress (body k (l, w)).2.2 = progress_after max_epochs p0 (S k)
  | Raise _ =>
      progress (body k (l, w)).2.2 = p0
      ∨ (0 < (progress (body k (l, w)).2.2).1
           < Z.of_nat N_FOLDS * max_epochs)%Z
  end.
Proof.
  intros Hk Hlen Hp.
  destruct (fold_body_unfold env max_epochs folds Hfolds k l w Hk Hlen)
    as (tp & val & log & _ & _ & _ & ->). cbv zeta.
  pose proof (progress_after_bound k Hk) as Hbound. rewrite <-Hp in Hbound.
  destruct (setup_raises env k); [exact Hbound|].
  pose proof (epoch_loop_progress env k (Z.of_nat k * max_epochs)
                (Z.to_nat max_epochs) 1 0%Q
                (trainer.set_version_log log l) w) as Hloop.
  cbv zeta in Hloop. fold (trainer.epoch_range max_epochs) in Hloop.
  destruct (trainer.epoch_loop _ _ _ _ _ _ _ _ _ _) as [[d|e] [l2 w2]];
    cbn [fst snd] in *.
  - rewrite Hloop.
    destruct (Z.to_nat max_epochs) as [|n'] eqn:Hn; [lia|].
    cbn [progress_after]. f_equal. lia.
  - destruct Hloop as [->|(e' & He1 & He2 & ->)]; [exact Hbound|].
    right. cbn [fst]. nia.
Qed.

Lemma fold_loop_progress (n k : nat) (s : trainer.tstate) :
  k + n = N_FOLDS →
  log_ok (trainer.version_log (fst s)) →
  progress (snd s) = progress_after max_epochs p0 k →
  match (for_each (seq k n) body s).1 with
  | Ok _ =>
      progress (for_each (seq k n) body s).2.2
      = progress_after max_epochs p0 N_FOLDS
  | Raise _ =>
      progress (for_each (seq k n) body s).2.2 = p0
      ∨ (0 < (progress (for_each (seq k n) body s).2.2).1
           < Z.of_nat N_FOLDS * max_epochs)%Z
  end.
Proof.
  revert k s. induction n as [|n IH]; intros k [l w] Hkn Hok Hp.
  - cbn [seq for_each mret M_ret fst snd] in *.
    by replace N_FOLDS with k by lia.
  - cbn [seq for_each].
    pose proof (fold_body_progress k l w ltac:(lia) (proj1 Hok) Hp)
      as Hbody.
    pose proof (fold_body_keeps env max_epochs folds Hfolds k (l, w)
                  ltac:(lia) (proj1 Hok)) as Hkeeps.
    unfold mbind, M_bind.
    destruct (body k (l, w)) as [[[]|e] s']; cbn [fst snd] in *; [|done].
    apply IH; [lia| |done]. by apply (rk_log_ok _ _ Hkeeps).
Qed.
End Folds.

(** X28. The progress a run of the server reports, for a positive
    epoch budget. The epoch shown in the status dictionary counts the
    epochs over all folds: when the run completes it is [N_FOLDS] times
    the budget, the total [start_training] announces, and the fold
    shown is the last one; when the run ends cancelled or in error it
    is still what it was before the run, or positive and below that
    total. So, for a run that [start_training] has set up, the epoch
    never exceeds the total and reaches it exactly when the run
    completes. *)
Theorem progress_report (training_pairs : list training_pair)
    (w : world) :
  MIN_IMAGES_FOR_TRAINING ≤ length training_pairs →
  ∃ r l w',
    server_run env training_pairs max_epochs w = (r, Some l, w')
    ∧ match r with
      | Ok _ =>
          progress w' = ((Z.of_nat N_FOLDS * max_epochs)%Z, N_FOLDS - 1)
      | Raise _ =>
          progress w' = progress w
          ∨ (0 < (progress w').1 < Z.of_nat N_FOLDS * max_epochs)%Z
      end
    ∧ (Status.epoch (training_status w) = 0%Z →
       Status.max_epochs (training_status w)
       = (Z.of_nat N_FOLDS * max_epochs)%Z →
       let st := training_status
                   (main.run_training_task env training_pairs max_epochs
                      w) in
       (0 ≤ Status.epoch st ≤ Status.max_epochs st)%Z
       ∧ (Status.epoch st = Status.max_epochs st
          ↔ Status.status st = "completed")).
Proof.
  intros Hmin.
  destruct (server_run_unfold env max_epochs training_pairs w Hmin)
    as (folds & r & l2 & w2 & res & _ & Hd & Hrun & Hk & _ & _ & Heq).
  pose proof (dealt_length _ _ _ Hd) as Hlen.
  pose proof (fold_loop_progress folds Hlen (progress w) N_FOLDS 0
                (initial_locals
                   (initial_log env
                      (version_manager.next_version (versions w))
                      training_pairs max_epochs w), tick w)
                eq_refl (initial_log_ok _ _ _ _ _) eq_refl) as Hprog.
  rewrite Hrun in Hprog. cbn [fst snd] in Hprog.
  destruct Hk as [_ _ _ _ Hst _ _]. cbn [fst snd] in Hst.
  destruct Hst as (_ & Hmax & _). cbn [tick training_status] in Hmax.
  assert (∀ v log wx, progress (ended_world v log wx) = progress wx)
    as Hended by done.
  assert (progress (set_inference [] false
                      (promote (trainer.best_fold_idx l2) w2))
          = progress w2) as Hpromoted.
  { unfold promote.
    by destruct (current_folds w2 !! trainer.best_fold_idx l2). }
  assert (training_status
            (main.run_training_task env training_pairs max_epochs w)
          = main.status_on_end (run_end env
                (version_manager.next_version (versions w)) r l2 w2 res).1.1
              (clock env (ticks (run_end env
                (version_manager.next_version (versions w)) r l2 w2
                res).2))
              (training_status (run_end env
                (version_manager.next_version (versions w)) r l2 w2
                res).2)) as Htask.
  { unfold main.run_training_task, trainer.train_model.
    unfold server_run in Heq. rewrite Heq.
    by destruct (run_end _ _ _ _ _ _) as [[r' l'] w']. }
  rewrite Heq. destruct r as [[]|e]; cbn [run_end] in *; cbv zeta in *.
  - eexists _, _, _. split; [reflexivity|].
    rewrite Hended, Hpromoted. split; [exact Hprog|].
    intros He0 Hm0. rewrite Htask. cbn [fst snd].
    cbn [main.status_on_end Status.epoch Status.max_epochs Status.status].
    assert (training_status (ended_world
              (version_manager.next_version (versions w))
              (version_manager.finalized (trainer.version_log l2) res
                 "completed"
                 (clock env (ticks (set_inference [] false
                    (promote (trainer.best_fold_idx l2) w2)))))
              (set_inference [] false
                 (promote (trainer.best_fold_idx l2) w2)))
            = training_status w2) as ->.
    { unfold ended_world, promote. simpl.
      by destruct (current_folds w2 !! trainer.best_fold_idx l2). }
    unfold progress in Hprog. injection Hprog as He _.
    rewrite He, Hmax, Hm0. cbn [progress_after fst].
    split; [lia|]. done.
  - eexists _, _, _. split; [reflexivity|].
    rewrite Hended. split; [exact Hprog|].
    intros He0 Hm0. rewrite Htask. cbn [fst snd].
    cbn [main.status_on_end Status.epoch Status.max_epochs Status.status].
    assert (∀ v log, training_status (ended_world v log w2)
                     = training_status w2) as -> by done.
    rewrite Hmax, Hm0.
    assert (0 ≤ Status.epoch (training_status w2)
            < Z.of_nat N_FOLDS * max_epochs)%Z as Hlt.
    { destruct Hprog as [Hsame|Hbelow].
      - unfold progress in Hsame. injection Hsame as -> _.
        rewrite He0. unfold N_FOLDS. lia.
      - unfold progress in Hbelow. cbn [fst] in Hbelow.
        split; [|apply Hbelow]. apply Z.lt_le_incl, Hbelow. }
    split; [lia|]. split; [lia|]. by destruct e.
Qed.
End Progress2.

Lemma progress_report_witness :
  ∃ r l w',
    server_run cancelling_env example_pairs 2 running_world
    = (r, Some l, w')
    ∧ match r with
      | Ok _ =>
          progress w' = ((Z.of_nat config.N_FOLDS * 2)%Z, config.N_FOLDS - 1)
      | Raise _ =>
          progress w' = progress running_world
          ∨ (0 < (progress w').1 < Z.of_nat config.N_FOLDS * 2)%Z
      end.
Proof.
  destruct (progress_report cancelling_env 2 ltac:(lia) example_pairs
              running_world) as (r & l & w' & Hrun & Hprog & _).
  - vm_compute. lia.
  - exists r, l, w'. split; [exact Hrun|exact Hprog].
Defined.

(** ** The split sizes a run records *)

Section Counts.
Import config.

Lemma sum_list_with_fmap {A B} (f : B → nat) (g : A → B) (l : list A) :
  sum_list_with f (g <$> l) = sum_list_with (f ∘ g) l.
Proof.
  induction l as [|x l IH]; [done|].
  rewrite fmap_cons. cbn [sum_list_with]. by rewrite IH.
Qed.

Lemma sum_list_with_ext_elem {A} (f g : A → nat) (l : list A) :
  (∀ x, x ∈ l → f x = g x) → sum_list_with f l = sum_list_with g l.
Proof.
  induction l as [|x l IH]; intros Hfg; simpl; [done|].
  rewrite (Hfg x) by left. rewrite IH; [done|].
  intros y Hy. apply Hfg. by right.
Qed.

Lemma length_concat_seq {A} (xss : list (list A)) :
  sum_list_with (λ j, length (default [] (xss !! j))) (seq 0 (length xss))
  = length (concat xss).
Proof.
  induction xss as [|xs xss IH]; [done|].
  cbn [length seq sum_list_with concat]. rewrite length_app. f_equal.
  rewrite <-fmap_S_seq, sum_list_with_fmap. exact IH.
Qed.

Lemma sum_list_with_except (g : nat → nat) (k : nat) (l : list nat) :
  NoDup l → k ∈ l →
  sum_list_with (λ j, if decide (j = k) then 0 else g j) l + g k
  = sum_list_with g l.
Proof.
  induction l as [|x l IH]; intros Hnd Hk; [by apply elem_of_nil in Hk|].
  apply NoDup_cons in Hnd as [Hx Hnd]. cbn [sum_list_with].
  destruct (decide (x = k)) as [->|Hne].
  - rewrite (sum_list_with_ext_elem _ g l); [lia|].
    intros y Hy. rewrite decide_False; [done|]. by intros ->.
  - apply elem_of_cons in Hk as [->|Hk]; [done|].
    specialize (IH Hnd Hk). lia.
Qed.

Lemma other_folds_length (folds : list (list training_pair)) (k : nat)
    (js : list nat) (tp : list training_pair) :
  trainer.other_folds folds k js = Ok tp →
  length tp
  = sum_list_with (λ j, if decide (j = k) then 0
                        else length (default [] (folds !! j))) js.
Proof.
  revert tp. induction js as [|j js IH]; intros tp.
  - by intros [= <-].
  - cbn [trainer.other_folds sum_list_with].
    destruct (decide (j = k)) as [->|Hne].
    + rewrite decide_False by (intros Hne; by apply Hne).
      intros Htp. by rewrite (IH tp Htp).
    + rewrite decide_True by done. unfold trainer.index.
      destruct (folds !! j) as [fj|]; [|done].
      destruct (trainer.other_folds folds k js) as [rest|e]; [|done].
      intros [= <-]. rewrite length_app, (IH rest eq_refl). done.
Qed.

Lemma split_lengths (folds : list (list training_pair)) (k : nat)
    (val tp : list training_pair) :
  folds !! k = Some val →
  trainer.other_folds folds k (seq 0 (length folds)) = Ok tp →
  length tp + length val = length (concat folds).
Proof.
  intros Hval Htp. rewrite (other_folds_length _ _ _ _ Htp).
  rewrite <-length_concat_seq.
  rewrite <-(sum_list_with_except
               (λ j, length (default [] (folds !! j))) k).
  - by rewrite Hval.
  - apply NoDup_seq.
  - apply elem_of_seq. pose proof (lookup_lt_Some _ _ _ Hval). lia.
Qed.

Lemma record_epoch_counts (log log' : Log.t) (f : nat) (epoch : Z)
    (loss dice : float) :
  version_manager.record_epoch log f epoch loss dice = Ok log' →
  split_counts log' = split_counts log.
Proof.
  unfold version_manager.record_epoch, split_counts.
  destruct (Log.folds log !! f) as [e|] eqn:He; [|done].
  intros [= <-]. cbn [version_manager.with_folds Log.folds].
  rewrite list_fmap_insert. cbn [Log.train_count Log.val_count].
  apply list_insert_id. by rewrite list_lookup_fmap, He.
Qed.

Lemma set_fold_split_info_counts (log log' : Log.t) (f tc vc : nat) :
  version_manager.set_fold_split_info log f tc vc = Ok log' →
  split_counts log' = <[f := (tc, vc)]> (split_counts log).
Proof.
  unfold version_manager.set_fold_split_info, split_counts.
  destruct (Log.folds log !! f) as [e|] eqn:He; [|done].
  intros [= <-]. cbn [version_manager.with_folds Log.folds].
  by rewrite list_fmap_insert.
Qed.

Section Loops.
Variables (env : environment) (max_epochs : Z).

Lemma epoch_loop_counts (f : nat) (offset : Z) (epochs : list Z)
    (best : float) (l : trainer.locals) (w : world) :
  split_counts
    (trainer.version_log
       (trainer.epoch_loop env f (Z.of_nat f) offset
          (Some main.update_training_status) (Some training_cancel_event)
          (Some trainer.epoch_log_cb) epochs best (l, w)).2.1)
  = split_counts (trainer.version_log l).
Proof.
  revert best l w. induction epochs as [|epoch rest IH]; intros best l w;
    [done|].
  rewrite epoch_loop_cons. cbv zeta.
  destruct (training_cancel_event (at_check env f epoch w)); [done|].
  destruct (run_epoch env f epoch) as [out|]; [|done].
  destruct (version_manager.record_epoch _ _ _ _ _) as [log|e] eqn:Hrec;
    [|done].
  destruct (fgt (mean_dice out) best); rewrite IH;
    by apply (record_epoch_counts _ _ _ _ _ _ Hrec).
Qed.

Variables (folds : list (list training_pair)).
Hypothesis Hfolds : length folds = N_FOLDS.

Local Abbreviation body :=
  (trainer.fold_body env max_epochs (Some main.update_training_status)
     (Some training_cancel_event) folds).

Lemma fold_body_counts (k : nat) (l : trainer.locals) (w : world) :
  k < N_FOLDS →
  length (Log.folds (trainer.version_log l)) = N_FOLDS →
  split_recorded folds k (trainer.version_log l) →
  split_recorded folds (S k) (trainer.version_log (body k (l, w)).2.1).
Proof.
  intros Hk Hlen Hrec.
  destruct (fold_body_unfold env max_epochs folds Hfolds k l w Hk Hlen)
    as (tp & val & log & Hval & Htp & Hsplit & ->). cbv zeta.
  rewrite <-Hfolds in Htp.
  pose proof (split_lengths folds k val tp Hval Htp) as Hsum.
  assert (split_recorded folds (S k) log) as Hrec1.
  { intros j c. rewrite (set_fold_split_info_counts _ _ _ _ _ Hsplit).
    destruct (decide (j = k)) as [->|Hne].
    - rewrite list_lookup_insert_eq
        by (unfold split_counts; rewrite length_fmap; lia).
      intros [= <-]. rewrite decide_True by lia.
      exists val. cbn [fst snd]. split; [done|]. split; [done|lia].
    - rewrite list_lookup_insert_ne by done. intros Hj.
      specialize (Hrec j c Hj). repeat case_decide; try done; lia. }
  destruct (setup_raises env k); [done|].
  pose proof (epoch_loop_counts k (Z.of_nat k * max_epochs)
                (trainer.epoch_range max_epochs) 0%Q
                (trainer.set_version_log log l) w) as Hloop.
  destruct (trainer.epoch_loop _ _ _ _ _ _ _ _ _ _) as [[d|e] [l2 w2]];
    cbn [fst snd trainer.note_fold trainer.version_log
         trainer.set_version_log] in *.
  - intros j c. rewrite Hloop. apply Hrec1.
  - intros j c. rewrite Hloop. apply Hrec1.
Qed.

Lemma fold_loop_counts (n k : nat) (s : trainer.tstate) :
  k + n = N_FOLDS →
  log_ok (trainer.version_log (fst s)) →
  split_recorded folds k (trainer.version_log (fst s)) →
  ∃ k',
    k ≤ k' ≤ N_FOLDS
    ∧ (0 < n → k < k')
    ∧ split_recorded folds k'
        (trainer.version_log (for_each (seq k n) body s).2.1)
    ∧ (∀ x, (for_each (seq k n) body s).1 = Ok x → k' = N_FOLDS).
Proof.
  revert k s. induction n as [|n IH]; intros k [l w] Hkn Hok Hrec.
  - exists k. cbn [seq for_each mret M_ret fst snd] in *.
    split; [lia|]. split; [lia|]. split; [done|]. intros _ _. lia.
  - cbn [seq for_each].
    pose proof (fold_body_counts k l w ltac:(lia) (proj1 Hok) Hrec)
      as Hbody.
    pose proof (fold_body_keeps env max_epochs folds Hfolds k (l, w)
                  ltac:(lia) (proj1 Hok)) as Hkeeps.
    unfold mbind, M_bind.
    destruct (body k (l, w)) as [[[]|e] [l' w']]; cbn [fst snd] in *.
    + destruct (IH (S k) (l', w')) as (k' & Hk' & _ & Hrec' & Hok');
        [lia|by apply (rk_log_ok _ _ Hkeeps)|done|].
      exists k'. split; [lia|]. split; [lia|]. done.
    + exists (S k). split; [lia|]. split; [lia|]. split; [done|]. done.
Qed.
End Loops.

(** X29. The split sizes in the record of a run of the server. The
    folds are started in order; a fold that was started shows as
    validation count the size of its part of the round-robin split,
    [n / N_FOLDS] or one more, and as training count the rest, the two
    adding up to the number [n] of pairs the run shuffled; a fold that
    was never started shows 0 and 0. At least the first fold is
    started, and all of them when the run completes. *)
Theorem run_records_split (env : environment) (max_epochs : Z)
    (training_pairs : list training_pair) (w : world) :
  MIN_IMAGES_FOR_TRAINING ≤ length training_pairs →
  let n := length (shuffle env training_pairs) in
  ∃ r l w' k,
    server_run env training_pairs max_epochs w = (r, Some l, w')
    ∧ 1 ≤ k ≤ N_FOLDS
    ∧ (∀ x, r = Ok x → k = N_FOLDS)
    ∧ ∀ j e, Log.folds (trainer.version_log l) !! j = Some e →
        if decide (j < k) then
          Log.val_count e = fold_size N_FOLDS n j
          ∧ Log.train_count e + Log.val_count e = n
        else Log.train_count e = 0 ∧ Log.val_count e = 0.
Proof.
  intros Hmin. cbv zeta.
  destruct (server_run_unfold env max_epochs training_pairs w Hmin)
    as (folds & r & l2 & w2 & res & _ & Hd & Hrun & _ & _ & _ & Heq).
  pose proof (dealt_length _ _ _ Hd) as Hlen.
  set (log0 := initial_log env (version_manager.next_version (versions w))
                 training_pairs max_epochs w) in *.
  assert (split_recorded folds 0 log0) as Hrec0.
  { intros j c. unfold split_counts, log0. cbn [initial_log Log.folds].
    rewrite <-list_fmap_compose. intros Hj.
    apply list_lookup_fmap_Some in Hj as (i & -> & _).
    rewrite decide_False by lia. done. }
  destruct (fold_loop_counts env max_epochs folds Hlen N_FOLDS 0
              (initial_locals log0, tick w) eq_refl
              (initial_log_ok _ _ _ _ _) Hrec0)
    as (k & Hk & Hstarted & Hrec & Hall).
  rewrite Hrun in Hrec, Hall. cbn [fst snd] in Hrec, Hall.
  assert (∀ j e, Log.folds (trainer.version_log l2) !! j = Some e →
            if decide (j < k) then
              Log.val_count e
              = fold_size N_FOLDS (length (shuffle env training_pairs)) j
              ∧ Log.train_count e + Log.val_count e
                = length (shuffle env training_pairs)
            else Log.train_count e = 0 ∧ Log.val_count e = 0) as Hlog.
  { intros j e Hj.
    specialize (Hrec j (Log.train_count e, Log.val_count e)).
    unfold split_counts in Hrec. rewrite list_lookup_fmap, Hj in Hrec.
    specialize (Hrec eq_refl). case_decide.
    - destruct Hrec as (val & Hval & Hv & Hsum). cbn [fst snd] in *.
      split.
      + rewrite Hv. apply (dealt_sizes _ _ _ Hd j val Hval).
      + rewrite Hsum. apply Permutation_length, (dealt_perm _ _ _ Hd).
    - by injection Hrec as -> ->. }
  rewrite Heq.
  destruct r as [[]|e]; cbn [run_end]; cbv zeta.
  - exists (Ok (fmean (trainer.fold_dices l2),
                version_manager.next_version (versions w))).
    eexists _, _, k. split; [reflexivity|].
    split; [unfold N_FOLDS in *; lia|]. split; [eauto|]. exact Hlog.
  - exists (Raise e). eexists _, _, k. split; [reflexivity|].
    split; [unfold N_FOLDS in *; lia|]. split; [done|]. exact Hlog.
Qed.
End Counts.

Lemma run_records_split_witness :
  ∃ r l w' k,
    server_run cancelling_env example_pairs 2 example_world
    = (r, Some l, w')
    ∧ 1 ≤ k ≤ config.N_FOLDS
    ∧ ∀ j e, Log.folds (trainer.version_log l) !! j = Some e →
        if decide (j < k) then
          Log.val_count e
          = fold_size config.N_FOLDS
              (length (shuffle cancelling_env example_pairs)) j
          ∧ Log.train_count e + Log.val_count e
            = length (shuffle cancelling_env example_pairs)
        else Log.train_count e = 0 ∧ Log.val_count e = 0.
Proof.
  destruct (run_records_split cancelling_env 2 example_pairs example_world)
    as (r & l & w' & k & Hrun & Hk & _ & Hsplit).
  - vm_compute. lia.
  - exists r, l, w', k. split; [exact Hrun|]. split; [exact Hk|exact Hsplit].
Defined.

(** ** Loaded models *)

Section LoadedModels.
Import config inference main.

Lemma ensemble_of_best (w : world) :
  is_Some (best_pt w) → ensemble_of w ≠ [].
Proof.
  intros [c Hc]. unfold ensemble_of. rewrite Hc.
  by destruct (existing_folds w).
Qed.

Lemma infer_models (ensemble : forward_pass) (image_id : string)
    (w : world) :
  (infer ensemble image_id w).2 = w
  ∨ (_models_loaded w = false ∧ is_Some (best_pt w)
     ∧ (infer ensemble image_id w).2
       = set_inference (ensemble_of w) true w).
Proof.
  unfold infer. destruct (validate_image_id image_id); [|by left].
  cbn [negb]. destruct (data_manager.get_image_path _ _) as [p|];
    [|by left].
  case_bool_decide as Hb; cbn [negb]; [|by left].
  rewrite run_inference_eq.
  destruct (_models_loaded w) eqn:Hl.
  - left. by destruct (inference_answer _ _ _) as [[?|]|?].
  - right. split; [done|]. split; [done|].
    by destruct (inference_answer _ _ _) as [[?|]|?].
Qed.

Lemma run_task_models (env : environment)
    (training_pairs : list training_pair) (max_epochs : Z) (w : world) :
  MIN_IMAGES_FOR_TRAINING ≤ length training_pairs →
  let w' := run_training_task env training_pairs max_epochs w in
  _models_loaded w' = false
  ∨ (_models w' = _models w ∧ _models_loaded w' = _models_loaded w).
Proof.
  intros Hmin. cbv zeta.
  destruct (server_run_unfold env max_epochs training_pairs w Hmin)
    as (folds & r & l2 & w2 & res & _ & _ & _ & Hk & _ & _ & Hrun).
  pose proof (rk_untouched _ _ Hk) as Hu. cbn [fst snd] in Hu.
  unfold untouched in Hu. injection Hu as _ _ _ Hms Hml _ _.
  destruct r as [[]|e]; cbn [run_end] in Hrun; cbv zeta in Hrun;
    destruct (run_training_task_status env max_epochs _ _ _ _ _ Hrun)
      as (_ & -> & -> & _); [by left|].
  right. done.
Qed.

(** X30. Models marked as loaded are never an empty set: this holds
    when the server starts, and every request handled and every
    training task run keeps it. So [infer], for an identifier it
    accepts that names an image, answers 503 exactly when there is no
    promoted file. *)
Theorem models_present_invariant (env : environment) :
  (∀ w, _models_loaded w = false → models_present w)
  ∧ (∀ w w', server_step env w w' → models_present w → models_present w')
  ∧ (∀ ensemble image_id image_path w,
       models_present w →
       validate_image_id image_id = true →
       data_manager.get_image_path (data w) image_id = Some image_path →
       (infer ensemble image_id w).1
       = error_response 503 (message "model not available, train first")
       ↔ best_pt w = None).
Proof.
  split; [by intros w Hl Hl'; rewrite Hl in Hl'|]. split.
  - intros w w' Hstep Hinv. unfold models_present in *.
    destruct Hstep as [ensemble image_id w|image_id content w|max_epochs w
                      |w|version w|training_pairs max_epochs w Hmin].
    + destruct (infer_models ensemble image_id w)
        as [->|(Hl & Hb & ->)]; [done|].
      intros _. cbn [_models set_inference]. by apply ensemble_of_best.
    + rewrite submit_label_eq.
      destruct (validate_image_id image_id); cbn [negb]; [|done].
      by destruct (bool_decide _).
    + unfold start_training. cbv zeta. repeat case_decide; done.
    + unfold cancel_training. case_decide; done.
    + unfold restore_model_version. case_decide; [done|].
      pose proof (restore_version_cases version w) as Hcases.
      destruct (version_manager.locate_version (versions w) version);
        [destruct Hcases as (d & _ & ->)|rewrite Hcases..]; done.
    + cbn [run_task].
      destruct (run_task_models env training_pairs max_epochs w Hmin)
        as [Hl|[-> ->]]; [|done].
      rewrite Hl. done.
  - intros ensemble image_id image_path w Hinv Hv Hp.
    unfold infer. rewrite Hv, Hp. cbn [negb].
    destruct (get_image_path_read _ _ _ (validate_image_id_name _ Hv) Hp)
      as [content Hc].
    destruct (best_pt w) as [c|] eqn:Hb.
    + rewrite bool_decide_eq_true_2 by eauto. cbn [negb].
      split; [|done]. rewrite run_inference_eq, Hc.
      assert (∀ ms (w' : world), ms ≠ [] →
                (match inference_answer ensemble ms (Some content) with
                 | Ok None =>
                     (error_response 503
                        (message "model not available, train first"), w')
                 | Ok (Some mask_bytes) => (Response mask_bytes, w')
                 | Raise e =>
                     (error_response 500 (exception_text e), w')
                 end).1
                ≠ error_response 503
                    (message "model not available, train first"))
        as Hno.
      { intros [|m ms] w' Hne; [done|]. unfold inference_answer.
        by destruct (ensemble _ _). }
      destruct (_models_loaded w) eqn:Hl.
      * intros H. exfalso. eapply Hno; [|exact H]. by apply Hinv.
      * intros H. exfalso. eapply Hno; [|exact H].
        apply ensemble_of_best. rewrite Hb. eauto.
    + rewrite bool_decide_eq_false_2 by by intros [? ?]. done.
Qed.
End LoadedModels.

Lemma get_next_unlabeled_spec_witness :
  data_manager.is_png "y.png" = true
  ∧ is_Some (unannotated_images example_store !! "y.png")
  ∧ unannotated_annotations example_store !! "y.png" = None.
Proof.
  destruct (get_next_unlabeled_spec "sequential" 0 example_store)
    as [_ Hsome].
  destruct (Hsome "y.png") as (Hpng & Himg & Hnone & _).
  - vm_compute. reflexivity.
  - split; [exact Hpng|]. split; [exact Himg|exact Hnone].
Defined.


Lemma version_log_well_formed_witness :
  ∃ log',
    version_manager.set_fold_split_info example_log 0 2 1 = Ok log'
    ∧ (log_ok example_log → log_ok log').
Proof.
  destruct (version_log_well_formed steady_env "v002" example_pairs 2 0 0
              example_world example_log 0) as (_ & Hsplit & _).
  specialize (Hsplit 2 1).
  rewrite decide_True in Hsplit by (vm_compute; lia).
  destruct Hsplit as (log' & Hrun & Hok & _).
  exists log'. split; [exact Hrun|exact Hok].
Defined.
